(** * Study-Buddy-Agent: the deterministic core, embedded and verified

    The programmatic part of the repository is a set of helpers around
    warehouse tables ([backend/app/db_utils.py], [courses_db.py],
    [test_results.py]) and three plain functions
    ([is_valid_youtube_link], [filter_videos_with_valid_links],
    [store_results]).  This file embeds them function by function and
    proves the properties the specification states about them.

    Conventions.
    - A Python [dict] with string keys is a [gmap string _]; a dict that
      mixes integers and strings holds [pyval]s.
    - An exception is a value of [exn]; code that may raise returns an
      [outcome].
    - The warehouse is a record of tables (lists of rows, in insertion
      order; a SELECT without ORDER BY answers in that order) together
      with the log of statements issued so far.  Database methods run in
      the state-and-exception monad [M].
    - The tables exist from the start: the constructors of the database
      classes create a missing table and do nothing else.
    - The warehouse is assumed reachable: a statement is rejected only when
      one of its parameters does not fit the declared column (wrong type,
      or NULL in a REQUIRED column).
    - Wall-clock readings and the answer of the remote host to a HEAD
      request are inputs of the functions that use them.
    - A TIMESTAMP column is kept as the text that was bound to it.  Read
      back it is a timezone-aware [datetime], and what [str] and
      [isoformat] make of it is another text than the one bound: these
      renderings are inputs, as is the float arithmetic of AVG and of
      [round(x, 2)] (class [Runtime]).
    - The order in which the warehouse answers an ORDER BY is an input of
      the query methods as well: the statement does not fix the order of
      rows that compare equal. *)

From Stdlib Require Import ZArith QArith Qround Qabs String Ascii List Lia Bool Sorted.
From stdpp Require Import base option list gmap strings pretty.

Open Scope string_scope.
Open Scope list_scope.
Open Scope Z_scope.

(* ================================================================== *)
(** * Python values, exceptions, outcomes                              *)
(* ================================================================== *)

Module Py.

(** The values that travel in the loosely typed dicts of the source. *)
Inductive pyval : Type :=
| VNone
| VInt (z : Z)
| VStr (s : string)
| VDict (items : list (string * string)).

(** The text of an exception, kept structured: the f-string that renders
    it is display only. *)
Inductive message : Type :=
| Missing_required_field (field : string)
    (* f"Missing required field: {field}" *)
| Roll_number_required
    (* "Roll number is required for update" *)
| Student_does_not_exist (rollno : pyval)
    (* f"Student with Roll No {student['RollNo']} does not exist" *)
| Empty_separator.
    (* str.split("") *)

Inductive exn : Type :=
| ValueError (m : message)
| TypeError
| IndexError
| KeyError (key : string)
| LocationParseError   (* urllib3.exceptions.LocationParseError *)
| BadRequest.   (* the warehouse rejected the statement *)

Inductive outcome (A : Type) : Type :=
| Ok (a : A)
| Raise (e : exn).
Arguments Ok {A} a.
Arguments Raise {A} e.

Definition obind {A B} (o : outcome A) (k : A → outcome B) : outcome B :=
  match o with
  | Ok a => k a
  | Raise e => Raise e
  end.

(** Truthiness of a string, as [if s:] and [not s] read it. *)
Definition str_truthy (s : string) : bool := negb (String.eqb s "").

(** [a > b] and [a < b]: integers compare, anything else against an
    integer is a [TypeError]. *)
Definition py_gt (a b : pyval) : outcome bool :=
  match a, b with
  | VInt x, VInt y => Ok (x >? y)
  | _, _ => Raise TypeError
  end.

Definition py_lt (a b : pyval) : outcome bool :=
  match a, b with
  | VInt x, VInt y => Ok (x <? y)
  | _, _ => Raise TypeError
  end.

(** [seq[i]] *)
Definition py_index {A} (l : list A) (i : nat) : outcome A :=
  match l !! i with
  | Some x => Ok x
  | None => Raise IndexError
  end.

(** [d[k]] and [d.get(k, default)] *)
Definition dict_item {V} (d : gmap string V) (k : string) : outcome V :=
  match d !! k with
  | Some v => Ok v
  | None => Raise (KeyError k)
  end.

Definition dict_get {V} (d : gmap string V) (k : string) (dflt : V) : V :=
  default dflt (d !! k).

(** [k in d] *)
Definition dict_has {V} (d : gmap string V) (k : string) : bool :=
  bool_decide (is_Some (d !! k)).

(** [round(x)] on a float holding the rational [x] exactly: nearest
    integer, a tie going to the even neighbour. *)
Definition py_round (x : Q) : Z :=
  let f := Qfloor x in
  let r := (x - inject_Z f)%Q in
  match (r ?= 1 # 2)%Q with
  | Lt => f
  | Gt => f + 1
  | Eq => if Z.even f then f else f + 1
  end.

(** Rounding to two decimals with [py_round], on the exact rational. *)
Definition py_round2 (x : Q) : Q :=
  (inject_Z (py_round (x * 100)) / 100)%Q.

(** What the client library and the float arithmetic of the platform
    contribute; they are inputs of the code, as the clock is.
    - A TIMESTAMP that is read back is a timezone-aware [datetime]:
      [str_of_timestamp ts] and [isoformat_of_timestamp ts] are what
      [str(...)] and [.isoformat()] make of the one read back from a
      column that was bound the text [ts].
    - [float_avg l] is the FLOAT64 that AVG answers over the integers [l]
      and [float_round2 x] is [round(x, 2)] on the float [x], each float
      taken as the rational it holds. *)
Class Runtime : Type := {
  str_of_timestamp : string → string;
  isoformat_of_timestamp : string → string;
  float_avg : list Z → Q;
  float_round2 : Q → Q
}.

End Py.
Export Py.

Notation "'let?' x ':=' o 'in' k" := (obind o (fun x => k))
  (at level 10, x name, o at level 100, k at level 200,
   format "'[v' 'let?'  x  ':='  o  'in' '/' k ']'").

(* ================================================================== *)
(** * The string methods the source uses                               *)
(* ================================================================== *)

Module PyStr.

(** [s.startswith(p)] *)
Definition startswith (s p : string) : bool := String.prefix p s.

(** [sub in s] *)
Fixpoint py_in (sub s : string) : bool :=
  if String.prefix sub s then true
  else match s with
       | EmptyString => false
       | String _ s' => py_in sub s'
       end.

Fixpoint drop (n : nat) (s : string) : string :=
  match n, s with
  | O, _ => s
  | S n', String _ s' => drop n' s'
  | S _, EmptyString => EmptyString
  end.

(** The text before and after the leftmost occurrence of [sep]. *)
Fixpoint find_split (sep s : string) : option (string * string) :=
  if String.prefix sep s then Some (EmptyString, drop (String.length sep) s)
  else match s with
       | EmptyString => None
       | String c s' =>
           match find_split sep s' with
           | Some (a, b) => Some (String c a, b)
           | None => None
           end
       end.

(** [s.split(sep)] cuts at the occurrences of [sep], scanning from the left
    without overlap.  Every cut consumes at least one character, so
    [String.length s] rounds suffice. *)
Fixpoint split_fuel (fuel : nat) (sep s : string) : list string :=
  match fuel with
  | O => [s]
  | S fuel' =>
      match find_split sep s with
      | None => [s]
      | Some (a, b) => a :: split_fuel fuel' sep b
      end
  end.

Definition py_split (s sep : string) : outcome (list string) :=
  if String.eqb sep "" then Raise (ValueError Empty_separator)
  else Ok (split_fuel (String.length s) sep s).

(** [s.split(sep)[0]]: the text up to the leftmost occurrence of [sep],
    all of [s] when there is none. *)
Definition upto (sep s : string) : string :=
  match find_split sep s with
  | Some (a, _) => a
  | None => s
  end.

(** [s] is [pre], [sep], [post], and no occurrence of [sep] starts
    further left. *)
Definition leftmost (sep s pre post : string) : Prop :=
  s = pre +:+ sep +:+ post ∧
  ∀ p q, s = p +:+ sep +:+ q → (String.length pre ≤ String.length p)%nat.

(** [seg] is the text of [s] up to its leftmost [sep], or all of [s] when
    [sep] does not occur. *)
Definition cut_at (sep s seg : string) : Prop :=
  (∃ post, leftmost sep s seg post) ∨ (seg = s ∧ py_in sep s = false).

End PyStr.
Export PyStr.

(* ================================================================== *)
(** * The warehouse: tables, statements, the monad of database code    *)
(* ================================================================== *)

Module Student.
(** One row of [students]; a NULLABLE column is an [option]. *)
Record row : Type := mk {
  RollNo : Z;
  Name : string;
  Grade : Z;
  Language : string;
  Language1 : option Z;
  Language2 : option Z;
  Language3 : option Z;
  Maths : option Z;
  Science : option Z;
  Social : option Z;
  TimeStamp : option string
}.
End Student.

Module Teacher.
(** One row of [teachers].  [Grades] holds the JSON text of a list of
    integers; the row keeps the list that text denotes. *)
Record row : Type := mk {
  StaffID : Z;
  Name : string;
  Grades : list Z;
  Subject : string;
  TimeStamp : string
}.
End Teacher.

Module Employee.
(** One row of [employees].  [Skills] holds [json.dumps] of a value; the
    row keeps the value. *)
Record row : Type := mk {
  EmployeeId : Z;
  Name : string;
  CurrentRole : option string;
  Team : option string;
  CareerGoal : string;
  TimeAllocated : option Z;
  Skills : pyval;
  TimeStamp : option string
}.
End Employee.

Module Recommendation.
(** One row of [student_course_recommendations]. *)
Record row : Type := mk {
  RollNo : Z;
  StudentName : string;
  VideoAuthorName : string;
  VideoLink : string;
  VideoLanguage : string;
  VideoSubject : string;
  VideoTitle : string;
  VideoDescription : option string;
  TimeStamp : option string
}.
End Recommendation.

Module TestResult.
(** One row of [student_test_results]. *)
Record row : Type := mk {
  RollNo : Z;
  Subject : string;
  QuizScore : Z;
  EvaluatedScore : Z;
  TotalScore : Z;
  TestDate : string
}.
End TestResult.

Module Warehouse.

Record tables : Type := mk_tables {
  students : list Student.row;
  teachers : list Teacher.row;
  employees : list Employee.row;
  recommendations : list Recommendation.row;
  test_results : list TestResult.row
}.

Inductive table_name : Type :=
| students_table | teachers_table | employees_table
| recommendations_table | test_results_table.

(** What [client.query] and [client.insert_rows_json] are asked to run. *)
Inductive statement : Type :=
| SELECT (t : table_name)
| INSERT (t : table_name)
| UPDATE (t : table_name)
| DELETE (t : table_name)
| INSERT_ROWS_JSON (t : table_name).

Record world : Type := mk_world {
  stored : tables;
  jobs : list statement
}.

(** Database code: it reads and writes the world and may raise.  An
    exception keeps the world as it was when it was raised. *)
Definition M (A : Type) : Type := world → outcome A * world.

Definition ret {A} (a : A) : M A := λ w, (Ok a, w).

Definition bind {A B} (m : M A) (k : A → M B) : M B :=
  λ w, match m w with
       | (Ok a, w') => k a w'
       | (Raise e, w') => (Raise e, w')
       end.

Definition raise {A} (e : exn) : M A := λ w, (Raise e, w).

(** [try: m  except Exception as e: h e] *)
Definition catch {A} (m : M A) (h : exn → M A) : M A :=
  λ w, match m w with
       | (Ok a, w') => (Ok a, w')
       | (Raise e, w') => h e w'
       end.

Definition lift {A} (o : outcome A) : M A := λ w, (o, w).

Definition issue (s : statement) : M unit :=
  λ w, (Ok tt, mk_world (stored w) (jobs w ++ [s])).

(** The world once [s] has been issued, the tables as they were. *)
Definition logged (s : statement) (w : world) : world :=
  mk_world (stored w) (jobs w ++ [s]).

Definition read_tables : M tables := λ w, (Ok (stored w), w).

Definition write_tables (t : tables) : M unit :=
  λ w, (Ok tt, mk_world t (jobs w)).

Definition set_students (f : list Student.row → list Student.row) (t : tables) : tables :=
  mk_tables (f (students t)) (teachers t) (employees t) (recommendations t) (test_results t).
Definition set_teachers (f : list Teacher.row → list Teacher.row) (t : tables) : tables :=
  mk_tables (students t) (f (teachers t)) (employees t) (recommendations t) (test_results t).
Definition set_employees (f : list Employee.row → list Employee.row) (t : tables) : tables :=
  mk_tables (students t) (teachers t) (f (employees t)) (recommendations t) (test_results t).
Definition set_recommendations
    (f : list Recommendation.row → list Recommendation.row) (t : tables) : tables :=
  mk_tables (students t) (teachers t) (employees t) (f (recommendations t)) (test_results t).
Definition set_test_results (f : list TestResult.row → list TestResult.row) (t : tables) : tables :=
  mk_tables (students t) (teachers t) (employees t) (recommendations t) (f (test_results t)).

(** ** Binding a Python value to a typed query parameter.
    [None] binds as NULL; a value of the wrong type is rejected. *)
Definition int64 (v : pyval) : outcome (option Z) :=
  match v with
  | VInt z => Ok (Some z)
  | VNone => Ok None
  | _ => Raise BadRequest
  end.

Definition text (v : pyval) : outcome (option string) :=
  match v with
  | VStr s => Ok (Some s)
  | VNone => Ok None
  | _ => Raise BadRequest
  end.

(** A REQUIRED column takes no NULL. *)
Definition required {A} (x : option A) : outcome A :=
  match x with
  | Some a => Ok a
  | None => Raise BadRequest
  end.

(** [WHERE key = @param]: a NULL parameter equals nothing. *)
Definition key_is {R} (key : R → Z) (param : option Z) (r : R) : bool :=
  match param with
  | Some k => key r =? k
  | None => false
  end.

(** [for field in required_fields: if field not in d: raise ValueError] *)
Fixpoint check_required (required_fields : list string) (d : gmap string pyval)
  : outcome unit :=
  match required_fields with
  | [] => Ok tt
  | field :: rest =>
      if negb (dict_has d field) then Raise (ValueError (Missing_required_field field))
      else check_required rest d
  end.

(** ** Notions the statements use *)

(** The first required field a dict lacks. *)
Definition first_missing (required_fields : list string) (d : gmap string pyval)
  : option string :=
  head (filter (λ field, d !! field = None) required_fields).

(** A statement whose parameters do not fit is rejected, nothing else is
    raised. *)
Definition rejects_only {A} (o : outcome A) : Prop :=
  match o with
  | Ok _ => True
  | Raise e => e = BadRequest
  end.

End Warehouse.
Export Warehouse.

Notation "'let*' x ':=' m 'in' k" := (bind m (fun x => k))
  (at level 10, x name, m at level 100, k at level 200,
   format "'[v' 'let*'  x  ':='  m  'in' '/' k ']'").
Notation "m ';;' k" := (bind m (fun _ => k))
  (at level 100, k at level 200, right associativity,
   format "'[v' m  ';;' '/' k ']'").

(* ================================================================== *)
(** * db_utils.py: StudentDatabase                                     *)
(* ================================================================== *)

Module StudentDatabase.

(** [SELECT ... FROM students WHERE RollNo = @rollno] *)
Definition where_RollNo (param : option Z) (t : tables) : list Student.row :=
  filter (λ r, key_is Student.RollNo param r = true) (students t).

(** [student_exists(rollno)] *)
Definition student_exists (rollno : pyval) : M bool :=
  issue (SELECT students_table);;
  let* param := lift (int64 rollno) in
  let* t := read_tables in
  let results := where_RollNo param t in
  ret (match results with [] => false | _ :: _ => true end).

Definition nullable_int (x : option Z) : pyval :=
  match x with Some z => VInt z | None => VNone end.

Section WithRuntime.

Context `{!Runtime}.

(** The dict [get_student] builds from a row.  [row.get(col, 0)] on a
    selected column gives the stored value, [None] when it is NULL;
    [str(row['TimeStamp'])] is the rendering of the time read back. *)
Definition student_dict (row : Student.row) : gmap string pyval :=
  <["RollNo" := VInt (Student.RollNo row)]> (
  <["Name" := VStr (Student.Name row)]> (
  <["Grade" := VInt (Student.Grade row)]> (
  <["Language" := VStr (Student.Language row)]> (
  <["Language1" := nullable_int (Student.Language1 row)]> (
  <["Language2" := nullable_int (Student.Language2 row)]> (
  <["Language3" := nullable_int (Student.Language3 row)]> (
  <["Maths" := nullable_int (Student.Maths row)]> (
  <["Science" := nullable_int (Student.Science row)]> (
  <["Social" := nullable_int (Student.Social row)]> (
  <["TimeStamp" := match Student.TimeStamp row with
                   | Some ts => VStr (str_of_timestamp ts)
                   | None => VNone
                   end]> ∅)))))))))).

(** [get_student(rollno)] *)
Definition get_student (rollno : pyval) : M (gmap string pyval) :=
  issue (SELECT students_table);;
  let* param := lift (int64 rollno) in
  let* t := read_tables in
  let results := where_RollNo param t in
  match results with
  | row :: _ => ret (student_dict row)
  | [] => ret ∅
  end.

(** The row the INSERT of [insert_student] writes: its eleven query
    parameters, bound to the columns. *)
Definition student_row (now : string) (student : gmap string pyval)
    (p_RollNo : pyval) : outcome Student.row :=
  let p_Name := dict_get student "Name" (VStr "") in
  let p_Grade := dict_get student "Grade" (VInt 1) in
  let p_Language := dict_get student "Language" (VStr "English") in
  let p_Language1 := dict_get student "Language1" (VInt 0) in
  let p_Language2 := dict_get student "Language2" (VInt 0) in
  let p_Language3 := dict_get student "Language3" (VInt 0) in
  let p_Maths := dict_get student "Maths" (VInt 0) in
  let p_Science := dict_get student "Science" (VInt 0) in
  let p_Social := dict_get student "Social" (VInt 0) in
  let p_TimeStamp := dict_get student "TimeStamp" (VStr now) in
  let? c_RollNo := obind (int64 p_RollNo) required in
  let? c_Name := obind (text p_Name) required in
  let? c_Grade := obind (int64 p_Grade) required in
  let? c_Language := obind (text p_Language) required in
  let? c_Language1 := int64 p_Language1 in
  let? c_Language2 := int64 p_Language2 in
  let? c_Language3 := int64 p_Language3 in
  let? c_Maths := int64 p_Maths in
  let? c_Science := int64 p_Science in
  let? c_Social := int64 p_Social in
  let? c_TimeStamp := text p_TimeStamp in
  Ok (Student.mk c_RollNo c_Name c_Grade c_Language c_Language1 c_Language2
        c_Language3 c_Maths c_Science c_Social c_TimeStamp).

Definition student_required_fields : list string :=
  ["RollNo"; "Name"; "Grade"; "Language"].

(** [insert_student(student)]; [now] is [datetime.utcnow().isoformat()]. *)
Definition insert_student (now : string) (student : gmap string pyval) : M unit :=
  let required_fields := student_required_fields in
  lift (check_required required_fields student);;
  let* p_RollNo := lift (dict_item student "RollNo") in
  issue (INSERT students_table);;
  let* row := lift (student_row now student p_RollNo) in
  let* t := read_tables in
  write_tables (set_students (λ rows, rows ++ [row]) t).

(** [student.get(k, existing[k])]: the default is evaluated first. *)
Definition merged (student existing : gmap string pyval) (k : string) : outcome pyval :=
  let? old := dict_item existing k in
  Ok (dict_get student k old).

(** [update_student(student)] *)
Definition update_student (now : string) (student : gmap string pyval) : M unit :=
  if negb (dict_has student "RollNo") then raise (ValueError Roll_number_required)
  else
  let* rollno := lift (dict_item student "RollNo") in
  let* found := student_exists rollno in
  if negb found then raise (ValueError (Student_does_not_exist rollno))
  else
  let* existing := get_student rollno in
  let* u_Name := lift (merged student existing "Name") in
  let* u_Grade := lift (merged student existing "Grade") in
  let* u_Language := lift (merged student existing "Language") in
  let* u_Language1 := lift (merged student existing "Language1") in
  let* u_Language2 := lift (merged student existing "Language2") in
  let* u_Language3 := lift (merged student existing "Language3") in
  let* u_Maths := lift (merged student existing "Maths") in
  let* u_Science := lift (merged student existing "Science") in
  let* u_Social := lift (merged student existing "Social") in
  let updated : gmap string pyval :=
    <["RollNo" := rollno]> (
    <["Name" := u_Name]> (
    <["Grade" := u_Grade]> (
    <["Language" := u_Language]> (
    <["Language1" := u_Language1]> (
    <["Language2" := u_Language2]> (
    <["Language3" := u_Language3]> (
    <["Maths" := u_Maths]> (
    <["Science" := u_Science]> (
    <["Social" := u_Social]> (
    <["TimeStamp" := VStr now]> ∅)))))))))) in
  issue (UPDATE students_table);;
  let* change := lift (
    let? c_Name := obind (obind (dict_item updated "Name") text) required in
    let? c_Grade := obind (obind (dict_item updated "Grade") int64) required in
    let? c_Language := obind (obind (dict_item updated "Language") text) required in
    let? c_Language1 := obind (dict_item updated "Language1") int64 in
    let? c_Language2 := obind (dict_item updated "Language2") int64 in
    let? c_Language3 := obind (dict_item updated "Language3") int64 in
    let? c_Maths := obind (dict_item updated "Maths") int64 in
    let? c_Science := obind (dict_item updated "Science") int64 in
    let? c_Social := obind (dict_item updated "Social") int64 in
    let? c_TimeStamp := obind (dict_item updated "TimeStamp") text in
    let? param := obind (dict_item updated "RollNo") int64 in
    Ok (λ r : Student.row,
          if key_is Student.RollNo param r
          then Student.mk (Student.RollNo r) c_Name c_Grade c_Language c_Language1
                 c_Language2 c_Language3 c_Maths c_Science c_Social c_TimeStamp
          else r)) in
  let* t := read_tables in
  write_tables (set_students (map change) t).

(** One round of [for subject, score in subjects.items()]. *)
Definition weak_step (threshold : Z) (weak_subjects : list string)
    (item : string * pyval) : outcome (list string) :=
  let '(subject, score) := item in
  let? above := py_gt score (VInt 0) in
  if above then
    let? below := py_lt score (VInt threshold) in
    if below then Ok (weak_subjects ++ [subject]) else Ok weak_subjects
  else Ok weak_subjects.

Fixpoint weak_loop (threshold : Z) (weak_subjects : list string)
    (items : list (string * pyval)) : outcome (list string) :=
  match items with
  | [] => Ok weak_subjects
  | item :: rest =>
      let? weak_subjects' := weak_step threshold weak_subjects item in
      weak_loop threshold weak_subjects' rest
  end.

Definition default_threshold : Z := 60.

(** [get_weak_subjects(rollno, threshold=60)] *)
Definition get_weak_subjects (rollno : Z) (threshold : Z) : M (list string) :=
  let* student := get_student (VInt rollno) in
  if bool_decide (dom student = ∅) then ret []
  else
  let subjects :=
    [ ("Language1", dict_get student "Language1" (VInt 0));
      ("Language2", dict_get student "Language2" (VInt 0));
      ("Language3", dict_get student "Language3" (VInt 0));
      ("Maths", dict_get student "Maths" (VInt 0));
      ("Science", dict_get student "Science" (VInt 0));
      ("Social", dict_get student "Social" (VInt 0)) ] in
  lift (weak_loop threshold [] subjects).

End WithRuntime.

(** ** Notions the statements use *)

(** The stored student with a roll number: the row [get_student] reads. *)
Definition stored_student (rollno : Z) (t : tables) : option Student.row :=
  head (where_RollNo (Some rollno) t).

(** [row] is the first row of the students table that has the roll
    number, said on the table itself. *)
Definition first_with_roll_number (rollno : Z) (t : tables) (row : Student.row)
  : Prop :=
  ∃ before after,
    students t = before ++ row :: after ∧
    Student.RollNo row = rollno ∧
    ∀ r, r ∈ before → Student.RollNo r ≠ rollno.

(** The six subjects and their columns. *)
Definition score_columns : list (string * (Student.row → option Z)) :=
  [ ("Language1", Student.Language1); ("Language2", Student.Language2);
    ("Language3", Student.Language3); ("Maths", Student.Maths);
    ("Science", Student.Science); ("Social", Student.Social) ].

(** A student whose six scores are integers (no NULL), as
    [insert_student] writes them from integer scores or their default 0. *)
Definition recorded (row : Student.row) : Prop :=
  ∀ subject col, (subject, col) ∈ score_columns → is_Some (col row).

(** Every stored student has integer scores. *)
Definition all_recorded (t : tables) : Prop :=
  ∀ r, r ∈ students t → recorded r.

(** A dict that gives each score it holds as an integer. *)
Definition integer_scores (d : gmap string pyval) : Prop :=
  ∀ subject col, (subject, col) ∈ score_columns →
    d !! subject = None ∨ ∃ score, d !! subject = Some (VInt score).

Definition as_item (p : string * Z) : string * pyval := (p.1, VInt p.2).

Definition is_weak (threshold : Z) (p : string * Z) : Prop := 0 < p.2 < threshold.

Global Instance is_weak_dec (threshold : Z) (p : string * Z) :
  Decision (is_weak threshold p).
Proof. unfold is_weak. apply _. Defined.

(** A row of the updated student: the supplied fields over the values of
    [row], the time stamp refreshed. *)
Definition patched (now : string) (row : Student.row)
    (name : option string) (grade : option Z) (language : option string)
    (l1 l2 l3 m sc so : option Z) (r : Student.row) : Student.row :=
  Student.mk (Student.RollNo r)
    (default (Student.Name row) name)
    (default (Student.Grade row) grade)
    (default (Student.Language row) language)
    (match l1 with Some z => Some z | None => Student.Language1 row end)
    (match l2 with Some z => Some z | None => Student.Language2 row end)
    (match l3 with Some z => Some z | None => Student.Language3 row end)
    (match m with Some z => Some z | None => Student.Maths row end)
    (match sc with Some z => Some z | None => Student.Science row end)
    (match so with Some z => Some z | None => Student.Social row end)
    (Some now).

End StudentDatabase.

(* ================================================================== *)
(** * db_utils.py: TeacherDatabase                                     *)
(* ================================================================== *)

Module TeacherDatabase.

(** The [message] of a reply dict, kept structured. *)
Inductive teacher_message : Type :=
| Teacher_profile_created (name : string)
| Error_inserting_teacher
| Error_saving_teacher (e : exn)
| No_fields_to_update
| Teacher_profile_updated
| Error_updating_teacher (e : exn)
| Invalid_subject (subject : string)
| No_students_found (grade : Z)
| Error_calculating_class_average (e : exn).

(** The dicts the methods return: [{"success": .., "message": ..}], or
    the statistics of a class. *)
Inductive reply : Type :=
| Reply (success : bool) (message : teacher_message)
| Class_average (grade : Z) (subject : string) (average_score : Q)
    (student_count : Z) (min_score max_score : option Z).

(** [teacher_exists(staff_id)] *)
Definition teacher_exists (staff_id : Z) : M bool :=
  catch
    (issue (SELECT teachers_table);;
     let* t := read_tables in
     let count := length (filter (λ r, Teacher.StaffID r = staff_id) (teachers t)) in
     ret (0 <? Z.of_nat count))
    (λ _, ret false).

(** [save_teacher(staff_id, name, grades, subject)]; [now] is
    [datetime.now().isoformat()]. *)
Definition save_teacher (now : string) (staff_id : Z) (name : string)
    (grades : list Z) (subject : string) : M reply :=
  let row_to_insert := Teacher.mk staff_id name grades subject now in
  catch
    (issue (INSERT_ROWS_JSON teachers_table);;
     let* t := read_tables in
     write_tables (set_teachers (λ rows, rows ++ [row_to_insert]) t);;
     ret (Reply true (Teacher_profile_created name)))
    (λ e, ret (Reply false (Error_saving_teacher e))).

Section WithRuntime.

Context `{!Runtime}.

(** The dict [get_teacher] builds from a row, its five keys as the fields
    of a row record: [json.loads] of the grades is the list, and
    [row["TimeStamp"].isoformat()] is the rendering of the time read
    back. *)
Definition teacher_dict (row : Teacher.row) : Teacher.row :=
  Teacher.mk (Teacher.StaffID row) (Teacher.Name row) (Teacher.Grades row)
    (Teacher.Subject row) (isoformat_of_timestamp (Teacher.TimeStamp row)).

(** [get_teacher(staff_id)]: the dict, or [None]. *)
Definition get_teacher (staff_id : Z) : M (option Teacher.row) :=
  catch
    (issue (SELECT teachers_table);;
     let* t := read_tables in
     let results := filter (λ r, Teacher.StaffID r = staff_id) (teachers t) in
     ret (teacher_dict <$> head results))
    (λ _, ret None).

End WithRuntime.

(** One entry of the [updates] list that becomes the SET clause. *)
Inductive assignment : Type :=
| Name_is (name : string)           (* "Name = @name" *)
| Grades_is (grades : list Z)       (* "Grades = @grades" *)
| Subject_is (subject : string)     (* "Subject = @subject" *)
| TimeStamp_is_current.             (* "TimeStamp = CURRENT_TIMESTAMP()" *)

Definition assign (now : string) (r : Teacher.row) (a : assignment) : Teacher.row :=
  match a with
  | Name_is name =>
      Teacher.mk (Teacher.StaffID r) name (Teacher.Grades r) (Teacher.Subject r)
        (Teacher.TimeStamp r)
  | Grades_is grades =>
      Teacher.mk (Teacher.StaffID r) (Teacher.Name r) grades (Teacher.Subject r)
        (Teacher.TimeStamp r)
  | Subject_is subject =>
      Teacher.mk (Teacher.StaffID r) (Teacher.Name r) (Teacher.Grades r) subject
        (Teacher.TimeStamp r)
  | TimeStamp_is_current =>
      Teacher.mk (Teacher.StaffID r) (Teacher.Name r) (Teacher.Grades r)
        (Teacher.Subject r) now
  end.

(** [if name:], [if grades:], [if subject:] on an optional argument. *)
Definition given_text (x : option string) : option string :=
  match x with
  | Some s => if str_truthy s then Some s else None
  | None => None
  end.

Definition given_list (x : option (list Z)) : option (list Z) :=
  match x with
  | Some (g :: l) => Some (g :: l)
  | _ => None
  end.

(** [update_teacher(staff_id, name=None, grades=None, subject=None)];
    [now] is the warehouse's CURRENT_TIMESTAMP(). *)
Definition update_teacher (now : string) (staff_id : Z) (name : option string)
    (grades : option (list Z)) (subject : option string) : M reply :=
  let updates := [] in
  let updates :=
    match given_text name with Some n => updates ++ [Name_is n] | None => updates end in
  let updates :=
    match given_list grades with Some g => updates ++ [Grades_is g] | None => updates end in
  let updates :=
    match given_text subject with Some s => updates ++ [Subject_is s] | None => updates end in
  match updates with
  | [] => ret (Reply false No_fields_to_update)
  | _ :: _ =>
      let updates := updates ++ [TimeStamp_is_current] in
      catch
        (issue (UPDATE teachers_table);;
         let* t := read_tables in
         write_tables
           (set_teachers
              (map (λ r, if Teacher.StaffID r =? staff_id
                         then foldl (assign now) r updates else r)) t);;
         ret (Reply true Teacher_profile_updated))
        (λ e, ret (Reply false (Error_updating_teacher e)))
  end.

(** The score column a column name selects. *)
Definition column (column_name : string) : option (Student.row → option Z) :=
  if String.eqb column_name "Maths" then Some Student.Maths
  else if String.eqb column_name "Science" then Some Student.Science
  else if String.eqb column_name "Social" then Some Student.Social
  else if String.eqb column_name "Language1" then Some Student.Language1
  else if String.eqb column_name "Language2" then Some Student.Language2
  else if String.eqb column_name "Language3" then Some Student.Language3
  else None.

Definition subject_column_map : gmap string string :=
  <["Maths" := "Maths"]> (
  <["Science" := "Science"]> (
  <["Social" := "Social"]> (
  <["Language1" := "Language1"]> (
  <["Language2" := "Language2"]> (
  <["Language3" := "Language3"]> ∅))))).

Definition sum_Z (l : list Z) : Z := foldr Z.add 0 l.

(** MIN and MAX of a column: NULL over no rows. *)
Definition min_Z (l : list Z) : option Z :=
  match l with
  | [] => None
  | x :: rest => Some (foldr Z.min x rest)
  end.

Definition max_Z (l : list Z) : option Z :=
  match l with
  | [] => None
  | x :: rest => Some (foldr Z.max x rest)
  end.

Section WithRuntime.

Context `{!Runtime}.

(** AVG of a column: NULL over no rows, else the float the warehouse
    computes. *)
Definition avg_Z (l : list Z) : option Q :=
  match l with
  | [] => None
  | _ :: _ => Some (float_avg l)
  end.

(** [get_class_average(grade, subject)] *)
Definition get_class_average (grade : Z) (subject : string) : M reply :=
  match subject_column_map !! subject with
  | None => ret (Reply false (Invalid_subject subject))
  | Some column_name =>
      if negb (str_truthy column_name) then ret (Reply false (Invalid_subject subject))
      else
      catch
        (issue (SELECT students_table);;
         let* col := lift (required (column column_name)) in
         let* t := read_tables in
         let scores :=
           omap col (filter (λ r, Student.Grade r = grade) (students t)) in
         let average_score := avg_Z scores in
         let student_count := Z.of_nat (length scores) in
         let min_score := min_Z scores in
         let max_score := max_Z scores in
         if 0 <? student_count then
           ret (Class_average grade subject
                  (match average_score with
                   | Some a => if Qeq_bool a 0 then 0%Q else float_round2 a
                   | None => 0%Q
                   end)
                  student_count min_score max_score)
         else ret (Reply false (No_students_found grade)))
        (λ e, ret (Reply false (Error_calculating_class_average e)))
  end.

End WithRuntime.

(** ** Notions the statements use *)

(** The float arithmetic keeps a mean between the values: AVG over
    integers between [lo] and [hi] answers a float between them, and
    rounding a float between two integers to two decimals leaves it
    between them. *)
Definition mean_between_the_values `{!Runtime} : Prop :=
  (∀ (l : list Z) (lo hi : Z),
     l ≠ [] → (∀ x, x ∈ l → lo ≤ x ≤ hi) →
     (inject_Z lo <= float_avg l)%Q ∧ (float_avg l <= inject_Z hi)%Q) ∧
  (∀ (a : Q) (lo hi : Z),
     (inject_Z lo <= a)%Q → (a <= inject_Z hi)%Q →
     (inject_Z lo <= float_round2 a)%Q ∧ (float_round2 a <= inject_Z hi)%Q).

(** The row an update leaves: the given fields over the old ones, the
    time stamp refreshed. *)
Definition patched_teacher (now : string) (name : option string)
    (grades : option (list Z)) (subject : option string) (r : Teacher.row)
  : Teacher.row :=
  Teacher.mk (Teacher.StaffID r)
    (default (Teacher.Name r) name)
    (default (Teacher.Grades r) grades)
    (default (Teacher.Subject r) subject)
    now.

(** No argument of [update_teacher] is given with a non-empty value. *)
Definition nothing_given (name : option string) (grades : option (list Z))
    (subject : option string) : bool :=
  match given_text name, given_list grades, given_text subject with
  | None, None, None => true
  | _, _, _ => false
  end.

(** The non-NULL scores of a subject in a grade: what the aggregate query
    ranges over. *)
Definition scores_of (grade : Z) (col : Student.row → option Z) (t : tables)
  : list Z :=
  omap col (filter (λ r, Student.Grade r = grade) (students t)).

End TeacherDatabase.

(* ================================================================== *)
(** * db_utils.py: DatabaseSessionService                              *)
(* ================================================================== *)

Module DatabaseSessionService.

(** The row the INSERT of [insert_employee] writes. *)
Definition employee_row (now : string) (employee : gmap string pyval)
    (p_EmployeeId : pyval) : outcome Employee.row :=
  let p_Name := dict_get employee "Name" (VStr "") in
  let p_CurrentRole := dict_get employee "CurrentRole" VNone in
  let p_Team := dict_get employee "Team" VNone in
  let p_CareerGoal := dict_get employee "CareerGoal" (VStr "") in
  let p_TimeAllocated := dict_get employee "TimeAllocated" VNone in
  let p_Skills := dict_get employee "Skills" (VDict []) in
  let p_TimeStamp := dict_get employee "TimeStamp" (VStr now) in
  let? c_EmployeeId := obind (int64 p_EmployeeId) required in
  let? c_Name := obind (text p_Name) required in
  let? c_CurrentRole := text p_CurrentRole in
  let? c_Team := text p_Team in
  let? c_CareerGoal := obind (text p_CareerGoal) required in
  let? c_TimeAllocated := int64 p_TimeAllocated in
  let? c_TimeStamp := text p_TimeStamp in
  Ok (Employee.mk c_EmployeeId c_Name c_CurrentRole c_Team c_CareerGoal
        c_TimeAllocated p_Skills c_TimeStamp).

Definition employee_required_fields : list string :=
  ["EmployeeId"; "Name"; "CareerGoal"].

(** [insert_employee(employee)]; [now] is [datetime.utcnow().isoformat()]. *)
Definition insert_employee (now : string) (employee : gmap string pyval) : M unit :=
  let required_fields := employee_required_fields in
  lift (check_required required_fields employee);;
  let* p_EmployeeId := lift (dict_item employee "EmployeeId") in
  issue (INSERT employees_table);;
  let* row := lift (employee_row now employee p_EmployeeId) in
  let* t := read_tables in
  write_tables (set_employees (λ rows, rows ++ [row]) t).

End DatabaseSessionService.

(* ================================================================== *)
(** * courses_db.py: StudentCourseRecommendationDatabase               *)
(* ================================================================== *)

Module StudentCourseRecommendationDatabase.

(** The row the INSERT of [insert_recommendation] writes. *)
Definition recommendation_row (now : string) (course : gmap string pyval)
    (p_RollNo : pyval) : outcome Recommendation.row :=
  let p_StudentName := dict_get course "StudentName" (VStr "") in
  let p_VideoAuthorName := dict_get course "VideoAuthorName" (VStr "Unknown") in
  let p_VideoLink := dict_get course "VideoLink" (VStr "") in
  let p_VideoLanguage := dict_get course "VideoLanguage" (VStr "English") in
  let p_VideoSubject := dict_get course "VideoSubject" (VStr "") in
  let p_VideoTitle := dict_get course "VideoTitle" (VStr "") in
  let p_VideoDescription := dict_get course "VideoDescription" (VStr "") in
  let? c_RollNo := obind (int64 p_RollNo) required in
  let? c_StudentName := obind (text p_StudentName) required in
  let? c_VideoAuthorName := obind (text p_VideoAuthorName) required in
  let? c_VideoLink := obind (text p_VideoLink) required in
  let? c_VideoLanguage := obind (text p_VideoLanguage) required in
  let? c_VideoSubject := obind (text p_VideoSubject) required in
  let? c_VideoTitle := obind (text p_VideoTitle) required in
  let? c_VideoDescription := text p_VideoDescription in
  Ok (Recommendation.mk c_RollNo c_StudentName c_VideoAuthorName c_VideoLink
        c_VideoLanguage c_VideoSubject c_VideoTitle c_VideoDescription (Some now)).

(** [insert_recommendation(course)]; [now] is
    [datetime.utcnow().isoformat()]. *)
Definition insert_recommendation (now : string) (course : gmap string pyval) : M unit :=
  let* p_RollNo := lift (dict_item course "RollNo") in
  issue (INSERT recommendations_table);;
  let* row := lift (recommendation_row now course p_RollNo) in
  let* t := read_tables in
  write_tables (set_recommendations (λ rows, rows ++ [row]) t).

(** [get_courses_for_student(rollno)], before the ORDER BY: the rows of
    the student. *)
Definition courses_of (rollno : Z) (t : tables) : list Recommendation.row :=
  filter (λ r, Recommendation.RollNo r = rollno) (recommendations t).

(** [delete_student_courses(rollno)] *)
Definition delete_student_courses (rollno : Z) : M unit :=
  issue (DELETE recommendations_table);;
  let* t := read_tables in
  write_tables
    (set_recommendations (filter (λ r, Recommendation.RollNo r ≠ rollno)) t).

End StudentCourseRecommendationDatabase.

(* ================================================================== *)
(** * evaluation_agent: test_results.py and agent.py                   *)
(* ================================================================== *)

Module Evaluation.

(** [StudentTestResultsDB.insert_result(...)] *)
Definition insert_result (rollno : Z) (subject : string) (quiz_score evaluated_score
    total_score : Z) (timestamp : string) : M unit :=
  issue (INSERT test_results_table);;
  let* t := read_tables in
  write_tables
    (set_test_results
       (λ rows, rows ++ [TestResult.mk rollno subject quiz_score evaluated_score
                           total_score timestamp]) t).

(** [round((quiz_score + evaluated_score)/2)]: the quotient of two
    integers below 2^53 by 2 is an exact float. *)
Definition total_score (quiz_score evaluated_score : Z) : Z :=
  py_round (inject_Z (quiz_score + evaluated_score) / 2)%Q.

(** [store_results(rollno, subject, quiz_score, evaluated_score)];
    [timestamp] is the formatted clock reading. *)
Definition store_results (timestamp : string) (rollno : Z) (subject : string)
    (quiz_score evaluated_score : Z) : M unit :=
  insert_result rollno subject quiz_score evaluated_score
    (total_score quiz_score evaluated_score) timestamp.

(** ** Notions the statements use *)

(** [t] is [x] rounded to the nearest integer, a tie going to the even
    neighbour. *)
Definition rounds_half_even (x : Q) (t : Z) : Prop :=
  (Qabs (inject_Z t - x) <= 1 # 2)%Q ∧
  ((Qabs (inject_Z t - x) == 1 # 2)%Q → Z.even t = true).

End Evaluation.

(* ================================================================== *)
(** * course_validation_agent/agent.py                                 *)
(* ================================================================== *)

Module CourseValidation.

(** What [requests.head(url, allow_redirects=True, timeout=5)] does: it
    returns a response with a status code, or raises a
    [requests.RequestException] (time-out, refused connection, bad URL),
    or lets an exception of another class through: on a host name with an
    empty or over-long label the library raises urllib3's
    [LocationParseError], which is no [RequestException]. *)
Inductive response : Type :=
| Status (code : Z)
| RequestException
| Other_exception (e : exn).

(** A video dict: string keys, string values
    (author_name, video_title, video_description, video_link,
    video_language, video_subject). *)
Abbreviation video := (gmap string string) (only parsing).

(** The dicts of the input list are objects; the list holds references
    to them, and the function writes through these references. *)
Abbreviation loc := nat (only parsing).
Abbreviation heap := (gmap nat (gmap string string)) (only parsing).

Definition canonical_prefix : string := "https://www.youtube.com/watch?v=".

(** A link names a video host when it holds one of the two markers. *)
Definition has_host_marker (url : string) : bool :=
  py_in "youtube.com" url || py_in "youtu.be" url.

Section WithNetwork.

Variable http_head : string → response.

(** [is_valid_youtube_link(url)]: [except requests.RequestException]
    catches that class alone. *)
Definition is_valid_youtube_link (url : string) : outcome bool :=
  if negb (str_truthy url) then Ok false
  else if negb (py_in "youtube.com" url) && negb (py_in "youtu.be" url) then Ok false
  else match http_head url with
       | Status code => Ok (code =? 200)
       | RequestException => Ok false
       | Other_exception e => Raise e
       end.

(** Lines 43-52 of [filter_videos_with_valid_links]: the normalised
    link. *)
Definition normalize_link (link : string) : outcome string :=
  if py_in "youtu.be/" link then
    let? parts := py_split link "youtu.be/" in
    let? tail := py_index parts 1 in
    let? pieces := py_split tail "?" in
    let? video_id := py_index pieces 0 in
    Ok (canonical_prefix +:+ video_id)
  else if py_in "youtube.com/watch" link && negb (startswith link "https://") then
    Ok (if startswith link "http" then link else "https://" +:+ link)
  else Ok link.

(** The object a reference points to.  Every reference of a Python list
    is live; a reference outside the heap reads as an empty dict. *)
Definition deref (h : heap) (v : loc) : video := default ∅ (h !! v).

(** [video.get("video_link", "")] through a reference. *)
Definition link_of (h : heap) (v : loc) : string :=
  dict_get (deref h v) "video_link" "".

(** One round of the [for video in videos] loop. *)
Definition visit (st : heap * list loc) (v : loc) : outcome (heap * list loc) :=
  let '(h, valid_videos) := st in
  let link := link_of h v in
  if str_truthy link then
    let? normalized_link := normalize_link link in
    let? valid := is_valid_youtube_link normalized_link in
    if valid then
      Ok (<[v := <["video_link" := normalized_link]> (deref h v)]> h,
          valid_videos ++ [v])
    else Ok (h, valid_videos)
  else Ok (h, valid_videos).

Fixpoint for_videos (st : heap * list loc) (videos : list loc)
  : outcome (heap * list loc) :=
  match videos with
  | [] => Ok st
  | v :: rest => let? st' := visit st v in for_videos st' rest
  end.

(** [filter_videos_with_valid_links(videos)]: the heap after the call and
    the returned list, or the exception that ended the call. *)
Definition filter_videos_with_valid_links (h : heap) (videos : list loc)
  : outcome (heap * list loc) :=
  for_videos (h, []) videos.

End WithNetwork.

(** The normalised link as a total function ([normalize_link] never
    raises, see [normalize_total]). *)
Definition canonical (link : string) : string :=
  match normalize_link link with
  | Ok normalized_link => normalized_link
  | Raise _ => link
  end.

(** The URL the loop sends a HEAD request to for a candidate with this
    link, if it sends one: the link is not empty and its normalised form
    holds a host marker. *)
Definition request_of (link : string) : option string :=
  if str_truthy link && has_host_marker (canonical link)
  then Some (canonical link) else None.

(** A candidate passes when a request is sent for it and answered with
    status 200. *)
Definition passes (http_head : string → response) (link : string) : bool :=
  match request_of link with
  | Some url => match http_head url with
                | Status code => code =? 200
                | _ => false
                end
  | None => false
  end.

(** The exception that the request for a candidate lets through, if it
    does. *)
Definition leaks (http_head : string → response) (link : string) : option exn :=
  match request_of link with
  | Some url => match http_head url with
                | Other_exception e => Some e
                | _ => None
                end
  | None => None
  end.

(** What a kept object becomes: its own dict with the link replaced. *)
Definition rewritten (h : heap) (v : loc) : video :=
  <["video_link" := canonical (link_of h v)]> (deref h v).

(** The heap midway through the loop that started on [h0]: exactly the
    objects met so far that passed have been rewritten. *)
Definition midway (http_head : string → response) (h0 : heap) (seen : list loc)
    (h : heap) : Prop :=
  ∀ v, (v ∈ seen ∧ passes http_head (link_of h0 v) = true
          → h !! v = Some (rewritten h0 v))
     ∧ (¬ (v ∈ seen ∧ passes http_head (link_of h0 v) = true)
          → h !! v = h0 !! v).

Import StudentCourseRecommendationDatabase.

(** The dict [save_validated_videos] hands to [insert_recommendation]. *)
Definition recommendation_of (rollno : Z) (student_name : string) (video : video)
  : gmap string pyval :=
  <["RollNo" := VInt rollno]> (
  <["StudentName" := VStr student_name]> (
  <["VideoAuthorName" := VStr (dict_get video "author_name" "Unknown")]> (
  <["VideoTitle" := VStr (dict_get video "video_title" "")]> (
  <["VideoDescription" := VStr (dict_get video "video_description" "")]> (
  <["VideoLink" := VStr (dict_get video "video_link" "")]> (
  <["VideoLanguage" := VStr (dict_get video "video_language" "English")]> (
  <["VideoSubject" := VStr (dict_get video "video_subject" "")]> ∅))))))).

(** [for video in validated_videos: cdb.insert_recommendation({...})];
    [clock i] is the clock reading of round [i]. *)
Fixpoint save_loop (clock : nat → string) (i : nat) (rollno : Z)
    (student_name : string) (validated_videos : list video) : M unit :=
  match validated_videos with
  | [] => ret tt
  | video :: rest =>
      insert_recommendation (clock i) (recommendation_of rollno student_name video);;
      save_loop clock (S i) rollno student_name rest
  end.

(** The confirmation string, kept structured:
    f"Successfully saved {len(validated_videos)} validated YouTube videos
    for Roll No {rollno}." *)
Inductive confirmation : Type :=
| Successfully_saved (count : nat) (rollno : Z).

(** [save_validated_videos(rollno, student_name, validated_videos)] *)
Definition save_validated_videos (clock : nat → string) (rollno : Z)
    (student_name : string) (validated_videos : list video) : M confirmation :=
  delete_student_courses rollno;;
  save_loop clock 0 rollno student_name validated_videos;;
  ret (Successfully_saved (length validated_videos) rollno).

(** The row [save_validated_videos] stores for a video. *)
Definition built_row (now : string) (rollno : Z) (student_name : string)
    (video : video) : Recommendation.row :=
  Recommendation.mk rollno student_name
    (dict_get video "author_name" "Unknown")
    (dict_get video "video_link" "")
    (dict_get video "video_language" "English")
    (dict_get video "video_subject" "")
    (dict_get video "video_title" "")
    (Some (dict_get video "video_description" ""))
    (Some now).

End CourseValidation.

(* ================================================================== *)
(** * Sample data                                                      *)
(* ================================================================== *)

Module Sample.

Definition rahul : Student.row :=
  Student.mk 101 "Rahul Kumar" 5 "Hindi"
    (Some 45) (Some 0) (Some 72) (Some 52) (Some 60) (Some 59)
    (Some "2025-01-10 09:00:00").

Definition asha : Teacher.row :=
  Teacher.mk 501 "Asha Rao" [5; 6] "Maths" "2025-01-05T08:00:00".

(** One student, one teacher, nothing else, no statement issued yet. *)
Definition classroom : world :=
  mk_world (mk_tables [rahul] [asha] [] [] []) [].

Definition sita : Student.row :=
  Student.mk 103 "Sita Devi" 5 "Hindi"
    (Some 81) (Some 64) (Some 0) (Some 75) (Some 38) (Some 90)
    (Some "2025-01-11 10:30:00").

Definition arun : Student.row :=
  Student.mk 104 "Arun Das" 6 "Bengali"
    (Some 66) None (Some 58) (Some 91) (Some 47) (Some 70) None.

(** Two students of grade 5 and one of grade 6. *)
Definition school : world :=
  mk_world (mk_tables [rahul; sita; arun] [asha] [] [] []) [].

(** Two candidate videos: a blog page and a video page. *)
Definition two_videos : gmap nat (gmap string string) :=
  <[0%nat := <["video_title" := "Fractions, written up"]> (
             <["video_link" := "https://example.com/fractions"]> ∅)]> (
  <[1%nat := <["video_title" := "Fractions"]> (
             <["video_link" := "https://www.youtube.com/watch?v=abc123"]> ∅)]> ∅).

(** Recommendations: three for roll number 101, in two subjects, and one
    for roll number 103. *)
Definition fractions : Recommendation.row :=
  Recommendation.mk 101 "Rahul Kumar" "Asha Rao"
    "https://www.youtube.com/watch?v=abc123" "Hindi" "Maths" "Fractions"
    (Some "") (Some "2025-01-12T08:00:00").

Definition plants : Recommendation.row :=
  Recommendation.mk 101 "Rahul Kumar" "Unknown"
    "https://www.youtube.com/watch?v=ghi789" "English" "Science" "Plants"
    (Some "") (Some "2025-01-12T08:00:01").

Definition decimals : Recommendation.row :=
  Recommendation.mk 101 "Rahul Kumar" "Asha Rao"
    "https://www.youtube.com/watch?v=def456" "Hindi" "Maths" "Decimals"
    (Some "") (Some "2025-01-12T08:00:02").

Definition rivers : Recommendation.row :=
  Recommendation.mk 103 "Sita Devi" "Unknown"
    "https://www.youtube.com/watch?v=jkl012" "Hindi" "Social" "Rivers"
    (Some "") (Some "2025-01-13T09:00:00").

Definition library : world :=
  mk_world (mk_tables [rahul; sita] [asha] [] [fractions; plants; decimals; rivers] [])
    [].

(** Two validated videos, of two subjects. *)
Definition validated : list (gmap string string) :=
  [ <["video_title" := "Fractions"]> (
    <["video_subject" := "Maths"]> (
    <["video_link" := "https://www.youtube.com/watch?v=abc123"]> ∅));
    <["video_title" := "Plants"]> (
    <["video_subject" := "Science"]> (
    <["video_link" := "https://www.youtube.com/watch?v=ghi789"]> ∅)) ].

(** An update that gives the Maths score alone. *)
Definition maths_75 : gmap string pyval :=
  <["RollNo" := VInt 101]> (<["Maths" := VInt 75]> ∅).

(** A registration with the four required fields, under the roll number
    that [rahul] already has. *)
Definition meena : gmap string pyval :=
  <["RollNo" := VInt 101]> (<["Name" := VStr "Meena"]> (
  <["Grade" := VInt 6]> (<["Language" := VStr "Tamil"]> ∅))).

(** A registration under a new roll number, the Maths score given as
    [None]. *)
Definition kiran : gmap string pyval :=
  <["RollNo" := VInt 102]> (<["Name" := VStr "Kiran"]> (
  <["Grade" := VInt 5]> (<["Language" := VStr "Telugu"]> (
  <["Maths" := VNone]> ∅)))).

(** A host that answers every request with 200. *)
Definition always_200 (url : string) : CourseValidation.response :=
  CourseValidation.Status 200.

(** A host that answers 200, reached through a library that refuses a
    host name with an empty label. *)
Definition strict_about_labels (url : string) : CourseValidation.response :=
  if py_in ".." url then CourseValidation.Other_exception LocationParseError
  else CourseValidation.Status 200.

(** Two candidate videos: a video page, and the same page under a host
    name with an empty label. *)
Definition good_and_malformed : gmap nat (gmap string string) :=
  <[0%nat := <["video_title" := "Fractions"]> (
             <["video_link" := "https://www.youtube.com/watch?v=abc123"]> ∅)]> (
  <[1%nat := <["video_title" := "Decimals"]> (
             <["video_link" := "https://www..youtube.com/watch?v=def456"]> ∅)]> ∅).

(** A runtime for the sample runs: the renderings append the offset, the
    mean and its rounding are computed on exact rationals. *)
Definition exact_mean (l : list Z) : Q :=
  (inject_Z (TeacherDatabase.sum_Z l) / inject_Z (Z.of_nat (length l)))%Q.

Definition runtime : Runtime :=
  {| str_of_timestamp := λ ts, ts +:+ "+00:00";
     isoformat_of_timestamp := λ ts, ts +:+ "+00:00";
     float_avg := exact_mean;
     float_round2 := py_round2 |}.

End Sample.

(* ================================================================== *)
(** * google_search_course_recommendation_agent/agent.py: video ids    *)
(* ================================================================== *)

Module YouTubeSearch.

(** The class [[a-zA-Z0-9_-]]. *)
Definition id_char (c : ascii) : bool :=
  let n := nat_of_ascii c in
  ((97 <=? n)%nat && (n <=? 122)%nat) ||
  ((65 <=? n)%nat && (n <=? 90)%nat) ||
  ((48 <=? n)%nat && (n <=? 57)%nat) ||
  Ascii.eqb c "_" || Ascii.eqb c "-".

(** The group [([a-zA-Z0-9_-]{n})] at the head of [s]. *)
Fixpoint take_id (n : nat) (s : string) : option string :=
  match n with
  | O => Some ""
  | S n' =>
      match s with
      | String c s' => if id_char c then String c <$> take_id n' s' else None
      | EmptyString => None
      end
  end.

(** A pattern of the source is an alternation of literal texts followed
    by the group of eleven id characters.  Matching at the head of [s]:
    the alternatives are tried in order; what the group captured. *)
Fixpoint match_here (literals : list string) (s : string) : option string :=
  match literals with
  | [] => None
  | literal :: rest =>
      if String.prefix literal s then
        match take_id 11 (drop (String.length literal) s) with
        | Some video_id => Some video_id
        | None => match_here rest s
        end
      else match_here rest s
  end.

(** [re.search(pattern, text)]: the match at the leftmost position that
    has one; [match.group(1)]. *)
Fixpoint re_search (literals : list string) (text : string) : option string :=
  match match_here literals text with
  | Some video_id => Some video_id
  | None =>
      match text with
      | EmptyString => None
      | String _ text' => re_search literals text'
      end
  end.

Definition patterns : list (list string) :=
  [ ["youtube.com/watch?v="; "youtu.be/"];
    ["youtube.com/embed/"];
    ["youtube.com/v/"] ].

(** [for pattern in patterns: match = re.search(...); if match: return] *)
Fixpoint first_match (patterns : list (list string)) (text : string) : string :=
  match patterns with
  | [] => ""
  | pattern :: rest =>
      match re_search pattern text with
      | Some video_id => video_id
      | None => first_match rest text
      end
  end.

(** [extract_youtube_video_id(text)] *)
Definition extract_youtube_video_id (text : string) : string :=
  first_match patterns text.

(** [len(s)]: the number of code points of the text, which the string
    holds as its UTF-8 bytes; the bytes 128 to 191 continue a code
    point. *)
Definition continues (c : ascii) : bool :=
  let n := nat_of_ascii c in (128 <=? n)%nat && (n <=? 191)%nat.

Fixpoint py_len (s : string) : nat :=
  match s with
  | EmptyString => O
  | String c s' => if continues c then py_len s' else S (py_len s')
  end.

(** [format_youtube_url(video_id)] *)
Definition format_youtube_url (video_id : string) : string :=
  if str_truthy video_id && (py_len video_id =? 11)%nat
  then "https://www.youtube.com/watch?v=" +:+ video_id
  else "".

(** [validate_youtube_url(url)] *)
Definition validate_youtube_url (url : string) : bool :=
  if negb (str_truthy url) then false
  else if negb (startswith url "https://www.youtube.com/watch?v=") then false
  else
    let video_id := extract_youtube_video_id url in
    if negb (str_truthy video_id) || negb (py_len video_id =? 11)%nat
    then false
    else true.

(** ** Notions the statements use *)

(** A text of id characters only. *)
Fixpoint id_text (s : string) : bool :=
  match s with
  | EmptyString => true
  | String c s' => id_char c && id_text s'
  end.

(** A video id: eleven id characters. *)
Definition video_id_ok (s : string) : bool :=
  (String.length s =? 11)%nat && id_text s.

End YouTubeSearch.

(* ================================================================== *)
(** * agent.py: the student tools                                      *)
(* ================================================================== *)

Module StudentAgent.

Import StudentDatabase.

Inductive student_message : Type :=
| Welcome_back (rollno : Z)
    (* f"Welcome back! Roll No {rollno} found. Would you like to: ..." *)
| New_student_detected
    (* "New Student Detected. Please provide your name, ..." *)
| Profile_saved
    (* "Student profile saved successfully!" *)
| Roll_no_not_found (rollno : Z)
    (* f"Roll No {rollno} not found." *)
| Scores_updated
    (* "Scores updated successfully!" *)
| Profile (current_student : gmap string pyval).

(** The dicts the tools return: [{"exists": .., "message": ..}],
    [{"state": .., "message": ..}] and [{"status": .., "message": ..}]. *)
Inductive reply : Type :=
| Exists_reply (found : bool) (message : student_message)
| State_reply (state : string) (message : student_message)
| Status_reply (status : string) (message : student_message).

Section WithRuntime.

Context `{!Runtime}.

(** [check_student(rollno)] *)
Definition check_student (rollno : Z) : M reply :=
  let* found := student_exists (VInt rollno) in
  if found then ret (Exists_reply true (Welcome_back rollno))
  else ret (Exists_reply false New_student_detected).

(** [save_student_data(rollno, name, ..., social)]; [timestamp] is the
    formatted clock reading of the tool, [now] the one that
    [insert_student] takes as default of the TimeStamp it is given. *)
Definition save_student_data (timestamp now : string) (rollno : Z) (name : string)
    (grade : Z) (language : string)
    (language1 language2 language3 maths science social : Z) : M reply :=
  let student : gmap string pyval :=
    <["RollNo" := VInt rollno]> (
    <["Name" := VStr name]> (
    <["Grade" := VInt grade]> (
    <["Language" := VStr language]> (
    <["Language1" := VInt language1]> (
    <["Language2" := VInt language2]> (
    <["Language3" := VInt language3]> (
    <["Maths" := VInt maths]> (
    <["Science" := VInt science]> (
    <["Social" := VInt social]> (
    <["TimeStamp" := VStr timestamp]> ∅)))))))))) in
  insert_student now student;;
  ret (State_reply "success" Profile_saved).

(** [not current_data] *)
Definition dict_empty {V} (d : gmap string V) : bool := bool_decide (dom d = ∅).

(** [update_student_data(RollNo, Name, ..., Social)]; [now] is the clock
    reading of [update_student]. *)
Definition update_student_data (now : string) (RollNo : Z) (Name : string)
    (Grade : Z) (Language : string)
    (Language1 Language2 Language3 Maths Science Social : Z) : M reply :=
  let* current_data := get_student (VInt RollNo) in
  if dict_empty current_data then ret (Status_reply "error" (Roll_no_not_found RollNo))
  else
  let updated_student : gmap string pyval :=
    <["RollNo" := VInt RollNo]> (
    <["Name" := VStr Name]> (
    <["Grade" := VInt Grade]> (
    <["Language" := VStr Language]> (
    <["Language1" := VInt Language1]> (
    <["Language2" := VInt Language2]> (
    <["Language3" := VInt Language3]> (
    <["Maths" := VInt Maths]> (
    <["Science" := VInt Science]> (
    <["Social" := VInt Social]> (
    <["TimeStamp" := dict_get current_data "TimeStamp" VNone]> ∅)))))))))) in
  update_student now updated_student;;
  ret (Status_reply "success" Scores_updated).

(** The profile dict that [show_student_data] and
    [view_student_profile_for_teacher] build. *)
Definition current_student_of (rollno : Z) (current_data : gmap string pyval)
  : outcome (gmap string pyval) :=
  let? c_Name := dict_item current_data "Name" in
  let? c_Grade := dict_item current_data "Grade" in
  let? c_Language := dict_item current_data "Language" in
  Ok (<["RollNo" := VInt rollno]> (
      <["Name" := c_Name]> (
      <["Grade" := c_Grade]> (
      <["Language" := c_Language]> (
      <["Language1" := dict_get current_data "Language1" (VInt 0)]> (
      <["Language2" := dict_get current_data "Language2" (VInt 0)]> (
      <["Language3" := dict_get current_data "Language3" (VInt 0)]> (
      <["Maths" := dict_get current_data "Maths" (VInt 0)]> (
      <["Science" := dict_get current_data "Science" (VInt 0)]> (
      <["Social" := dict_get current_data "Social" (VInt 0)]> (
      <["TimeStamp" := dict_get current_data "TimeStamp" VNone]> ∅))))))))))).

(** [show_student_data(rollno)] *)
Definition show_student_data (rollno : Z) : M reply :=
  let* current_data := get_student (VInt rollno) in
  if dict_empty current_data then ret (Status_reply "error" (Roll_no_not_found rollno))
  else
  let* current_student := lift (current_student_of rollno current_data) in
  ret (Status_reply "success" (Profile current_student)).

End WithRuntime.

(** ** Notions the statements use *)

(** The dict [save_student_data] builds. *)
Definition saved_profile (timestamp : string) (rollno : Z) (name : string)
    (grade : Z) (language : string)
    (language1 language2 language3 maths science social : Z)
  : gmap string pyval :=
  <["RollNo" := VInt rollno]> (
  <["Name" := VStr name]> (
  <["Grade" := VInt grade]> (
  <["Language" := VStr language]> (
  <["Language1" := VInt language1]> (
  <["Language2" := VInt language2]> (
  <["Language3" := VInt language3]> (
  <["Maths" := VInt maths]> (
  <["Science" := VInt science]> (
  <["Social" := VInt social]> (
  <["TimeStamp" := VStr timestamp]> ∅)))))))))).

End StudentAgent.

(* ================================================================== *)
(** * teacher_agent/agent.py: the teacher tools                        *)
(* ================================================================== *)

Module TeacherAgent.

Import TeacherDatabase.

Inductive teacher_tool_message : Type :=
| Welcome_back_staff (staff_id : Z)
    (* f"Welcome back! Staff ID {staff_id} found. Would you like to: ..." *)
| New_teacher_detected
    (* "New Teacher Detected. Please provide your Name, ..." *)
| Staff_id_not_found (staff_id : Z)
    (* f"Staff ID {staff_id} not found." *)
| Teacher_profile (teacher : Teacher.row).

Inductive tool_reply : Type :=
| Exists_reply (found : bool) (message : teacher_tool_message)
| Status_reply (status : string) (message : teacher_tool_message).

Section WithRuntime.

Context `{!Runtime}.

(** [check_teacher(staff_id)] *)
Definition check_teacher (staff_id : Z) : M tool_reply :=
  let* found := teacher_exists staff_id in
  if found then ret (Exists_reply true (Welcome_back_staff staff_id))
  else ret (Exists_reply false New_teacher_detected).

(** [save_teacher_profile(staff_id, name, grades, subject)] *)
Definition save_teacher_profile (now : string) (staff_id : Z) (name : string)
    (grades : list Z) (subject : string) : M reply :=
  save_teacher now staff_id name grades subject.

(** [view_teacher_profile(staff_id)] *)
Definition view_teacher_profile (staff_id : Z) : M tool_reply :=
  let* teacher := get_teacher staff_id in
  match teacher with
  | None => ret (Status_reply "error" (Staff_id_not_found staff_id))
  | Some t => ret (Status_reply "success" (Teacher_profile t))
  end.

(** [update_teacher_profile(staff_id, name=None, grades=None, subject=None)] *)
Definition update_teacher_profile (now : string) (staff_id : Z)
    (name : option string) (grades : option (list Z)) (subject : option string)
  : M reply :=
  update_teacher now staff_id name grades subject.

(** [view_student_profile_for_teacher(rollno)] *)
Definition view_student_profile_for_teacher (rollno : Z) : M StudentAgent.reply :=
  let* current_data := StudentDatabase.get_student (VInt rollno) in
  if StudentAgent.dict_empty current_data
  then ret (StudentAgent.Status_reply "error" (StudentAgent.Roll_no_not_found rollno))
  else
  let* current_student := lift (StudentAgent.current_student_of rollno current_data) in
  ret (StudentAgent.Status_reply "success" (StudentAgent.Profile current_student)).

(** [get_class_average(grade, subject)], the tool *)
Definition get_class_average (grade : Z) (subject : string) : M reply :=
  TeacherDatabase.get_class_average grade subject.

End WithRuntime.

End TeacherAgent.

(** ** What database code keeps *)

(** Whatever the start and the outcome, the tables after [m] stand in
    relation [R] to the tables before. *)
Definition keeps {A} (R : tables → tables → Prop) (m : M A) : Prop :=
  ∀ w, R (stored w) (stored (snd (m w))).

(** The same students under the same roll numbers in the same order, the
    other tables untouched. *)
Definition same_roll_numbers (t t' : tables) : Prop :=
  Student.RollNo <$> students t' = Student.RollNo <$> students t ∧
  teachers t' = teachers t ∧ employees t' = employees t ∧
  recommendations t' = recommendations t ∧ test_results t' = test_results t.

(** The same teachers under the same staff ids in the same order, the
    other tables untouched. *)
Definition same_staff_ids (t t' : tables) : Prop :=
  Teacher.StaffID <$> teachers t' = Teacher.StaffID <$> teachers t ∧
  students t' = students t ∧ employees t' = employees t ∧
  recommendations t' = recommendations t ∧ test_results t' = test_results t.

(* ================================================================== *)
(** * The ordered queries of courses_db.py and test_results.py         *)
(* ================================================================== *)

(** The order in which the warehouse answers an ORDER BY is an input of
    the query methods: rows that compare equal come in an order the
    statement does not fix.  The dicts the methods build hold the selected
    columns under the column names, a NULL as [None], the time as the
    rendering [str] makes of the one read back; a row record stands for
    such a dict. *)

Module CourseQueries.

Import StudentCourseRecommendationDatabase.

Section WithOrderBy.

Context `{!Runtime}.

(** [ORDER BY VideoSubject, TimeStamp DESC] *)
Variable by_subject_then_newest : list Recommendation.row → list Recommendation.row.
(** [ORDER BY TimeStamp DESC] *)
Variable newest_first : list Recommendation.row → list Recommendation.row.

(** The dict the two methods build from a row. *)
Definition course_dict (row : Recommendation.row) : Recommendation.row :=
  Recommendation.mk (Recommendation.RollNo row) (Recommendation.StudentName row)
    (Recommendation.VideoAuthorName row) (Recommendation.VideoLink row)
    (Recommendation.VideoLanguage row) (Recommendation.VideoSubject row)
    (Recommendation.VideoTitle row) (Recommendation.VideoDescription row)
    (str_of_timestamp <$> Recommendation.TimeStamp row).

(** [get_courses_for_student(rollno)] *)
Definition get_courses_for_student (rollno : Z) : M (list Recommendation.row) :=
  issue (SELECT recommendations_table);;
  let* t := read_tables in
  let results := by_subject_then_newest (courses_of rollno t) in
  ret (course_dict <$> results).

(** [get_courses_by_subject(rollno, subject)] *)
Definition get_courses_by_subject (rollno : Z) (subject : string)
  : M (list Recommendation.row) :=
  issue (SELECT recommendations_table);;
  let* t := read_tables in
  let results :=
    newest_first
      (filter (λ r, Recommendation.RollNo r = rollno ∧
                    Recommendation.VideoSubject r = subject)
         (recommendations t)) in
  ret (course_dict <$> results).

End WithOrderBy.

End CourseQueries.

Module ResultQueries.

Section WithOrderBy.

Context `{!Runtime}.

(** [ORDER BY TestDate DESC] *)
Variable newest_first : list TestResult.row → list TestResult.row.

(** The dict the two methods build from a row. *)
Definition result_dict (row : TestResult.row) : TestResult.row :=
  TestResult.mk (TestResult.RollNo row) (TestResult.Subject row)
    (TestResult.QuizScore row) (TestResult.EvaluatedScore row)
    (TestResult.TotalScore row) (str_of_timestamp (TestResult.TestDate row)).

(** [get_student_results(rollno)] *)
Definition get_student_results (rollno : Z) : M (list TestResult.row) :=
  issue (SELECT test_results_table);;
  let* t := read_tables in
  let results :=
    newest_first (filter (λ r, TestResult.RollNo r = rollno) (test_results t)) in
  ret (result_dict <$> results).

(** [get_subject_performance(rollno, subject)] *)
Definition get_subject_performance (rollno : Z) (subject : string)
  : M (list TestResult.row) :=
  issue (SELECT test_results_table);;
  let* t := read_tables in
  let results :=
    newest_first
      (filter (λ r, TestResult.RollNo r = rollno ∧ TestResult.Subject r = subject)
         (test_results t)) in
  ret (result_dict <$> results).

End WithOrderBy.

End ResultQueries.

(* ================================================================== *)
(** * skill_testing_agent/agent.py                                     *)
(* ================================================================== *)

Module SkillTesting.

(** A dict that is iterated in insertion order: its items, oldest key
    first. *)
Abbreviation subject_dict := (list (string * list Recommendation.row)) (only parsing).

(** [subject in d] *)
Definition has_subject (subject : string) (d : subject_dict) : bool :=
  bool_decide (subject ∈ d.*1).

(** [d[subject] = v]: a new key goes last, a known key keeps its place. *)
Definition set_subject (subject : string) (v : list Recommendation.row)
    (d : subject_dict) : subject_dict :=
  if has_subject subject d
  then (λ item, if decide (item.1 = subject) then (item.1, v) else item) <$> d
  else d ++ [(subject, v)].

(** [d[subject].append(course)], for a key that [d] holds. *)
Definition append_to (subject : string) (course : Recommendation.row)
    (d : subject_dict) : subject_dict :=
  (λ item, if decide (item.1 = subject) then (item.1, item.2 ++ [course]) else item)
    <$> d.

(** One round of [for course in courses]. *)
Definition group_step (tutorials_by_subject : subject_dict)
    (course : Recommendation.row) : subject_dict :=
  let subject := Recommendation.VideoSubject course in
  let tutorials_by_subject :=
    if negb (has_subject subject tutorials_by_subject)
    then set_subject subject [] tutorials_by_subject
    else tutorials_by_subject in
  append_to subject course tutorials_by_subject.

(** The line feed. *)
Definition nl : string := String "010"%char "".

(** [enumerate(l, 1)] *)
Definition enumerate_from_1 {A} (l : list A) : list (nat * A) :=
  imap (λ i x, (S i, x)) l.

(** One round of [for idx, tutorial in enumerate(tutorials, 1)]. *)
Definition add_tutorial (output : string) (item : nat * Recommendation.row) : string :=
  let '(idx, tutorial) := item in
  let output :=
    output +:+ (pretty idx +:+ ". " +:+ Recommendation.VideoTitle tutorial +:+ nl) in
  let output :=
    output +:+ ("   Author: " +:+ Recommendation.VideoAuthorName tutorial +:+ nl) in
  let output :=
    output +:+ ("   Language: " +:+ Recommendation.VideoLanguage tutorial +:+ nl) in
  output +:+ ("   Link: " +:+ Recommendation.VideoLink tutorial +:+ nl +:+ nl).

(** One round of [for subject, tutorials in tutorials_by_subject.items()]. *)
Definition add_subject (output : string)
    (item : string * list Recommendation.row) : string :=
  let '(subject, tutorials) := item in
  let output := output +:+ ("=== " +:+ subject +:+ " ===" +:+ nl) in
  foldl add_tutorial output (enumerate_from_1 tutorials).

Definition nothing_found (rollno : Z) : string :=
  "No recommended YouTube tutorials found for Roll No " +:+ pretty rollno +:+ ".".

Definition heading (rollno : Z) : string :=
  "Recommended YouTube Tutorials for Roll No " +:+ pretty rollno +:+ ":" +:+ nl +:+ nl.

Section WithOrderBy.

Context `{!Runtime}.

Variable by_subject_then_newest : list Recommendation.row → list Recommendation.row.

(** [display_student_tutorials(rollno)] *)
Definition display_student_tutorials (rollno : Z) : M string :=
  let* courses := CourseQueries.get_courses_for_student by_subject_then_newest rollno in
  match courses with
  | [] => ret (nothing_found rollno)
  | _ :: _ =>
      let tutorials_by_subject := foldl group_step [] courses in
      let output := heading rollno in
      ret (foldl add_subject output tutorials_by_subject)
  end.

End WithOrderBy.

(** ** Notions the statements use *)

(** The distinct elements of a list, each at its first occurrence. *)
Fixpoint first_seen (l : list string) : list string :=
  match l with
  | [] => []
  | x :: l => x :: filter (λ y, y ≠ x) (first_seen l)
  end.

(** The numbered entry of one tutorial. *)
Definition entry (idx : nat) (tutorial : Recommendation.row) : string :=
  pretty idx +:+ ". " +:+ Recommendation.VideoTitle tutorial +:+ nl +:+
  "   Author: " +:+ Recommendation.VideoAuthorName tutorial +:+ nl +:+
  "   Language: " +:+ Recommendation.VideoLanguage tutorial +:+ nl +:+
  "   Link: " +:+ Recommendation.VideoLink tutorial +:+ nl +:+ nl.

(** Several texts, one after the other. *)
Definition joined (l : list string) : string := foldr String.app "" l.

(** The section of one subject: its title line, then its tutorials,
    numbered from 1. *)
Definition subject_section (subject : string) (tutorials : list Recommendation.row)
  : string :=
  "=== " +:+ subject +:+ " ===" +:+ nl +:+
  joined (imap (λ i tutorial, entry (S i) tutorial) tutorials).

(** The tutorials of one subject among [courses], in the order of
    [courses]. *)
Definition of_subject (subject : string) (courses : list Recommendation.row)
  : list Recommendation.row :=
  filter (λ c, Recommendation.VideoSubject c = subject) courses.

(** The order of two courses under [ORDER BY VideoSubject], for an order
    [precedes] of the subjects. *)
Definition by_subject (precedes : string → string → Prop)
    (a b : Recommendation.row) : Prop :=
  precedes (Recommendation.VideoSubject a) (Recommendation.VideoSubject b).

End SkillTesting.

(* ================================================================== *)
(** * Facts and theorems                                               *)
(* ================================================================== *)


Section StringFacts.

Lemma str_app_cons (x : ascii) (a b : string) :
  String x a +:+ b = String x (a +:+ b).
Proof. reflexivity. Qed.

Lemma str_app_nil_l (a : string) : "" +:+ a = a.
Proof. reflexivity. Qed.

Lemma str_app_assoc (a b c : string) : (a +:+ b) +:+ c = a +:+ (b +:+ c).
Proof.
  induction a as [|x a IH]; [done |]. by rewrite !str_app_cons, IH.
Qed.

Lemma str_app_nil_r (a : string) : a +:+ "" = a.
Proof.
  induction a as [|x a IH]; [done |]. by rewrite str_app_cons, IH.
Qed.

Lemma str_length_app (a b : string) :
  String.length (a +:+ b) = (String.length a + String.length b)%nat.
Proof.
  induction a as [|x a IH]; [done |]. rewrite str_app_cons. simpl. by rewrite IH.
Qed.

Lemma prefix_iff (p s : string) :
  String.prefix p s = true ↔ ∃ r, s = p +:+ r.
Proof.
  revert s. induction p as [|a p IH]; intros s.
  - split; [intros _; exists s; done | intros _; by destruct s].
  - destruct s as [|b s]; simpl.
    + split; [done |]. intros [r Hr]. rewrite str_app_cons in Hr. discriminate.
    + destruct (ascii_dec a b) as [->|Hne].
      * rewrite IH. split; intros [r Hr]; exists r.
        -- by rewrite str_app_cons, Hr.
        -- rewrite str_app_cons in Hr. by injection Hr.
      * split; [done |]. intros [r Hr]. rewrite str_app_cons in Hr.
        injection Hr; intros; congruence.
Qed.

Lemma prefix_app (p s : string) : String.prefix p (p +:+ s) = true.
Proof. apply prefix_iff. by exists s. Qed.

Lemma prefix_weaken (p x y : string) :
  String.prefix p x = true → String.prefix p (x +:+ y) = true.
Proof.
  rewrite !prefix_iff. intros [r ->]. exists (r +:+ y). apply str_app_assoc.
Qed.

Lemma prefix_shorten (p q s : string) :
  String.prefix (p +:+ q) s = true → String.prefix p s = true.
Proof.
  rewrite !prefix_iff. intros [r ->]. exists (q +:+ r). apply str_app_assoc.
Qed.

Lemma drop_app (p s : string) : drop (String.length p) (p +:+ s) = s.
Proof.
  induction p as [|a p IH]; [destruct s; reflexivity |].
  rewrite str_app_cons. exact IH.
Qed.

(** [sub in s] holds exactly when [s] is some text, [sub], some text. *)
Lemma py_in_here (sub s : string) :
  String.prefix sub s = true → ∃ p q, s = p +:+ sub +:+ q.
Proof. intros Hp. apply prefix_iff in Hp as [r Hr]. by exists "", r. Qed.

Lemma py_in_iff (sub s : string) :
  py_in sub s = true ↔ ∃ p q, s = p +:+ sub +:+ q.
Proof.
  induction s as [|c s IH].
  - cbn [py_in]. destruct (String.prefix sub "") eqn:Hp.
    + split; [intros _ | done]. by apply py_in_here.
    + split; [done |]. intros (p & q & Hpq).
      destruct p; [| rewrite str_app_cons in Hpq; discriminate].
      rewrite str_app_nil_l in Hpq.
      assert (String.prefix sub "" = true) by (apply prefix_iff; eauto).
      congruence.
  - cbn [py_in]. destruct (String.prefix sub (String c s)) eqn:Hp.
    + split; [intros _ | done]. by apply py_in_here.
    + rewrite IH. split.
      * intros (p & q & ->). by exists (String c p), q.
      * intros (p & q & Hpq). destruct p as [|c' p].
        -- rewrite str_app_nil_l in Hpq.
           assert (String.prefix sub (String c s) = true)
             by (apply prefix_iff; eauto).
           congruence.
        -- rewrite str_app_cons in Hpq. injection Hpq as _ ->. eauto.
Qed.

Lemma py_in_weaken (sub a b : string) :
  py_in sub a = true → py_in sub (a +:+ b) = true.
Proof.
  rewrite !py_in_iff. intros (p & q & ->). exists p, (q +:+ b).
  by rewrite !str_app_assoc.
Qed.

Lemma py_in_shorten (sub more s : string) :
  py_in (sub +:+ more) s = true → py_in sub s = true.
Proof.
  rewrite !py_in_iff. intros (p & q & ->). exists p, (more +:+ q).
  by rewrite !str_app_assoc.
Qed.

(** [find_split] finds an occurrence, and it is the leftmost one. *)
Lemma find_split_Some (sep s a b : string) :
  find_split sep s = Some (a, b) →
  s = a +:+ sep +:+ b ∧
  ∀ p q, s = p +:+ sep +:+ q → (String.length a ≤ String.length p)%nat.
Proof.
  revert a b. induction s as [|c s IH]; intros a b.
  - cbn [find_split]. destruct (String.prefix sep "") eqn:Hp; [| done].
    intros [= <- <-]. destruct sep; [| discriminate].
    split; [reflexivity | simpl; lia].
  - cbn [find_split]. destruct (String.prefix sep (String c s)) eqn:Hp.
    + intros [= <- <-]. apply prefix_iff in Hp as [r Hr].
      rewrite Hr, drop_app. split; [reflexivity | simpl; lia].
    + destruct (find_split sep s) as [[a' b']|] eqn:Hs; [| done].
      intros [= <- <-]. destruct (IH _ _ eq_refl) as [-> Hleft].
      split; [reflexivity |]. intros p q Hpq.
      destruct p as [|c' p].
      * rewrite str_app_nil_l in Hpq.
        assert (String.prefix sep (String c (a' +:+ sep +:+ b')) = true)
          by (apply prefix_iff; eauto).
        congruence.
      * rewrite str_app_cons in Hpq. injection Hpq as _ Hpq.
        specialize (Hleft _ _ Hpq). simpl. lia.
Qed.

Lemma find_split_None (sep s : string) :
  find_split sep s = None ↔ py_in sep s = false.
Proof.
  induction s as [|c s IH].
  - cbn [find_split py_in]. by destruct (String.prefix sep "").
  - cbn [find_split py_in]. destruct (String.prefix sep (String c s)); [done |].
    rewrite <- IH. by destruct (find_split sep s) as [[??]|].
Qed.

Lemma find_split_is_Some (sep s : string) :
  py_in sep s = true → ∃ a b, find_split sep s = Some (a, b).
Proof.
  intros Hin. destruct (find_split sep s) as [[a b]|] eqn:Hs; [eauto |].
  apply find_split_None in Hs. congruence.
Qed.

(** The text before the leftmost occurrence holds no occurrence. *)
Lemma find_split_before (sep s a b : string) :
  sep ≠ "" → find_split sep s = Some (a, b) → py_in sep a = false.
Proof.
  intros Hsep Hs. apply find_split_Some in Hs as [-> Hleft].
  destruct (py_in sep a) eqn:Hin; [| done].
  apply py_in_iff in Hin as (p & q & ->).
  specialize (Hleft p (q +:+ sep +:+ b)).
  rewrite !str_app_assoc in Hleft. specialize (Hleft eq_refl).
  rewrite !str_length_app in Hleft.
  destruct sep; [done | simpl in Hleft; lia].
Qed.


Lemma upto_free (sep s : string) : sep ≠ "" → py_in sep (upto sep s) = false.
Proof.
  intros Hsep. unfold upto. destruct (find_split sep s) as [[a b]|] eqn:Hs.
  - by eapply find_split_before.
  - by apply find_split_None.
Qed.

Lemma upto_prefix (sep s : string) : ∃ r, s = upto sep s +:+ r.
Proof.
  unfold upto. destruct (find_split sep s) as [[a b]|] eqn:Hs.
  - apply find_split_Some in Hs as [-> _]. eauto.
  - exists "". by rewrite str_app_nil_r.
Qed.

Lemma split_fuel_first (fuel : nat) (sep s : string) :
  sep ≠ "" → (String.length s ≤ fuel)%nat →
  split_fuel fuel sep s !! 0%nat = Some (upto sep s).
Proof.
  intros Hsep Hlen. unfold upto. destruct fuel as [|fuel]; simpl.
  - destruct s; [| simpl in Hlen; lia].
    destruct sep; [done | done].
  - by destruct (find_split sep s) as [[a b]|].
Qed.

Lemma split_fuel_second (fuel : nat) (sep s a b : string) :
  sep ≠ "" → (String.length s ≤ fuel)%nat → find_split sep s = Some (a, b) →
  split_fuel fuel sep s !! 1%nat = Some (upto sep b).
Proof.
  intros Hsep Hlen Hs. pose proof Hs as Hs'.
  apply find_split_Some in Hs' as [-> _].
  rewrite !str_length_app in Hlen.
  destruct fuel as [|fuel]; [destruct sep; [done | simpl in Hlen; lia] |].
  simpl. rewrite Hs. simpl. apply split_fuel_first; [done |].
  destruct sep; [done | simpl in Hlen; lia].
Qed.
End StringFacts.

Import CourseValidation.

Section LinkFacts.

Variable http_head : string → response.

Lemma normalize_short (link : string) :
  py_in "youtu.be/" link = true →
  ∃ pre post,
    find_split "youtu.be/" link = Some (pre, post) ∧
    normalize_link link
    = Ok (canonical_prefix +:+ upto "?" (upto "youtu.be/" post)).
Proof.
  intros Hin. destruct (find_split_is_Some _ _ Hin) as (pre & post & Hs).
  exists pre, post. split; [done |].
  unfold normalize_link. rewrite Hin. unfold py_split.
  change (String.eqb "youtu.be/" "") with false.
  change (String.eqb "?" "") with false. cbn [obind].
  unfold py_index at 1.
  erewrite split_fuel_second by (done || lia). cbn [obind].
  unfold py_index. rewrite split_fuel_first by (done || lia). done.
Qed.

Lemma normalize_total (link : string) : ∃ n, normalize_link link = Ok n.
Proof.
  destruct (py_in "youtu.be/" link) eqn:Hin.
  - destruct (normalize_short link Hin) as (? & ? & _ & ->). eauto.
  - unfold normalize_link. rewrite Hin.
    destruct (_ && _); eauto.
Qed.

Lemma py_in_skip (sub : string) (c : ascii) (s : string) :
  String.prefix sub (String c s) = false → py_in sub (String c s) = py_in sub s.
Proof. intros Hp. cbn [py_in]. by rewrite Hp. Qed.

Lemma py_in_prefix_free (sub a b : string) :
  py_in sub (a +:+ b) = false → py_in sub a = false.
Proof.
  intros Hab. destruct (py_in sub a) eqn:Ha; [| done].
  apply (py_in_weaken _ _ b) in Ha. congruence.
Qed.

(** The video id cut out of a short link holds no short-host marker. *)
Lemma video_id_free (post : string) :
  py_in "youtu.be/" (upto "?" (upto "youtu.be/" post)) = false.
Proof.
  destruct (upto_prefix "?" (upto "youtu.be/" post)) as [r Hr].
  apply (py_in_prefix_free _ _ r). rewrite <- Hr. by apply upto_free.
Qed.

Lemma canonical_short_free (id : string) :
  py_in "youtu.be/" id = false →
  py_in "youtu.be/" (canonical_prefix +:+ id) = false.
Proof.
  intros Hid. unfold canonical_prefix.
  rewrite !str_app_cons, str_app_nil_l.
  repeat (rewrite py_in_skip by reflexivity). done.
Qed.

Lemma canonical_short_fixed (id : string) :
  py_in "youtu.be/" id = false →
  normalize_link (canonical_prefix +:+ id) = Ok (canonical_prefix +:+ id).
Proof.
  intros Hid. unfold normalize_link.
  rewrite canonical_short_free by done.
  assert (startswith (canonical_prefix +:+ id) "https://" = true) as ->
    by reflexivity.
  by rewrite andb_false_r.
Qed.

Lemma https_free (link : string) :
  py_in "youtu.be/" ("https://" +:+ link) = py_in "youtu.be/" link.
Proof.
  rewrite !str_app_cons, str_app_nil_l.
  repeat (rewrite py_in_skip by reflexivity). done.
Qed.

(** Normalising twice is normalising once. *)
Lemma canonical_fixed (link n : string) :
  normalize_link n = Ok n → canonical link = n → canonical (canonical link) = canonical link.
Proof. intros Hn ->. unfold canonical. by rewrite Hn. Qed.

Lemma canonical_idempotent (link : string) :
  canonical (canonical link) = canonical link.
Proof.
  destruct (py_in "youtu.be/" link) eqn:Hin.
  - destruct (normalize_short link Hin) as (pre & post & _ & Hn).
    eapply canonical_fixed; [| unfold canonical; by rewrite Hn].
    apply canonical_short_fixed, video_id_free.
  - destruct (py_in "youtube.com/watch" link && negb (startswith link "https://"))
      eqn:Hc.
    + destruct (startswith link "http") eqn:Hh.
      * apply (canonical_fixed _ link); unfold canonical, normalize_link;
          by rewrite Hin, Hc, Hh.
      * apply (canonical_fixed _ ("https://" +:+ link)).
        -- unfold normalize_link. rewrite https_free, Hin.
           assert (startswith ("https://" +:+ link) "https://" = true) as ->
             by apply prefix_app.
           by rewrite andb_false_r.
        -- unfold canonical, normalize_link. by rewrite Hin, Hc, Hh.
    + apply (canonical_fixed _ link); unfold canonical, normalize_link;
        by rewrite Hin, Hc.
Qed.

Lemma canonical_Ok (link : string) : normalize_link link = Ok (canonical link).
Proof.
  unfold canonical. by destruct (normalize_total link) as [n ->].
Qed.

Lemma marker_truthy (url : string) :
  has_host_marker url = true → str_truthy url = true.
Proof. by destruct url. Qed.

(** [is_valid_youtube_link] sends a request exactly for a URL with a host
    marker, and lets through what is no [RequestException]. *)
Lemma is_valid_run (url : string) :
  is_valid_youtube_link http_head url
  = if has_host_marker url
    then match http_head url with
         | Status code => Ok (code =? 200)
         | RequestException => Ok false
         | Other_exception e => Raise e
         end
    else Ok false.
Proof.
  unfold is_valid_youtube_link, has_host_marker.
  destruct url as [|c url]; [done |].
  change (str_truthy (String c url)) with true. cbn [negb].
  by destruct (py_in "youtube.com" (String c url)), (py_in "youtu.be" (String c url)).
Qed.

(** Normalising keeps a link without marker as it is. *)
Lemma canonical_no_marker (link : string) :
  has_host_marker link = false → canonical link = link.
Proof.
  unfold has_host_marker. intros [Hy Hs]%orb_false_iff.
  unfold canonical, normalize_link.
  assert (py_in "youtu.be/" link = false) as ->.
  { destruct (py_in "youtu.be/" link) eqn:H; [| done].
    apply (py_in_shorten "youtu.be" "/") in H. congruence. }
  assert (py_in "youtube.com/watch" link = false) as ->.
  { destruct (py_in "youtube.com/watch" link) eqn:H; [| done].
    apply (py_in_shorten "youtube.com" "/watch") in H. congruence. }
  done.
Qed.

(** Normalising never invents a marker. *)
Lemma marker_of_canonical (link : string) :
  has_host_marker (canonical link) = true → has_host_marker link = true.
Proof.
  intros Hc. destruct (has_host_marker link) eqn:Hm; [done |].
  rewrite canonical_no_marker in Hc by done. congruence.
Qed.

Lemma request_of_Some (link url : string) :
  request_of link = Some url →
  str_truthy link = true ∧ url = canonical link ∧ has_host_marker url = true.
Proof.
  unfold request_of. destruct (str_truthy link); [| done]. cbn [andb].
  destruct (has_host_marker (canonical link)) eqn:Hm; [| done].
  by intros [= <-].
Qed.

(** The request for a normalised link is the request for the link. *)
Lemma request_of_canonical (link url : string) :
  request_of link = Some url → request_of url = Some url.
Proof.
  intros (_ & -> & Hm)%request_of_Some. unfold request_of.
  by rewrite (marker_truthy _ Hm), canonical_idempotent, Hm.
Qed.

Lemma passes_request (link : string) :
  passes http_head link = true →
  ∃ url, request_of link = Some url ∧ http_head url = Status 200.
Proof.
  unfold passes. destruct (request_of link) as [url|]; [| done].
  destruct (http_head url) as [code| |] eqn:Hh; [| done | done].
  intros Hc%Z.eqb_eq. subst code. by exists url.
Qed.

(** A link that passed still passes once it is replaced by its
    normalised form. *)
Lemma passes_canonical (link : string) :
  passes http_head link = true → passes http_head (canonical link) = true.
Proof.
  intros (url & Hreq & H200)%passes_request.
  pose proof (request_of_canonical _ _ Hreq) as Hreq'.
  apply request_of_Some in Hreq as (_ & -> & _).
  unfold passes. by rewrite Hreq', H200.
Qed.

Lemma passes_marker (link : string) :
  passes http_head link = true → has_host_marker link = true.
Proof.
  intros (url & (_ & -> & Hm)%request_of_Some & _)%passes_request.
  by apply marker_of_canonical.
Qed.

Lemma passes_no_leak (link : string) :
  passes http_head link = true → leaks http_head link = None.
Proof.
  intros (url & Hreq & H200)%passes_request. unfold leaks. by rewrite Hreq, H200.
Qed.

Lemma leaks_request (link : string) (e : exn) :
  leaks http_head link = Some e →
  ∃ url, request_of link = Some url ∧ http_head url = Other_exception e.
Proof.
  unfold leaks. destruct (request_of link) as [url|]; [| done].
  destruct (http_head url) as [code| |e'] eqn:Hh; [done | done |].
  intros [= ->]. by exists url.
Qed.

Lemma leaks_not_passes (link : string) (e : exn) :
  leaks http_head link = Some e → passes http_head link = false.
Proof.
  intros (url & Hreq & He)%leaks_request. unfold passes. by rewrite Hreq, He.
Qed.

Lemma no_marker_no_request (link : string) :
  has_host_marker link = false → request_of link = None.
Proof.
  intros Hm. unfold request_of. rewrite canonical_no_marker, Hm by done.
  by rewrite andb_false_r.
Qed.

End LinkFacts.
Section FilterFacts.

Variable http_head : string → response.

Lemma visit_eq (h : heap) (out : list loc) (v : loc) :
  visit http_head (h, out) v
  = match leaks http_head (link_of h v) with
    | Some e => Raise e
    | None =>
        Ok (if passes http_head (link_of h v)
            then (<[v := rewritten h v]> h, out ++ [v])
            else (h, out))
    end.
Proof.
  unfold visit, leaks, passes, request_of, rewritten.
  rewrite canonical_Ok. cbn [obind]. rewrite is_valid_run.
  destruct (str_truthy (link_of h v)); [| done]. cbn [andb].
  destruct (has_host_marker (canonical (link_of h v))); [| done].
  destruct (http_head (canonical (link_of h v))) as [code| |e]; [| done | done].
  cbn [obind]. by destruct (code =? 200).
Qed.

Lemma deref_Some (h : heap) (v : loc) (d : video) :
  h !! v = Some d → deref h v = d.
Proof. intros Hv. unfold deref. by rewrite Hv. Qed.

Lemma link_of_rewritten (h0 h : heap) (v : loc) :
  h !! v = Some (rewritten h0 v) → link_of h v = canonical (link_of h0 v).
Proof.
  intros Hv. unfold link_of at 1. rewrite (deref_Some _ _ _ Hv).
  unfold rewritten, dict_get. by rewrite lookup_insert_eq.
Qed.

Lemma link_of_same (h0 h : heap) (v : loc) :
  h !! v = h0 !! v → link_of h v = link_of h0 v.
Proof. intros Hv. unfold link_of, deref. by rewrite Hv. Qed.

Lemma midway_passes (h0 : heap) (seen : list loc) (h : heap) (v : loc) :
  midway http_head h0 seen h →
  passes http_head (link_of h v) = passes http_head (link_of h0 v).
Proof.
  intros Hm. destruct (Hm v) as [Hyes Hno].
  destruct (decide (v ∈ seen ∧ passes http_head (link_of h0 v) = true))
    as [Hd|Hd].
  - rewrite (link_of_rewritten h0 h v (Hyes Hd)).
    destruct Hd as [_ Hp]. rewrite Hp. by apply passes_canonical.
  - by rewrite (link_of_same h0 h v (Hno Hd)).
Qed.

Lemma midway_leaks (h0 : heap) (seen : list loc) (h : heap) (v : loc) :
  midway http_head h0 seen h →
  leaks http_head (link_of h v) = leaks http_head (link_of h0 v).
Proof.
  intros Hm. destruct (Hm v) as [Hyes Hno].
  destruct (decide (v ∈ seen ∧ passes http_head (link_of h0 v) = true))
    as [Hd|Hd].
  - rewrite (link_of_rewritten h0 h v (Hyes Hd)).
    destruct Hd as [_ Hp]. rewrite (passes_no_leak _ _ Hp).
    by apply passes_no_leak, passes_canonical.
  - by rewrite (link_of_same h0 h v (Hno Hd)).
Qed.

Lemma midway_rewritten (h0 : heap) (seen : list loc) (h : heap) (v : loc) :
  midway http_head h0 seen h → rewritten h v = rewritten h0 v.
Proof.
  intros Hm. destruct (Hm v) as [Hyes Hno].
  destruct (decide (v ∈ seen ∧ passes http_head (link_of h0 v) = true))
    as [Hd|Hd].
  - pose proof (Hyes Hd) as Hv. unfold rewritten at 1.
    rewrite (link_of_rewritten h0 h v Hv), canonical_idempotent.
    rewrite (deref_Some _ _ _ Hv). unfold rewritten.
    by rewrite insert_insert_eq.
  - pose proof (Hno Hd) as Hv. unfold rewritten.
    rewrite (link_of_same h0 h v Hv). unfold deref. by rewrite Hv.
Qed.

Lemma midway_step (h0 : heap) (seen : list loc) (h : heap) (v : loc) :
  midway http_head h0 seen h →
  midway http_head h0 (seen ++ [v])
    (if passes http_head (link_of h0 v) then <[v := rewritten h0 v]> h else h).
Proof.
  intros Hm w. destruct (Hm w) as [Hyes Hno].
  rewrite elem_of_app, list_elem_of_singleton.
  destruct (passes http_head (link_of h0 v)) eqn:Hp.
  - destruct (decide (w = v)) as [->|Hne].
    + rewrite lookup_insert_eq. split; [done |].
      intros Hn. exfalso. apply Hn. auto.
    + rewrite lookup_insert_ne by done. split.
      * intros [[Hin|Heq] Hpw]; [auto | done].
      * intros Hn. apply Hno. intros [Hin Hpw]. apply Hn. auto.
  - split.
    + intros [[Hin| ->] Hpw]; [auto | congruence].
    + intros Hn. apply Hno. intros [Hin Hpw]. apply Hn. auto.
Qed.

Lemma for_videos_spec (h0 : heap) (videos seen : list loc) (h : heap)
    (out : list loc) :
  midway http_head h0 seen h →
  (∀ v, v ∈ videos → leaks http_head (link_of h0 v) = None) →
  ∃ h', for_videos http_head (h, out) videos
        = Ok (h', out ++ filter (λ v, passes http_head (link_of h0 v) = true) videos)
      ∧ midway http_head h0 (seen ++ videos) h'.
Proof.
  revert seen h out. induction videos as [|v videos IH]; intros seen h out Hm Hno.
  - exists h. cbn [for_videos]. rewrite filter_nil, !app_nil_r. done.
  - cbn [for_videos]. rewrite visit_eq.
    rewrite (midway_leaks h0 seen h v Hm), (Hno v) by left. cbn [obind].
    rewrite (midway_passes h0 seen h v Hm), (midway_rewritten h0 seen h v Hm).
    pose proof (midway_step h0 seen h v Hm) as Hm'.
    assert (∀ u, u ∈ videos → leaks http_head (link_of h0 u) = None) as Hno'
      by (intros u Hu; apply Hno; by right).
    rewrite filter_cons.
    destruct (passes http_head (link_of h0 v)) eqn:Hp.
    + destruct (IH _ _ (out ++ [v]) Hm' Hno') as (h' & Hrun & Hfin).
      exists h'. rewrite Hrun. rewrite decide_True by done.
      by rewrite <- !app_assoc in *.
    + destruct (IH _ _ out Hm' Hno') as (h' & Hrun & Hfin).
      exists h'. rewrite Hrun. rewrite decide_False by done.
      by rewrite <- !app_assoc in *.
Qed.

(** The first request that lets an exception through ends the loop with
    that exception. *)
Lemma for_videos_raise (h0 : heap) (before : list loc) (v : loc) (after : list loc)
    (e : exn) (seen : list loc) (h : heap) (out : list loc) :
  midway http_head h0 seen h →
  (∀ u, u ∈ before → leaks http_head (link_of h0 u) = None) →
  leaks http_head (link_of h0 v) = Some e →
  for_videos http_head (h, out) (before ++ v :: after) = Raise e.
Proof.
  intros Hm Hno He.
  destruct (for_videos_spec h0 before seen h out Hm Hno) as (h' & Hrun & Hm').
  assert (∀ l1 l2 st, for_videos http_head st (l1 ++ l2)
                      = let? st' := for_videos http_head st l1 in
                        for_videos http_head st' l2) as Happ.
  { induction l1 as [|x l1 IHl]; intros l2 st; [done |].
    cbn [app for_videos]. destruct (visit http_head st x); [| done].
    cbn [obind]. apply IHl. }
  rewrite Happ, Hrun. cbn [obind for_videos].
  by rewrite visit_eq, (midway_leaks h0 _ h' v Hm'), He.
Qed.

Lemma filter_run (h : heap) (videos : list loc) :
  (∀ v, v ∈ videos → leaks http_head (link_of h v) = None) →
  ∃ h',
    filter_videos_with_valid_links http_head h videos
    = Ok (h', filter (λ v, passes http_head (link_of h v) = true) videos) ∧
    midway http_head h videos h'.
Proof.
  intros Hno.
  assert (midway http_head h [] h) as Hm0.
  { intros v. split; [intros [Hin _]; by apply elem_of_nil in Hin | done]. }
  destruct (for_videos_spec h videos [] h [] Hm0 Hno) as (h' & Hrun & Hm).
  rewrite !app_nil_l in *. eauto.
Qed.

Lemma filter_raise (h : heap) (before : list loc) (v : loc) (after : list loc)
    (e : exn) :
  (∀ u, u ∈ before → leaks http_head (link_of h u) = None) →
  leaks http_head (link_of h v) = Some e →
  filter_videos_with_valid_links http_head h (before ++ v :: after) = Raise e.
Proof.
  intros Hno He. unfold filter_videos_with_valid_links.
  apply (for_videos_raise h before v after e []); [| done | done].
  intros u. split; [intros [Hin _]; by apply elem_of_nil in Hin | done].
Qed.

End FilterFacts.

Lemma find_split_leftmost (sep s a b : string) :
  find_split sep s = Some (a, b) → leftmost sep s a b.
Proof. apply find_split_Some. Qed.

Lemma upto_cut_at (sep s : string) : cut_at sep s (upto sep s).
Proof.
  unfold cut_at, upto. destruct (find_split sep s) as [[a b]|] eqn:Hs.
  - left. exists b. by apply find_split_leftmost.
  - right. split; [done | by apply find_split_None].
Qed.

(** C3.  The claim promises a list for every input.  A candidate whose
    link names a video host under a host name with an empty label makes
    [requests.head] raise urllib3's [LocationParseError], which
    [is_valid_youtube_link] does not catch: the candidate before it alone
    is filtered to itself, and the two together make
    [filter_videos_with_valid_links] raise instead of returning the first. *)
Theorem filter_raises_on_a_malformed_host :
  has_host_marker (link_of Sample.good_and_malformed 1%nat) = true ∧
  (∃ h', filter_videos_with_valid_links Sample.strict_about_labels
           Sample.good_and_malformed [0%nat]
         = Ok (h', [0%nat])) ∧
  filter_videos_with_valid_links Sample.strict_about_labels
    Sample.good_and_malformed [0%nat; 1%nat]
  = Raise LocationParseError.
Proof.
  split; [reflexivity |]. split.
  - destruct (filter_run Sample.strict_about_labels Sample.good_and_malformed
                [0%nat]) as (h' & Hrun & _).
    + intros v ->%list_elem_of_singleton. reflexivity.
    + exists h'. exact Hrun.
  - apply (filter_raise Sample.strict_about_labels Sample.good_and_malformed
             [0%nat] 1%nat []).
    + intros v ->%list_elem_of_singleton. reflexivity.
    + reflexivity.
Qed.

(** C9, as amended.  Normalising a link never raises.  A link passes only
    if it holds a host marker ("youtube.com" or "youtu.be"); a link without
    marker, the empty one included, is dropped by the filter whatever the
    host would answer, the heap untouched.  A link holding "youtu.be/" is
    rewritten to https://www.youtube.com/watch?v=<id>, where <id> is cut
    out as [split("youtu.be/")[1].split("?")[0]] does: the text after the
    leftmost "youtu.be/", up to the next "youtu.be/" if there is one, and
    of that the text up to the first "?" if there is one. *)
Theorem link_canonicalization (http_head : string → response) (link : string) :
  (∃ n, normalize_link link = Ok n) ∧
  (passes http_head link = true → has_host_marker link = true) ∧
  (has_host_marker link = false →
     ∀ h v, link_of h v = link →
       filter_videos_with_valid_links http_head h [v] = Ok (h, [])) ∧
  (py_in "youtu.be/" link = true →
     ∃ pre post seg id,
       leftmost "youtu.be/" link pre post ∧
       cut_at "youtu.be/" post seg ∧
       cut_at "?" seg id ∧
       normalize_link link = Ok (canonical_prefix +:+ id)).
Proof.
  split; [apply normalize_total |].
  split; [apply passes_marker |].
  split.
  - intros Hno h v Hlink.
    unfold filter_videos_with_valid_links. cbn [for_videos].
    rewrite visit_eq, Hlink. unfold leaks, passes.
    by rewrite (no_marker_no_request _ Hno).
  - intros Hin. destruct (normalize_short link Hin) as (pre & post & Hs & Hn).
    exists pre, post, (upto "youtu.be/" post), (upto "?" (upto "youtu.be/" post)).
    split; [by apply find_split_leftmost |].
    split; [apply upto_cut_at |].
    split; [apply upto_cut_at | exact Hn].
Qed.

Lemma link_canonicalization_witness :
  has_host_marker "https://youtu.be/abc123?t=42" = true ∧
  ∃ id, normalize_link "https://youtu.be/abc123?t=42"
        = Ok (canonical_prefix +:+ id).
Proof.
  destruct (link_canonicalization Sample.always_200 "https://youtu.be/abc123?t=42")
    as (_ & Hmarker & _ & Hshort).
  split; [apply Hmarker; reflexivity |].
  destruct (Hshort eq_refl) as (pre & post & seg & id & _ & _ & _ & Hn).
  exists id. exact Hn.
Defined.

(** The claim C9 as the specification words it: the id is the text
    between the leftmost "youtu.be/" and the first "?" after it.  A link
    with a second "youtu.be/" before that "?" refutes it. *)
Lemma short_link_id_stops_at_second_marker :
  ¬ (∀ link pre id rest,
       leftmost "youtu.be/" link pre (id +:+ "?" +:+ rest) →
       py_in "?" id = false →
       normalize_link link = Ok (canonical_prefix +:+ id)).
Proof.
  intros Hclaim.
  specialize (Hclaim "https://youtu.be/abcyoutu.be/def?t=1"
                "https://" "abcyoutu.be/def" "t=1").
  assert (normalize_link "https://youtu.be/abcyoutu.be/def?t=1"
          = Ok "https://www.youtube.com/watch?v=abc") as Hcode by reflexivity.
  rewrite Hclaim in Hcode.
  - discriminate Hcode.
  - by apply find_split_leftmost.
  - reflexivity.
Qed.


Import StudentDatabase.

Section StudentFacts.

Context {RT : Runtime}.

Lemma get_student_run (k : Z) (w : world) :
  get_student (VInt k) w
  = (Ok (match stored_student k (stored w) with
         | Some row => student_dict row
         | None => ∅
         end), logged (SELECT students_table) w).
Proof.
  unfold get_student, stored_student, where_RollNo, bind, issue, lift, read_tables, logged.
  cbn. by destruct (filter _ _).
Qed.

Lemma student_dict_nonempty (row : Student.row) : dom (student_dict row) ≠ ∅.
Proof.
  intros Hd. assert ("RollNo" ∈ dom (student_dict row)) as Hin.
  { apply elem_of_dom. unfold student_dict. rewrite lookup_insert_eq. eauto. }
  rewrite Hd in Hin. by apply not_elem_of_empty in Hin.
Qed.

Lemma weak_step_int (threshold : Z) (acc : list string) (subject : string) (score : Z) :
  weak_step threshold acc (subject, VInt score)
  = Ok (if bool_decide (0 < score < threshold) then acc ++ [subject] else acc).
Proof.
  unfold weak_step. cbn [py_gt py_lt obind].
  destruct (Z.gtb_spec score 0), (Z.ltb_spec score threshold);
    case_bool_decide; done || lia.
Qed.

Lemma weak_loop_ints (threshold : Z) (items : list (string * Z)) (acc : list string) :
  weak_loop threshold acc (as_item <$> items)
  = Ok (acc ++ (filter (is_weak threshold) items).*1).
Proof.
  revert acc. induction items as [|[subject score] items IH]; intros acc.
  - cbn. by rewrite app_nil_r.
  - rewrite fmap_cons. cbn [weak_loop]. unfold as_item at 1. cbn [fst snd].
    rewrite weak_step_int. cbn [obind]. rewrite IH, filter_cons.
    unfold is_weak at 1 3. cbn [fst snd].
    case_bool_decide.
    + rewrite decide_True by done. by rewrite fmap_cons, <- app_assoc.
    + by rewrite decide_False by done.
Qed.

Lemma get_weak_subjects_run (k threshold : Z) (w : world) (row : Student.row)
    (l1 l2 l3 m sc so : Z) :
  stored_student k (stored w) = Some row →
  Student.Language1 row = Some l1 → Student.Language2 row = Some l2 →
  Student.Language3 row = Some l3 → Student.Maths row = Some m →
  Student.Science row = Some sc → Student.Social row = Some so →
  get_weak_subjects k threshold w
  = (Ok (filter (is_weak threshold)
           [("Language1", l1); ("Language2", l2); ("Language3", l3);
            ("Maths", m); ("Science", sc); ("Social", so)]).*1,
     logged (SELECT students_table) w).
Proof.
  intros Hrow H1 H2 H3 H4 H5 H6. unfold get_weak_subjects, bind.
  rewrite get_student_run, Hrow.
  rewrite bool_decide_eq_false_2 by apply student_dict_nonempty.
  unfold lift. f_equal.
  change (dict_get (student_dict row) "Language1" (VInt 0))
    with (nullable_int (Student.Language1 row)).
  change (dict_get (student_dict row) "Language2" (VInt 0))
    with (nullable_int (Student.Language2 row)).
  change (dict_get (student_dict row) "Language3" (VInt 0))
    with (nullable_int (Student.Language3 row)).
  change (dict_get (student_dict row) "Maths" (VInt 0))
    with (nullable_int (Student.Maths row)).
  change (dict_get (student_dict row) "Science" (VInt 0))
    with (nullable_int (Student.Science row)).
  change (dict_get (student_dict row) "Social" (VInt 0))
    with (nullable_int (Student.Social row)).
  rewrite H1, H2, H3, H4, H5, H6. cbn [nullable_int].
  apply (weak_loop_ints threshold
           [("Language1", l1); ("Language2", l2); ("Language3", l3);
            ("Maths", m); ("Science", sc); ("Social", so)] []).
Qed.

Lemma get_weak_subjects_unfold (k threshold : Z) (w : world) (row : Student.row) :
  stored_student k (stored w) = Some row →
  StudentDatabase.get_weak_subjects k threshold w
  = (weak_loop threshold []
       ((λ item : string * (Student.row → option Z),
           (item.1, nullable_int (item.2 row))) <$> score_columns),
     logged (SELECT students_table) w).
Proof.
  intros Hrow. unfold StudentDatabase.get_weak_subjects, bind.
  rewrite get_student_run, Hrow.
  rewrite bool_decide_eq_false_2 by apply student_dict_nonempty.
  reflexivity.
Qed.

Lemma first_is_stored (rollno : Z) (t : tables) (row : Student.row) :
  first_with_roll_number rollno t row → stored_student rollno t = Some row.
Proof.
  intros (before & after & Ht & Hkey & Hbefore).
  unfold stored_student, where_RollNo. rewrite Ht. clear Ht.
  induction before as [|r before IH]; cbn [app].
  - rewrite filter_cons, decide_True; [done |].
    cbn [key_is]. by apply Z.eqb_eq.
  - rewrite filter_cons, decide_False.
    + apply IH. intros x Hx. apply Hbefore. by right.
    + cbn [key_is]. intros Hk%Z.eqb_eq. apply (Hbefore r); [left | done].
Qed.

(** X23.  For the first row of the students table with the roll number,
    when its six scores are integers, and each of the six subjects: the
    subject is in the list [get_weak_subjects] returns exactly when the
    student's score in it is strictly above 0 and strictly below the
    threshold; the call changes no table.  In particular a score of 0
    never makes a subject weak, and at the default threshold 60 a score
    of 60 or more never does. *)
Theorem weak_subjects_are_scores_strictly_between
    (rollno threshold : Z) (w : world) (row : Student.row) :
  first_with_roll_number rollno (stored w) row →
  recorded row →
  ∃ weak w',
    get_weak_subjects rollno threshold w = (Ok weak, w') ∧
    stored w' = stored w ∧
    (∀ subject col, (subject, col) ∈ score_columns →
       (subject ∈ weak ↔ ∃ score, col row = Some score ∧ 0 < score < threshold)) ∧
    (∀ subject col, (subject, col) ∈ score_columns →
       col row = Some 0 → subject ∉ weak) ∧
    (threshold = default_threshold →
     ∀ subject col score, (subject, col) ∈ score_columns →
       col row = Some score → 60 ≤ score → subject ∉ weak).
Proof.
  intros Hrow%first_is_stored Hrec.
  destruct (Hrec "Language1" Student.Language1) as [l1 H1]; [set_solver |].
  destruct (Hrec "Language2" Student.Language2) as [l2 H2]; [set_solver |].
  destruct (Hrec "Language3" Student.Language3) as [l3 H3]; [set_solver |].
  destruct (Hrec "Maths" Student.Maths) as [m H4]; [set_solver |].
  destruct (Hrec "Science" Student.Science) as [sc H5]; [set_solver |].
  destruct (Hrec "Social" Student.Social) as [so H6]; [set_solver |].
  eexists _, _. split; [by eapply get_weak_subjects_run |].
  split; [done |].
  assert (∀ subject col, (subject, col) ∈ score_columns →
            (subject ∈ (filter (is_weak threshold)
               [("Language1", l1); ("Language2", l2); ("Language3", l3);
                ("Maths", m); ("Science", sc); ("Social", so)]).*1
             ↔ ∃ score, col row = Some score ∧ 0 < score < threshold)) as Hiff.
  { intros subject col Hin. rewrite list_elem_of_fmap.
    unfold score_columns in Hin.
    repeat (apply elem_of_cons in Hin as [[= -> ->]|Hin]);
      [.. | by apply elem_of_nil in Hin].
    all: split.
    all: try (intros ([s z] & Heq & [Hw Hel]%list_elem_of_filter);
              cbn [fst snd] in Heq; subst s; unfold is_weak in Hw; cbn [fst snd] in Hw;
              repeat (apply elem_of_cons in Hel as [Hel|Hel];
                      [first [discriminate Hel | injection Hel as ->; by eauto] |]);
              by apply elem_of_nil in Hel).
    all: intros (score & Hs & Hw); eexists (_, score);
      (split; [reflexivity |]); apply list_elem_of_filter; (split; [exact Hw |]).
    all: first [ replace score with l1 by congruence
               | replace score with l2 by congruence
               | replace score with l3 by congruence
               | replace score with m by congruence
               | replace score with sc by congruence
               | replace score with so by congruence ].
    all: apply list_elem_of_In; cbn [In]; tauto. }
  split; [exact Hiff |]. split.
  - intros subject col Hin H0 Hweak. apply (Hiff _ _ Hin) in Hweak as (z & Hz & ?).
    rewrite H0 in Hz. injection Hz as <-. lia.
  - intros -> subject col score Hin Hs Hge Hweak.
    apply (Hiff _ _ Hin) in Hweak as (z & Hz & ?).
    rewrite Hs in Hz. injection Hz as <-. unfold default_threshold in *. lia.
Qed.

Lemma student_exists_run (k : Z) (w : world) :
  student_exists (VInt k) w
  = (Ok (match stored_student k (stored w) with Some _ => true | None => false end),
     logged (SELECT students_table) w).
Proof.
  unfold student_exists, stored_student, where_RollNo, bind, issue, lift, read_tables,
    logged, ret.
  cbn. by destruct (filter _ _).
Qed.

Lemma dict_has_Some {V} (d : gmap string V) (k : string) (v : V) :
  d !! k = Some v → dict_has d k = true.
Proof. intros H. unfold dict_has. apply bool_decide_eq_true. eauto. Qed.

Lemma dict_has_None {V} (d : gmap string V) (k : string) :
  d !! k = None → dict_has d k = false.
Proof.
  intros H. unfold dict_has. apply bool_decide_eq_false. rewrite H.
  by intros [? ?].
Qed.

Lemma dict_item_Some {V} (d : gmap string V) (k : string) (v : V) :
  d !! k = Some v → dict_item d k = Ok v.
Proof. intros H. unfold dict_item. by rewrite H. Qed.

(** Updating an absent roll number raises, and no table changes. *)
Lemma update_student_absent (now : string) (d : gmap string pyval) (k : Z) (w : world) :
  d !! "RollNo" = Some (VInt k) →
  stored_student k (stored w) = None →
  update_student now d w
  = (Raise (ValueError (Student_does_not_exist (VInt k))),
     logged (SELECT students_table) w).
Proof.
  intros Hk Habs. unfold update_student.
  rewrite (dict_has_Some _ _ _ Hk). cbn [negb].
  unfold bind at 1. unfold lift at 1. rewrite (dict_item_Some _ _ _ Hk).
  unfold bind at 1. rewrite student_exists_run, Habs. done.
Qed.

Lemma merged_text (d : gmap string pyval) (row : Student.row) (k : string)
    (supplied : option string) (old : string) :
  student_dict row !! k = Some (VStr old) →
  d !! k = VStr <$> supplied →
  merged d (student_dict row) k = Ok (VStr (default old supplied)).
Proof.
  intros Hold Hd. unfold merged. rewrite (dict_item_Some _ _ _ Hold). cbn [obind].
  unfold dict_get. rewrite Hd. by destruct supplied.
Qed.

Lemma merged_int (d : gmap string pyval) (row : Student.row) (k : string)
    (supplied : option Z) (old : Z) :
  student_dict row !! k = Some (VInt old) →
  d !! k = VInt <$> supplied →
  merged d (student_dict row) k = Ok (VInt (default old supplied)).
Proof.
  intros Hold Hd. unfold merged. rewrite (dict_item_Some _ _ _ Hold). cbn [obind].
  unfold dict_get. rewrite Hd. by destruct supplied.
Qed.

Lemma merged_score (d : gmap string pyval) (row : Student.row) (k : string)
    (supplied : option Z) (old : option Z) :
  student_dict row !! k = Some (nullable_int old) →
  d !! k = VInt <$> supplied →
  merged d (student_dict row) k
  = Ok (nullable_int (match supplied with Some z => Some z | None => old end)).
Proof.
  intros Hold Hd. unfold merged. rewrite (dict_item_Some _ _ _ Hold). cbn [obind].
  unfold dict_get. rewrite Hd. by destruct supplied.
Qed.

Lemma int64_nullable (x : option Z) : int64 (nullable_int x) = Ok x.
Proof. by destruct x. Qed.

Lemma update_student_present (now : string) (d : gmap string pyval) (k : Z)
    (w : world) (row : Student.row)
    (name : option string) (grade : option Z) (language : option string)
    (l1 l2 l3 m sc so : option Z) :
  d !! "RollNo" = Some (VInt k) →
  stored_student k (stored w) = Some row →
  d !! "Name" = VStr <$> name →
  d !! "Grade" = VInt <$> grade →
  d !! "Language" = VStr <$> language →
  d !! "Language1" = VInt <$> l1 →
  d !! "Language2" = VInt <$> l2 →
  d !! "Language3" = VInt <$> l3 →
  d !! "Maths" = VInt <$> m →
  d !! "Science" = VInt <$> sc →
  d !! "Social" = VInt <$> so →
  update_student now d w
  = (Ok tt,
     mk_world
       (set_students
          (map (λ r, if Student.RollNo r =? k
                     then patched now row name grade language l1 l2 l3 m sc so r
                     else r))
          (stored w))
       (jobs w ++ [SELECT students_table; SELECT students_table;
                   UPDATE students_table])).
Proof.
  intros Hk Hrow Hn Hg Hl H1 H2 H3 H4 H5 H6. unfold update_student.
  rewrite (dict_has_Some _ _ _ Hk). cbn [negb].
  unfold bind at 1. unfold lift at 1. rewrite (dict_item_Some _ _ _ Hk).
  unfold bind at 1. rewrite student_exists_run, Hrow. cbn [negb].
  unfold bind at 1. rewrite get_student_run. cbn [stored logged]. rewrite Hrow.
  rewrite (merged_text d row "Name" name (Student.Name row) eq_refl Hn).
  rewrite (merged_int d row "Grade" grade (Student.Grade row) eq_refl Hg).
  rewrite (merged_text d row "Language" language (Student.Language row) eq_refl Hl).
  rewrite (merged_score d row "Language1" l1 (Student.Language1 row) eq_refl H1).
  rewrite (merged_score d row "Language2" l2 (Student.Language2 row) eq_refl H2).
  rewrite (merged_score d row "Language3" l3 (Student.Language3 row) eq_refl H3).
  rewrite (merged_score d row "Maths" m (Student.Maths row) eq_refl H4).
  rewrite (merged_score d row "Science" sc (Student.Science row) eq_refl H5).
  rewrite (merged_score d row "Social" so (Student.Social row) eq_refl H6).
  unfold bind, lift, issue, read_tables, write_tables. cbn [obind stored jobs].
  match goal with |- context [dict_item ?u "Name"] => set (updated := u) end.
  rewrite (dict_item_Some updated "Name" _ eq_refl).
  rewrite (dict_item_Some updated "Grade" _ eq_refl).
  rewrite (dict_item_Some updated "Language" _ eq_refl).
  rewrite (dict_item_Some updated "Language1" _ eq_refl).
  rewrite (dict_item_Some updated "Language2" _ eq_refl).
  rewrite (dict_item_Some updated "Language3" _ eq_refl).
  rewrite (dict_item_Some updated "Maths" _ eq_refl).
  rewrite (dict_item_Some updated "Science" _ eq_refl).
  rewrite (dict_item_Some updated "Social" _ eq_refl).
  rewrite (dict_item_Some updated "TimeStamp" _ eq_refl).
  rewrite (dict_item_Some updated "RollNo" _ eq_refl).
  cbn [obind text int64 required]. rewrite !int64_nullable. cbn [obind].
  unfold logged. cbn [stored jobs]. rewrite <- !app_assoc. reflexivity.
Qed.

End StudentFacts.

Section RecordedFacts.

Context {RT : Runtime}.

Lemma integer_score (d : gmap string pyval) (subject : string)
    (col : Student.row → option Z) :
  integer_scores d → (subject, col) ∈ score_columns →
  ∃ score, int64 (dict_get d subject (VInt 0)) = Ok (Some score).
Proof.
  intros Hd Hin. unfold dict_get.
  destruct (Hd _ _ Hin) as [->|[score ->]]; cbn; eauto.
Qed.

(** Scores given as integers, or not given, are stored as integers. *)
Lemma student_row_recorded (now : string) (d : gmap string pyval) (p : pyval)
    (row : Student.row) :
  integer_scores d → student_row now d p = Ok row → recorded row.
Proof.
  intros Hd. unfold student_row.
  destruct (integer_score d "Language1" Student.Language1 Hd) as [l1 ->];
    [apply list_elem_of_In; cbn; tauto |].
  destruct (integer_score d "Language2" Student.Language2 Hd) as [l2 ->];
    [apply list_elem_of_In; cbn; tauto |].
  destruct (integer_score d "Language3" Student.Language3 Hd) as [l3 ->];
    [apply list_elem_of_In; cbn; tauto |].
  destruct (integer_score d "Maths" Student.Maths Hd) as [m ->];
    [apply list_elem_of_In; cbn; tauto |].
  destruct (integer_score d "Science" Student.Science Hd) as [sc ->];
    [apply list_elem_of_In; cbn; tauto |].
  destruct (integer_score d "Social" Student.Social Hd) as [so ->];
    [apply list_elem_of_In; cbn; tauto |].
  destruct (obind (int64 p) required); [| done].
  destruct (obind (text (dict_get d "Name" (VStr ""))) required); [| done].
  destruct (obind (int64 (dict_get d "Grade" (VInt 1))) required); [| done].
  destruct (obind (text (dict_get d "Language" (VStr "English"))) required);
    [| done].
  cbn [obind]. destruct (text (dict_get d "TimeStamp" (VStr now))); [| done].
  cbn [obind]. intros [= <-] subject col Hin. unfold score_columns in Hin.
  repeat (apply elem_of_cons in Hin as [[= -> ->]|Hin]; [by eexists |]).
  by apply elem_of_nil in Hin.
Qed.

(** An update that gives integers keeps integer scores. *)
Lemma patched_recorded (now : string) (row : Student.row)
    (name : option string) (grade : option Z) (language : option string)
    (l1 l2 l3 m sc so : option Z) (r : Student.row) :
  recorded row → recorded (patched now row name grade language l1 l2 l3 m sc so r).
Proof.
  intros Hrec subject col Hin. pose proof (Hrec subject col Hin) as Hold.
  unfold score_columns in Hin.
  repeat (apply elem_of_cons in Hin as [[= -> ->]|Hin];
          [cbn; by match goal with |- context [match ?x with _ => _ end] =>
                     destruct x end |]).
  by apply elem_of_nil in Hin.
Qed.

End RecordedFacts.

Section WeakSubjectsAbsent.

Context {RT : Runtime}.

(** C10.  For a roll number without stored record, [get_weak_subjects]
    returns the empty list: it raises nothing, and the tables are as they
    were (the call has issued its one SELECT). *)
Theorem weak_subjects_of_unknown_student (rollno threshold : Z) (w : world) :
  stored_student rollno (stored w) = None →
  get_weak_subjects rollno threshold w = (Ok [], logged (SELECT students_table) w) ∧
  stored (snd (get_weak_subjects rollno threshold w)) = stored w.
Proof.
  intros Habs.
  assert (get_weak_subjects rollno threshold w
          = (Ok [], logged (SELECT students_table) w)) as Hrun.
  { unfold get_weak_subjects, bind. rewrite get_student_run, Habs.
    rewrite bool_decide_eq_true_2 by apply dom_empty_L. done. }
  split; [exact Hrun | by rewrite Hrun].
Qed.

End WeakSubjectsAbsent.

Import TeacherDatabase.

Section TeacherFacts.

Context {RT : Runtime}.

Lemma update_teacher_run (now : string) (staff_id : Z) (name : option string)
    (grades : option (list Z)) (subject : option string) (w : world) :
  update_teacher now staff_id name grades subject w
  = if nothing_given name grades subject
    then (Ok (Reply false No_fields_to_update), w)
    else (Ok (Reply true Teacher_profile_updated),
          mk_world
            (set_teachers
               (map (λ r, if Teacher.StaffID r =? staff_id
                          then patched_teacher now (given_text name)
                                 (given_list grades) (given_text subject) r
                          else r))
               (stored w))
            (jobs w ++ [UPDATE teachers_table])).
Proof.
  unfold update_teacher, nothing_given.
  destruct (given_text name), (given_list grades), (given_text subject);
    reflexivity.
Qed.

Lemma map_unmatched {A} (f : A → A) (hit : A → bool) (l : list A) :
  (∀ x, x ∈ l → hit x = false) →
  map (λ x, if hit x then f x else x) l = l.
Proof.
  induction l as [|x l IH]; intros Hall; [done |].
  cbn [map]. rewrite (Hall x) by set_solver. f_equal. apply IH.
  intros y Hy. apply Hall. set_solver.
Qed.

(** An update of an absent staff id changes no table, and still answers
    with success as soon as one field is given. *)
Lemma update_teacher_absent (now : string) (staff_id : Z) (name : option string)
    (grades : option (list Z)) (subject : option string) (w : world) :
  (∀ r, r ∈ teachers (stored w) → Teacher.StaffID r ≠ staff_id) →
  stored (snd (update_teacher now staff_id name grades subject w)) = stored w ∧
  fst (update_teacher now staff_id name grades subject w)
  = Ok (if nothing_given name grades subject
        then Reply false No_fields_to_update
        else Reply true Teacher_profile_updated).
Proof.
  intros Habs. rewrite update_teacher_run.
  destruct (nothing_given name grades subject); [done |]. cbn [fst snd stored].
  split; [| done]. unfold set_teachers. rewrite map_unmatched.
  - by destruct (stored w).
  - intros r Hr. apply Z.eqb_neq. by apply Habs.
Qed.

End TeacherFacts.

Section UpdateFacts.

Context {RT : Runtime}.

Lemma where_RollNo_map (k : Z) (f : Student.row → Student.row) (t : tables) :
  (∀ r, Student.RollNo (f r) = Student.RollNo r) →
  where_RollNo (Some k) (set_students (map f) t) = map f (where_RollNo (Some k) t).
Proof.
  intros Hkey. unfold where_RollNo, set_students. cbn [students].
  induction (students t) as [|r l IH]; [done |].
  cbn [map]. rewrite !filter_cons.
  assert (key_is Student.RollNo (Some k) (f r) = key_is Student.RollNo (Some k) r)
    as Hsame by (unfold key_is; by rewrite Hkey).
  destruct (decide (key_is Student.RollNo (Some k) r = true)) as [Ht|Hf].
  - rewrite decide_True by (by rewrite Hsame). cbn [map]. by rewrite IH.
  - rewrite decide_False by (by rewrite Hsame). by rewrite IH.
Qed.

Lemma stored_student_key (k : Z) (t : tables) (row : Student.row) :
  stored_student k t = Some row → Student.RollNo row = k.
Proof.
  unfold stored_student. intros Hh. apply head_Some_elem_of in Hh.
  apply list_elem_of_filter in Hh as [Hk _]. unfold key_is in Hk. lia.
Qed.

(** C7, as amended.  [update_student] on a stored roll number, with a
    dict that gives values of the columns' types: the stored student (the
    row [get_student] reads) gets the fields the dict holds, keeps its
    value in every other field, and its TimeStamp is set to the current
    time; reading the student back gives that record (further rows under
    the same roll number receive the same values).  [update_teacher]
    overwrites the fields given with a non-empty value ([None], [""] and
    [[]] count as not given) and keeps the others, in every row of the
    staff id, and sets TimeStamp to the current time; when no field is
    given it answers "No fields to update" and changes nothing, the time
    stamp included. *)
Theorem update_overwrites_the_given_fields :
  (∀ (now : string) (d : gmap string pyval) (k : Z) (w : world) (row : Student.row)
     (name : option string) (grade : option Z) (language : option string)
     (l1 l2 l3 m sc so : option Z),
     d !! "RollNo" = Some (VInt k) →
     stored_student k (stored w) = Some row →
     d !! "Name" = VStr <$> name →
     d !! "Grade" = VInt <$> grade →
     d !! "Language" = VStr <$> language →
     d !! "Language1" = VInt <$> l1 →
     d !! "Language2" = VInt <$> l2 →
     d !! "Language3" = VInt <$> l3 →
     d !! "Maths" = VInt <$> m →
     d !! "Science" = VInt <$> sc →
     d !! "Social" = VInt <$> so →
     ∃ w',
       update_student now d w = (Ok tt, w') ∧
       stored w'
       = set_students
           (map (λ r, if Student.RollNo r =? k
                      then patched now row name grade language l1 l2 l3 m sc so r
                      else r))
           (stored w) ∧
       stored_student k (stored w')
       = Some (patched now row name grade language l1 l2 l3 m sc so row)) ∧
  (∀ (now : string) (staff_id : Z) (name : option string)
     (grades : option (list Z)) (subject : option string) (w : world),
     update_teacher now staff_id name grades subject w
     = if nothing_given name grades subject
       then (Ok (Reply false No_fields_to_update), w)
       else (Ok (Reply true Teacher_profile_updated),
             mk_world
               (set_teachers
                  (map (λ r, if Teacher.StaffID r =? staff_id
                             then patched_teacher now (given_text name)
                                    (given_list grades) (given_text subject) r
                             else r))
                  (stored w))
               (jobs w ++ [UPDATE teachers_table]))).
Proof.
  split; [| apply update_teacher_run].
  intros now d k w row name grade language l1 l2 l3 m sc so
    Hk Hrow Hn Hg Hl H1 H2 H3 H4 H5 H6.
  eexists. split; [by eapply update_student_present |].
  cbn [stored]. split; [done |].
  pose proof (stored_student_key _ _ _ Hrow) as Hkey.
  unfold stored_student. rewrite where_RollNo_map.
  - unfold stored_student in Hrow.
    destruct (where_RollNo (Some k) (stored w)) as [|r0 rest]; [done |].
    cbn in Hrow. injection Hrow as ->. cbn [map head].
    by rewrite (proj2 (Z.eqb_eq _ _) Hkey).
  - intros r. by destruct (Student.RollNo r =? k).
Qed.
End UpdateFacts.

Import DatabaseSessionService.

Section InsertFacts.

Context {RT : Runtime}.

Lemma check_required_run (fields : list string) (d : gmap string pyval) :
  check_required fields d
  = match first_missing fields d with
    | Some field => Raise (ValueError (Missing_required_field field))
    | None => Ok tt
    end.
Proof.
  unfold first_missing. induction fields as [|f fields IH]; [done |].
  cbn [check_required]. rewrite filter_cons.
  destruct (d !! f) as [v|] eqn:Hf.
  - rewrite (dict_has_Some _ _ _ Hf). cbn [negb].
    rewrite decide_False by done. exact IH.
  - rewrite (dict_has_None _ _ Hf). cbn [negb].
    by rewrite decide_True by done.
Qed.

Lemma first_missing_None (fields : list string) (d : gmap string pyval) (f : string) :
  first_missing fields d = None → f ∈ fields → is_Some (d !! f).
Proof.
  unfold first_missing. intros Hh Hin. apply head_None in Hh.
  destruct (d !! f) eqn:Hf; [eauto |].
  assert (f ∈ filter (λ field, d !! field = None) fields) as Hmem
    by (apply list_elem_of_filter; done).
  rewrite Hh in Hmem. by apply elem_of_nil in Hmem.
Qed.

Lemma first_missing_Some (fields : list string) (d : gmap string pyval) (f : string) :
  first_missing fields d = Some f → f ∈ fields ∧ d !! f = None.
Proof.
  unfold first_missing. intros Hh. apply head_Some_elem_of in Hh.
  apply list_elem_of_filter in Hh. tauto.
Qed.

Lemma some_missing (fields : list string) (d : gmap string pyval) (f : string) :
  f ∈ fields → d !! f = None → is_Some (first_missing fields d).
Proof.
  intros Hin Hf. destruct (first_missing fields d) eqn:Hm; [eauto |].
  destruct (first_missing_None _ _ _ Hm Hin) as [v Hv]. congruence.
Qed.

Lemma rejects_only_bind {A B} (o : outcome A) (k : A → outcome B) :
  rejects_only o → (∀ a, rejects_only (k a)) → rejects_only (obind o k).
Proof. destruct o; cbn; [auto | done]. Qed.

Lemma rejects_only_int64 (v : pyval) : rejects_only (int64 v).
Proof. by destruct v. Qed.

Lemma rejects_only_text (v : pyval) : rejects_only (text v).
Proof. by destruct v. Qed.

Lemma rejects_only_required {A} (x : option A) : rejects_only (required x).
Proof. by destruct x. Qed.

Create HintDb rejects.
Local Hint Resolve rejects_only_int64 rejects_only_text rejects_only_required : rejects.

Local Ltac rejects :=
  repeat (apply rejects_only_bind; [| intros ?]);
  auto with rejects; exact I.

Lemma student_row_rejects_only (now : string) (d : gmap string pyval) (p : pyval) :
  rejects_only (student_row now d p).
Proof. unfold student_row. rejects. Qed.

Lemma employee_row_rejects_only (now : string) (d : gmap string pyval) (p : pyval) :
  rejects_only (employee_row now d p).
Proof. unfold employee_row. rejects. Qed.

Lemma insert_student_run (now : string) (d : gmap string pyval) (w : world) :
  insert_student now d w
  = match first_missing student_required_fields d with
    | Some field => (Raise (ValueError (Missing_required_field field)), w)
    | None =>
        match student_row now d (default VNone (d !! "RollNo")) with
        | Ok row =>
            (Ok tt, mk_world (set_students (λ rows, rows ++ [row]) (stored w))
                      (jobs w ++ [INSERT students_table]))
        | Raise e => (Raise e, logged (INSERT students_table) w)
        end
    end.
Proof.
  unfold insert_student, bind at 1, lift at 1. rewrite check_required_run.
  destruct (first_missing student_required_fields d) as [f|] eqn:Hm; [done |].
  destruct (first_missing_None _ _ "RollNo" Hm) as [p Hp];
    [unfold student_required_fields; set_solver |].
  unfold bind at 1, lift at 1. rewrite (dict_item_Some _ _ _ Hp), Hp.
  change (default VNone (Some p)) with p.
  unfold bind, issue, lift, read_tables, write_tables, logged.
  by destruct (student_row now d p).
Qed.

Lemma insert_employee_run (now : string) (d : gmap string pyval) (w : world) :
  insert_employee now d w
  = match first_missing employee_required_fields d with
    | Some field => (Raise (ValueError (Missing_required_field field)), w)
    | None =>
        match employee_row now d (default VNone (d !! "EmployeeId")) with
        | Ok row =>
            (Ok tt, mk_world (set_employees (λ rows, rows ++ [row]) (stored w))
                      (jobs w ++ [INSERT employees_table]))
        | Raise e => (Raise e, logged (INSERT employees_table) w)
        end
    end.
Proof.
  unfold insert_employee, bind at 1, lift at 1. rewrite check_required_run.
  destruct (first_missing employee_required_fields d) as [f|] eqn:Hm; [done |].
  destruct (first_missing_None _ _ "EmployeeId" Hm) as [p Hp];
    [unfold employee_required_fields; set_solver |].
  unfold bind at 1, lift at 1. rewrite (dict_item_Some _ _ _ Hp), Hp.
  change (default VNone (Some p)) with p.
  unfold bind, issue, lift, read_tables, write_tables, logged.
  by destruct (employee_row now d p).
Qed.

(** Registering a student with integer scores keeps every stored student
    with integer scores. *)
Lemma insert_student_all_recorded (now : string) (d : gmap string pyval) (w : world) :
  all_recorded (stored w) → integer_scores d →
  all_recorded (stored (snd (insert_student now d w))).
Proof.
  intros Hall Hd. rewrite insert_student_run.
  destruct (first_missing student_required_fields d); [done |].
  destruct (student_row now d _) as [row|] eqn:Hrow; [| done].
  cbn [snd stored]. unfold set_students. intros r. cbn [students].
  intros [Hr|Hr]%elem_of_app; [by apply Hall |].
  apply list_elem_of_singleton in Hr as ->. by eapply student_row_recorded.
Qed.

(** C4, as amended.  [insert_student] raises "Missing required field"
    exactly when the dict lacks one of RollNo, Name, Grade, Language, and
    [insert_employee] exactly when it lacks one of EmployeeId, Name,
    CareerGoal; the field named is one the dict lacks.  What the call
    answers does not depend on the rows already stored, and a successful
    insert appends its row whatever keys the table holds: there is no
    uniqueness check. *)
Theorem insert_fails_exactly_on_a_missing_required_field
    (now : string) (d : gmap string pyval) (w : world) :
  ((∃ field, fst (insert_student now d w)
             = Raise (ValueError (Missing_required_field field)))
   ↔ ∃ field, field ∈ ["RollNo"; "Name"; "Grade"; "Language"] ∧ d !! field = None) ∧
  ((∃ field, fst (DatabaseSessionService.insert_employee now d w)
             = Raise (ValueError (Missing_required_field field)))
   ↔ ∃ field, field ∈ ["EmployeeId"; "Name"; "CareerGoal"] ∧ d !! field = None) ∧
  (∀ field, fst (insert_student now d w)
            = Raise (ValueError (Missing_required_field field)) →
            d !! field = None) ∧
  (∀ w2, fst (insert_student now d w2) = fst (insert_student now d w)) ∧
  (∀ w2, fst (insert_employee now d w2) = fst (insert_employee now d w)) ∧
  (fst (insert_student now d w) = Ok tt →
   ∃ row, students (stored (snd (insert_student now d w)))
          = students (stored w) ++ [row]) ∧
  (fst (insert_employee now d w) = Ok tt →
   ∃ row, employees (stored (snd (insert_employee now d w)))
          = employees (stored w) ++ [row]).
Proof.
  pose proof (student_row_rejects_only now d (default VNone (d !! "RollNo"))) as Hs.
  pose proof (employee_row_rejects_only now d (default VNone (d !! "EmployeeId")))
    as He.
  repeat split.
  - intros [f Hf]. rewrite insert_student_run in Hf.
    destruct (first_missing student_required_fields d) as [g|] eqn:Hm.
    + exists g. by apply first_missing_Some in Hm.
    + destruct (student_row _ _ _); cbn in *; [done | congruence].
  - intros (f & Hin & Hnone). rewrite insert_student_run.
    destruct (some_missing student_required_fields d f Hin Hnone) as [g ->]. eauto.
  - intros [f Hf]. rewrite insert_employee_run in Hf.
    destruct (first_missing employee_required_fields d) as [g|] eqn:Hm.
    + exists g. by apply first_missing_Some in Hm.
    + destruct (employee_row _ _ _); cbn in *; [done | congruence].
  - intros (f & Hin & Hnone). rewrite insert_employee_run.
    destruct (some_missing employee_required_fields d f Hin Hnone) as [g ->]. eauto.
  - intros f Hf. rewrite insert_student_run in Hf.
    destruct (first_missing student_required_fields d) as [g|] eqn:Hm.
    + cbn in Hf. injection Hf as <-. by apply first_missing_Some in Hm as [_ ?].
    + destruct (student_row _ _ _); cbn in *; [done | congruence].
  - intros w2. rewrite !insert_student_run.
    destruct (first_missing _ _); [done |]. by destruct (student_row _ _ _).
  - intros w2. rewrite !insert_employee_run.
    destruct (first_missing _ _); [done |]. by destruct (employee_row _ _ _).
  - rewrite insert_student_run.
    destruct (first_missing _ _); [done |].
    destruct (student_row _ _ _) as [row|]; [| done]. intros _. by exists row.
  - rewrite insert_employee_run.
    destruct (first_missing _ _); [done |].
    destruct (employee_row _ _ _) as [row|]; [| done]. intros _. by exists row.
Qed.

(** The claim C4 as the specification words it: for a student the
    required fields are the roll number, the name and the language.  A
    dict with these three and no Grade refutes it. *)
Lemma insert_student_also_requires_the_grade :
  ¬ (∀ (now : string) (d : gmap string pyval) (w : world),
       (∃ field, fst (insert_student now d w)
                 = Raise (ValueError (Missing_required_field field)))
       ↔ (d !! "RollNo" = None ∨ d !! "Name" = None ∨ d !! "Language" = None)).
Proof.
  intros Hclaim.
  pose (d := (<["RollNo" := VInt 102]> (<["Name" := VStr "Meena"]> (
              <["Language" := VStr "Tamil"]> ∅))) : gmap string pyval).
  destruct (Hclaim "2025-02-01T10:00:00" d (mk_world (mk_tables [] [] [] [] []) []))
    as [Hfails _].
  destruct Hfails as [H|[H|H]]; [| discriminate H..].
  exists "Grade". reflexivity.
Qed.

End InsertFacts.


Import StudentDatabase TeacherDatabase.

Section ClassAverageFacts.

Context {RT : Runtime}.

Lemma unknown_subject (subject : string) :
  subject ∉ score_columns.*1 → subject_column_map !! subject = None.
Proof.
  intros Hnot. unfold subject_column_map.
  rewrite !lookup_insert_ne; [apply lookup_empty | ..].
  all: intros <-; apply Hnot; apply list_elem_of_In; cbn; tauto.
Qed.

Lemma known_subject (subject : string) (col : Student.row → option Z) :
  (subject, col) ∈ score_columns →
  subject_column_map !! subject = Some subject ∧ column subject = Some col.
Proof.
  unfold score_columns. intros Hin.
  repeat (apply elem_of_cons in Hin as [[= -> ->]|Hin]; [by split |]).
  by apply elem_of_nil in Hin.
Qed.

Lemma known_subject_truthy (subject : string) (col : Student.row → option Z) :
  (subject, col) ∈ score_columns → str_truthy subject = true.
Proof.
  unfold score_columns. intros Hin.
  repeat (apply elem_of_cons in Hin as [[= -> ->]|Hin]; [done |]).
  by apply elem_of_nil in Hin.
Qed.

Lemma get_class_average_run (grade : Z) (subject : string)
    (col : Student.row → option Z) (w : world) :
  (subject, col) ∈ score_columns →
  get_class_average grade subject w
  = (Ok (if 0 <? Z.of_nat (length (scores_of grade col (stored w)))
         then Class_average grade subject
                (match avg_Z (scores_of grade col (stored w)) with
                 | Some a => if Qeq_bool a 0 then 0%Q else float_round2 a
                 | None => 0%Q
                 end)
                (Z.of_nat (length (scores_of grade col (stored w))))
                (min_Z (scores_of grade col (stored w)))
                (max_Z (scores_of grade col (stored w)))
         else Reply false (No_students_found grade)),
     logged (SELECT students_table) w).
Proof.
  intros Hin. destruct (known_subject _ _ Hin) as [Hmap Hcol].
  unfold get_class_average. rewrite Hmap, (known_subject_truthy _ _ Hin).
  cbn [negb]. unfold catch, bind, issue, lift, read_tables, ret.
  rewrite Hcol. cbn [required stored]. fold (scores_of grade col (stored w)).
  unfold logged. by destruct (0 <? _).
Qed.

Lemma omap_nil_iff {A B} (f : A → option B) (l : list A) :
  omap f l = [] ↔ ∀ x, x ∈ l → f x = None.
Proof.
  induction l as [|x l IH]; simpl.
  - split; [intros _ y Hy; by apply elem_of_nil in Hy | done].
  - destruct (f x) eqn:Hx.
    + split; [done |]. intros Hall.
      assert (f x = None) as Hn by (apply Hall; left).
      congruence.
    + rewrite IH. split.
      * intros Hall y [->|Hy]%elem_of_cons; auto.
      * intros Hall y Hy. apply Hall. by right.
Qed.

(** C5.  For a subject outside the six names [get_class_average] answers
    "Invalid subject" and the world is as it was: no statement has been
    issued.  For one of the six, when no student of the grade has a
    non-NULL score in it, the answer is "No students found" (not a
    success), with the tables unchanged; and a success answer is given
    only when some student of the grade has a non-NULL score, its count
    being positive. *)
Theorem class_average_error_outcomes (grade : Z) (subject : string) (w : world) :
  (subject ∉ score_columns.*1 →
     get_class_average grade subject w
     = (Ok (Reply false (Invalid_subject subject)), w)) ∧
  (∀ col, (subject, col) ∈ score_columns →
     (∀ r, r ∈ students (stored w) → Student.Grade r = grade → col r = None) →
     get_class_average grade subject w
     = (Ok (Reply false (No_students_found grade)),
        logged (SELECT students_table) w)) ∧
  (∀ col g s average count lowest highest,
     (subject, col) ∈ score_columns →
     fst (get_class_average grade subject w)
     = Ok (Class_average g s average count lowest highest) →
     0 < count ∧
     ∃ r score, r ∈ students (stored w) ∧ Student.Grade r = grade ∧
                col r = Some score).
Proof.
  split; [| split].
  - intros Hnot. unfold get_class_average. by rewrite unknown_subject.
  - intros col Hin Hnone. rewrite (get_class_average_run _ _ _ _ Hin).
    assert (scores_of grade col (stored w) = []) as ->; [| done].
    apply omap_nil_iff. intros r [Hg Hr]%list_elem_of_filter. by apply Hnone.
  - intros col g s average count lowest highest Hin.
    rewrite (get_class_average_run _ _ _ _ Hin). cbn [fst].
    destruct (scores_of grade col (stored w)) as [|score rest] eqn:Hs.
    + cbn. discriminate.
    + cbn [length]. destruct (0 <? _) eqn:Hpos; [| discriminate].
      intros [= _ _ _ <- _ _]. split; [lia |].
      assert (score ∈ scores_of grade col (stored w)) as Hmem
        by (rewrite Hs; left).
      apply list_elem_of_omap in Hmem as (r & [Hg Hr]%list_elem_of_filter & Hc).
      eauto 6.
Qed.

End ClassAverageFacts.

Import Evaluation.

Section RoundingFacts.

(** The mean of two integers rounds to their halved sum, a sum that is
    odd going to the even neighbour. *)
Lemma total_score_eq (q e : Z) :
  total_score q e
  = if Z.even (q + e) then (q + e) / 2
    else if Z.even ((q + e) / 2) then (q + e) / 2 else (q + e) / 2 + 1.
Proof.
  unfold total_score, py_round.
  set (n := q + e).
  assert (Qfloor (inject_Z n / 2) = n / 2) as Hfloor.
  { unfold Qfloor, Qdiv, Qmult, Qinv, inject_Z. cbn. by rewrite Z.mul_1_r. }
  rewrite Hfloor.
  assert (((inject_Z n / 2 - inject_Z (n / 2)) ?= 1 # 2)%Q
          = (2 * (n mod 2) ?= 2)) as Hcmp.
  { unfold Qcompare, Qminus, Qplus, Qopp, Qdiv, Qmult, Qinv, inject_Z. cbn.
    pose proof (Z.div_mod n 2 ltac:(lia)) as Hdm.
    f_equal; lia. }
  rewrite Hcmp.
  pose proof (Z.mod_pos_bound n 2 ltac:(lia)) as Hb.
  destruct (Z.eqb_spec (n mod 2) 0) as [H0|H1].
  - assert (Z.even n = true) as -> by (by rewrite (Zeven_mod n), H0).
    by rewrite H0.
  - assert (n mod 2 = 1) as H1' by lia.
    assert (Z.even n = false) as -> by (by rewrite (Zeven_mod n), H1').
    by rewrite H1'.
Qed.

Lemma total_score_nearest (q e : Z) :
  let t := total_score q e in
  (2 * t = q + e) ∨ ((2 * t = q + e + 1 ∨ 2 * t = q + e - 1) ∧ Z.even t = true).
Proof.
  cbn zeta. rewrite total_score_eq.
  pose proof (Z.div_mod (q + e) 2 ltac:(lia)) as Hdm.
  pose proof (Z.mod_pos_bound (q + e) 2 ltac:(lia)) as Hb.
  destruct (Z.even (q + e)) eqn:Hev.
  - left. rewrite (Zeven_mod (q + e)) in Hev. apply Z.eqb_eq in Hev. lia.
  - right. rewrite (Zeven_mod (q + e)) in Hev. apply Z.eqb_neq in Hev.
    destruct (Z.even ((q + e) / 2)) eqn:Hh.
    + split; [lia | done].
    + split; [lia |]. rewrite Z.even_add, Hh. done.
Qed.

Lemma rounds_half_even_halves (n t : Z) :
  (2 * t = n) ∨ ((2 * t = n + 1 ∨ 2 * t = n - 1) ∧ Z.even t = true) →
  rounds_half_even (inject_Z n / 2) t.
Proof.
  intros Hn. unfold rounds_half_even.
  assert (∀ c : Z, (Qabs (inject_Z t - inject_Z n / 2) <= c # 2)%Q
                   ↔ Z.abs (2 * t - n) ≤ c) as Hle.
  { intros c. unfold Qle, Qabs, Qminus, Qplus, Qopp, Qdiv, Qmult, Qinv, inject_Z.
    cbn. lia. }
  assert ((Qabs (inject_Z t - inject_Z n / 2) == 1 # 2)%Q
          ↔ Z.abs (2 * t - n) = 1) as Heq.
  { unfold Qeq, Qabs, Qminus, Qplus, Qopp, Qdiv, Qmult, Qinv, inject_Z.
    cbn. lia. }
  rewrite Hle, Heq. split; [lia |]. intros Habs.
  destruct Hn as [Hn|[_ Hev]]; [lia | done].
Qed.

(** C6.  For quiz and evaluated scores between 0 and 100, the total that
    [store_results] computes and stores is their mean rounded to the
    nearest integer, a tie going to the even neighbour (Python's [round]):
    [store_results] appends one row holding the two scores and that
    total.  In particular the total of 80 and 60 is 70, of 0 and 0 is 0,
    of 100 and 100 is 100. *)
Theorem total_score_is_the_rounded_mean
    (timestamp : string) (rollno : Z) (subject : string) (q e : Z) (w : world) :
  0 ≤ q ≤ 100 → 0 ≤ e ≤ 100 →
  rounds_half_even (inject_Z (q + e) / 2) (total_score q e) ∧
  0 ≤ total_score q e ≤ 100 ∧
  store_results timestamp rollno subject q e w
  = (Ok tt,
     mk_world
       (set_test_results
          (λ rows, rows ++ [TestResult.mk rollno subject q e (total_score q e)
                              timestamp])
          (stored w))
       (jobs w ++ [INSERT test_results_table])) ∧
  total_score 80 60 = 70 ∧ total_score 0 0 = 0 ∧ total_score 100 100 = 100.
Proof.
  intros Hq He. pose proof (total_score_nearest q e) as Hn. cbn zeta in Hn.
  split; [by apply rounds_half_even_halves |].
  split; [lia |].
  split; [reflexivity |].
  by rewrite !total_score_eq.
Qed.

Lemma total_score_is_the_rounded_mean_witness :
  rounds_half_even (inject_Z (81 + 60) / 2) 70 ∧ total_score 81 60 = 70.
Proof.
  destruct (total_score_is_the_rounded_mean "2025-02-01 10:00:00" 101 "Maths" 81 60
              (mk_world (mk_tables [] [] [] [] []) []))
    as (Hround & _ & _); [lia | lia |].
  assert (total_score 81 60 = 70) as Ht by (by rewrite total_score_eq).
  rewrite Ht in Hround. split; [exact Hround | exact Ht].
Defined.

End RoundingFacts.

Import CourseValidation StudentCourseRecommendationDatabase.

Section RecommendationFacts.

Lemma insert_recommendation_run (now : string) (rollno : Z) (student_name : string)
    (video : gmap string string) (w : world) :
  insert_recommendation now (recommendation_of rollno student_name video) w
  = (Ok tt,
     mk_world
       (set_recommendations (λ rows, rows ++ [built_row now rollno student_name video])
          (stored w))
       (jobs w ++ [INSERT recommendations_table])).
Proof. reflexivity. Qed.

Lemma save_loop_run (clock : nat → string) (rollno : Z) (student_name : string)
    (videos : list (gmap string string)) (i : nat) (w : world) :
  save_loop clock i rollno student_name videos w
  = (Ok tt,
     mk_world
       (set_recommendations
          (λ rows, rows ++ imap (λ j, built_row (clock (i + j)%nat) rollno student_name)
                             videos)
          (stored w))
       (jobs w ++ replicate (length videos) (INSERT recommendations_table))).
Proof.
  revert i w. induction videos as [|video videos IH]; intros i w.
  - destruct w as [[] ?]. unfold set_recommendations. cbn.
    by rewrite !app_nil_r.
  - cbn [save_loop]. unfold bind. rewrite insert_recommendation_run, IH.
    cbn [length replicate imap stored jobs]. f_equal.
    unfold set_recommendations. cbn [recommendations students teachers employees
      test_results].
    rewrite <- !app_assoc. cbn [app]. rewrite Nat.add_0_r.
    do 4 f_equal. apply imap_ext. intros j v _. cbn. do 2 f_equal. lia.
Qed.

Lemma filter_all {A} (P : A → Prop) `{∀ x, Decision (P x)} (l : list A) :
  (∀ x, x ∈ l → P x) → filter P l = l.
Proof.
  induction l as [|x l IH]; intros Hall; [done |].
  rewrite filter_cons, decide_True by (apply Hall; left).
  f_equal. apply IH. intros y Hy. apply Hall. by right.
Qed.

Lemma filter_none {A} (P : A → Prop) `{∀ x, Decision (P x)} (l : list A) :
  (∀ x, x ∈ l → ¬ P x) → filter P l = [].
Proof.
  induction l as [|x l IH]; intros Hall; [done |].
  rewrite filter_cons, decide_False by (apply Hall; left).
  apply IH. intros y Hy. apply Hall. by right.
Qed.

Lemma filter_within {A} (P Q : A → Prop) `{∀ x, Decision (P x)} `{∀ x, Decision (Q x)}
    (l : list A) :
  (∀ x, P x → Q x) → filter P (filter Q l) = filter P l.
Proof.
  intros HPQ. induction l as [|x l IH]; [done |].
  rewrite (filter_cons Q). destruct (decide (Q x)) as [Hq|Hq].
  - rewrite !filter_cons. destruct (decide (P x)); by rewrite IH.
  - rewrite IH, filter_cons, decide_False; [done |]. intros Hp. by apply Hq, HPQ.
Qed.

Lemma built_rows_key (clock : nat → string) (rollno : Z) (student_name : string)
    (videos : list (gmap string string)) (r : Recommendation.row) :
  r ∈ imap (λ i, built_row (clock i) rollno student_name) videos →
  Recommendation.RollNo r = rollno.
Proof. intros (i & v & -> & _)%elem_of_lookup_imap. done. Qed.

(** C8.  [save_validated_videos] completes with its confirmation, and
    afterwards the rows stored for the roll number are exactly the rows
    built from [validated_videos], in their order, each with the clock
    reading of its insert: every row the roll number had before is gone.
    The rows of every other roll number, and the other tables, are as
    they were. *)
Theorem save_replaces_the_recommendations (clock : nat → string) (rollno : Z)
    (student_name : string) (validated_videos : list (gmap string string))
    (w : world) :
  ∃ w',
    save_validated_videos clock rollno student_name validated_videos w
    = (Ok (Successfully_saved (length validated_videos) rollno), w') ∧
    courses_of rollno (stored w')
    = imap (λ i, built_row (clock i) rollno student_name) validated_videos ∧
    (∀ other, other ≠ rollno →
       courses_of other (stored w') = courses_of other (stored w)) ∧
    students (stored w') = students (stored w) ∧
    teachers (stored w') = teachers (stored w) ∧
    employees (stored w') = employees (stored w) ∧
    test_results (stored w') = test_results (stored w).
Proof.
  eexists. split.
  { unfold save_validated_videos, bind.
    unfold delete_student_courses at 1, bind, issue, read_tables, write_tables.
    cbn [stored jobs]. rewrite save_loop_run. reflexivity. }
  cbn [stored]. unfold courses_of, set_recommendations.
  cbn [recommendations students teachers employees test_results].
  split; [| split; [| done]].
  - rewrite filter_app, filter_none, app_nil_l.
    + apply filter_all. intros r Hr. by eapply built_rows_key.
    + intros r [Hr _]%list_elem_of_filter. done.
  - intros other Hother. rewrite filter_app.
    rewrite (filter_none _ (imap _ _)), app_nil_r.
    + apply filter_within. intros r ->. done.
    + intros r Hr Hk. apply Hother. rewrite <- Hk.
      by eapply built_rows_key.
Qed.

End RecommendationFacts.

Section Witnesses.

#[local] Existing Instance Sample.runtime.

Lemma rahul_recorded : recorded Sample.rahul.
Proof.
  intros subject col Hin. unfold score_columns in Hin.
  repeat (apply elem_of_cons in Hin as [[= -> ->]|Hin]; [by eexists |]).
  by apply elem_of_nil in Hin.
Defined.

Lemma weak_subjects_are_scores_strictly_between_witness :
  ∃ weak w',
    get_weak_subjects 101 60 Sample.classroom = (Ok weak, w') ∧
    "Maths" ∈ weak ∧ ("Language2" ∉ weak) ∧ ("Science" ∉ weak).
Proof.
  destruct (weak_subjects_are_scores_strictly_between 101 60 Sample.classroom
              Sample.rahul
              (ex_intro _ [] (ex_intro _ [] (conj eq_refl (conj eq_refl
                 (λ r Hr, False_ind _ (proj1 (elem_of_nil r) Hr))))))
              rahul_recorded)
    as (weak & w' & Hrun & _ & Hiff & Hzero & Hfull).
  exists weak, w'. split; [exact Hrun |]. split; [| split].
  - apply (Hiff "Maths" Student.Maths).
    + apply list_elem_of_In. cbn. tauto.
    + exists 52. split; [reflexivity | lia].
  - apply (Hzero "Language2" Student.Language2); [| reflexivity].
    apply list_elem_of_In. cbn. tauto.
  - apply (Hfull eq_refl "Science" Student.Science 60); [| reflexivity | lia].
    apply list_elem_of_In. cbn. tauto.
Defined.

Lemma weak_subjects_of_unknown_student_witness :
  get_weak_subjects 999 60 Sample.classroom
  = (Ok [], logged (SELECT students_table) Sample.classroom).
Proof.
  apply (weak_subjects_of_unknown_student 999 60 Sample.classroom). reflexivity.
Defined.

(** C2, at the failing input.  No teacher has staff id 999; the update
    changes no table, yet the answer is the success reply
    "Teacher profile updated successfully!" and not an error. *)
Theorem update_of_unknown_teacher_answers_success :
  teacher_exists 999 Sample.classroom
  = (Ok false, logged (SELECT teachers_table) Sample.classroom) ∧
  update_teacher "2025-02-01T10:00:00" 999 (Some "Kiran") None None Sample.classroom
  = (Ok (Reply true Teacher_profile_updated),
     logged (UPDATE teachers_table) Sample.classroom).
Proof. split; reflexivity. Qed.

Lemma update_overwrites_the_given_fields_witness :
  ∃ w',
    update_student "2025-02-01T10:00:00" Sample.maths_75 Sample.classroom = (Ok tt, w') ∧
    stored_student 101 (stored w')
    = Some (Student.mk 101 "Rahul Kumar" 5 "Hindi"
              (Some 45) (Some 0) (Some 72) (Some 75) (Some 60) (Some 59)
              (Some "2025-02-01T10:00:00")).
Proof.
  destruct update_overwrites_the_given_fields as [Hstudent _].
  destruct (Hstudent "2025-02-01T10:00:00" Sample.maths_75 101 Sample.classroom Sample.rahul
              None None None None None None (Some 75) None None
              eq_refl eq_refl eq_refl eq_refl eq_refl eq_refl eq_refl eq_refl
              eq_refl eq_refl eq_refl)
    as (w' & Hrun & _ & Hback).
  exists w'. split; [exact Hrun | exact Hback].
Defined.

(** The claim C7 as the specification words it: every update call on a
    stored key refreshes the time stamp.  A call of [update_teacher] that
    gives no field refutes it. *)
Lemma update_without_fields_keeps_the_time_stamp :
  ¬ (∀ (now : string) (staff_id : Z) (name : option string)
       (grades : option (list Z)) (subject : option string) (w : world) (r : Teacher.row),
       r ∈ teachers (stored w) → Teacher.StaffID r = staff_id →
       ∀ r', r' ∈ teachers (stored (snd (update_teacher now staff_id name grades
                                            subject w))) →
             Teacher.StaffID r' = staff_id → Teacher.TimeStamp r' = now).
Proof.
  intros Hclaim.
  specialize (Hclaim "2025-02-01T10:00:00" 501 None None None Sample.classroom
                Sample.asha).
  assert (Teacher.TimeStamp Sample.asha = "2025-02-01T10:00:00") as Hts.
  { apply Hclaim; [by left | reflexivity | by left | reflexivity]. }
  discriminate Hts.
Qed.

Lemma insert_fails_exactly_on_a_missing_required_field_witness :
  ∃ row, students (stored (snd (insert_student "2025-02-01T10:00:00" Sample.meena
                                   Sample.classroom)))
         = [Sample.rahul] ++ [row].
Proof.
  destruct (insert_fails_exactly_on_a_missing_required_field "2025-02-01T10:00:00"
              Sample.meena Sample.classroom)
    as (_ & _ & _ & _ & _ & Happend & _).
  apply Happend. reflexivity.
Defined.

Lemma class_average_error_outcomes_witness :
  get_class_average 7 "Maths" Sample.classroom
  = (Ok (Reply false (No_students_found 7)),
     logged (SELECT students_table) Sample.classroom) ∧
  get_class_average 5 "History" Sample.classroom
  = (Ok (Reply false (Invalid_subject "History")), Sample.classroom).
Proof.
  split.
  - destruct (class_average_error_outcomes 7 "Maths" Sample.classroom)
      as (_ & Hnone & _).
    apply (Hnone Student.Maths).
    + apply list_elem_of_In. cbn. tauto.
    + intros r Hr Hg. apply list_elem_of_In in Hr. cbn in Hr.
      destruct Hr as [<-|[]]. discriminate Hg.
  - destruct (class_average_error_outcomes 5 "History" Sample.classroom)
      as (Hinvalid & _).
    apply Hinvalid. intros Hin. apply list_elem_of_In in Hin. cbn in Hin.
    repeat (destruct Hin as [Hin|Hin]; [discriminate Hin |]). exact Hin.
Defined.

End Witnesses.

Section NullScoreStored.

Context {RT : Runtime}.

(** C1, at the failing input.  The students table takes NULL in a score
    column: [insert_student] stores the [None] it is given for Maths.
    For that stored student [get_weak_subjects] raises [TypeError] at
    [None > 0], where the claim has it answer the list of the subjects
    with a score strictly between 0 and the threshold. *)
Theorem weak_subjects_raise_for_a_stored_student_without_a_score :
  let registered :=
    insert_student "2025-02-01T10:00:00" Sample.kiran Sample.classroom in
  fst registered = Ok tt ∧
  students (stored (snd registered))
  = [Sample.rahul;
     Student.mk 102 "Kiran" 5 "Telugu" (Some 0) (Some 0) (Some 0) None (Some 0)
       (Some 0) (Some "2025-02-01T10:00:00")] ∧
  fst (get_weak_subjects 102 60 (snd registered)) = Raise TypeError.
Proof.
  intros registered. split; [reflexivity |]. split; [reflexivity |].
  rewrite (get_weak_subjects_unfold 102 60 (snd registered)
             (Student.mk 102 "Kiran" 5 "Telugu" (Some 0) (Some 0) (Some 0) None
                (Some 0) (Some 0) (Some "2025-02-01T10:00:00")));
    reflexivity.
Qed.

End NullScoreStored.

Import CourseValidation YouTubeSearch.

Section VideoIdFacts.

Lemma take_id_shape (n : nat) (s v : string) :
  take_id n s = Some v → String.length v = n ∧ id_text v = true.
Proof.
  revert s v. induction n as [|n IH]; intros s v; cbn [take_id].
  - by intros [= <-].
  - destruct s as [|c s]; [done |].
    destruct (id_char c) eqn:Hc; [| done].
    destruct (take_id n s) as [v'|] eqn:Ht; [| done].
    intros [= <-]. destruct (IH _ _ Ht) as [Hlen Hid].
    cbn [String.length id_text]. by rewrite Hlen, Hc, Hid.
Qed.

Lemma take_id_app (v rest : string) :
  id_text v = true → take_id (String.length v) (v +:+ rest) = Some v.
Proof.
  induction v as [|c v IH]; [done |]. cbn [id_text String.length].
  intros [Hc Hv]%andb_true_iff. rewrite str_app_cons. cbn [take_id].
  by rewrite Hc, (IH Hv).
Qed.

Lemma match_here_shape (literals : list string) (s v : string) :
  match_here literals s = Some v → video_id_ok v = true.
Proof.
  induction literals as [|literal rest IH]; [done |]. cbn [match_here].
  destruct (String.prefix literal s); [| exact IH].
  destruct (take_id 11 _) as [v'|] eqn:Ht; [| exact IH].
  intros [= <-]. apply take_id_shape in Ht as [Hlen Hid].
  unfold video_id_ok. by rewrite Hlen, Hid.
Qed.

Lemma re_search_shape (literals : list string) (text v : string) :
  re_search literals text = Some v → video_id_ok v = true.
Proof.
  induction text as [|c text IH]; cbn [re_search];
    destruct (match_here literals _) as [v'|] eqn:Hm.
  - intros [= <-]. by eapply match_here_shape.
  - done.
  - intros [= <-]. by eapply match_here_shape.
  - exact IH.
Qed.

Lemma first_match_shape (pats : list (list string)) (text : string) :
  first_match pats text = "" ∨ video_id_ok (first_match pats text) = true.
Proof.
  induction pats as [|p pats IH]; [by left |]. cbn [first_match].
  destruct (re_search p text) as [v|] eqn:Hs; [| exact IH].
  right. by eapply re_search_shape.
Qed.

(** What is extracted is a video id or nothing. *)
Lemma extract_shape (text : string) :
  extract_youtube_video_id text = "" ∨
  video_id_ok (extract_youtube_video_id text) = true.
Proof. apply first_match_shape. Qed.

Lemma re_search_skip (literals : list string) (c : ascii) (text : string) :
  match_here literals (String c text) = None →
  re_search literals (String c text) = re_search literals text.
Proof. intros Hm. cbn [re_search]. by rewrite Hm. Qed.

Lemma re_search_hit (literals : list string) (text v : string) :
  match_here literals text = Some v → re_search literals text = Some v.
Proof. intros Hm. destruct text; cbn [re_search]; by rewrite Hm. Qed.

Lemma match_here_hit (literal : string) (rest : list string) (s v : string) :
  String.prefix literal s = true →
  take_id 11 (drop (String.length literal) s) = Some v →
  match_here (literal :: rest) s = Some v.
Proof. intros Hp Ht. cbn [match_here]. by rewrite Hp, Ht. Qed.

Lemma extract_canonical (v rest : string) :
  video_id_ok v = true →
  extract_youtube_video_id (canonical_prefix +:+ v +:+ rest) = v.
Proof.
  unfold video_id_ok. intros [Hlen%Nat.eqb_eq Hid]%andb_true_iff.
  pose proof (take_id_app v rest Hid) as Ht. rewrite Hlen in Ht.
  unfold extract_youtube_video_id, patterns. cbn [first_match].
  change (canonical_prefix +:+ v +:+ rest)
    with ("https://www." +:+ ("youtube.com/watch?v=" +:+ (v +:+ rest))).
  rewrite !str_app_cons, str_app_nil_l.
  do 12 (rewrite re_search_skip by reflexivity).
  rewrite (re_search_hit _ _ v); [done |].
  apply match_here_hit; [| exact Ht].
  apply prefix_iff. by exists (v +:+ rest).
Qed.

End VideoIdFacts.

Lemma id_text_app (a b : string) : id_text (a +:+ b) = id_text a && id_text b.
Proof.
  induction a as [|c a IH]; [done |].
  rewrite str_app_cons. cbn [id_text]. by rewrite IH, andb_assoc.
Qed.

(** A text of id characters holds none of the markers a link is searched
    for: they all have a dot or a slash. *)
Lemma id_text_free (sub v : string) :
  id_text sub = false → id_text v = true → py_in sub v = false.
Proof.
  intros Hsub Hv. destruct (py_in sub v) eqn:Hin; [| done].
  apply py_in_iff in Hin as (p & q & ->).
  rewrite !id_text_app, Hsub in Hv. by rewrite andb_false_r in Hv.
Qed.

(** Id characters are ASCII: on a text of them, [len] counts the bytes. *)
Lemma id_char_alone (c : ascii) : id_char c = true → continues c = false.
Proof. destruct c as [[] [] [] [] [] [] [] []]; by vm_compute. Qed.

Lemma id_text_len (v : string) :
  id_text v = true → py_len v = String.length v.
Proof.
  induction v as [|c v IH]; [done |]. cbn [id_text py_len String.length].
  intros [Hc Hv]%andb_true_iff. by rewrite (id_char_alone c Hc), IH.
Qed.

Section VideoIdTheorems.

(** X1.  What [extract_youtube_video_id] returns is the empty string or
    eleven characters of [a-zA-Z0-9_-]; hence [validate_youtube_url]
    accepts a URL exactly when it starts with
    https://www.youtube.com/watch?v= and an id is extracted from it: its
    length test never decides. *)
Theorem extracted_id_has_eleven_id_characters :
  (∀ text,
     extract_youtube_video_id text = "" ∨
     (String.length (extract_youtube_video_id text) = 11%nat ∧
      id_text (extract_youtube_video_id text) = true)) ∧
  (∀ url,
     validate_youtube_url url = true ↔
     startswith url "https://www.youtube.com/watch?v=" = true ∧
     extract_youtube_video_id url ≠ "").
Proof.
  assert (∀ text,
     extract_youtube_video_id text = "" ∨
     (String.length (extract_youtube_video_id text) = 11%nat ∧
      id_text (extract_youtube_video_id text) = true)) as Hshape.
  { intros text. destruct (extract_shape text) as [->|Hok]; [by left |].
    right. unfold video_id_ok in Hok.
    apply andb_true_iff in Hok as [Hlen%Nat.eqb_eq Hid]. done. }
  split; [exact Hshape |].
  intros url. unfold validate_youtube_url.
  destruct (str_truthy url) eqn:Hurl; cbn [negb].
  - destruct (startswith url _) eqn:Hstart; cbn [negb];
      [| split; [done | by intros [? _]]].
    destruct (Hshape url) as [->|[Hlen Hid]];
      [split; [done | by intros [_ ?]] |].
    rewrite (id_text_len _ Hid), Hlen. cbn [Nat.eqb negb orb].
    destruct (extract_youtube_video_id url); [done |]. cbn.
    split; [| done]. intros _. split; [done | discriminate].
  - split; [done |]. intros [Hstart _].
    unfold str_truthy in Hurl. apply negb_false_iff, String.eqb_eq in Hurl as ->.
    discriminate Hstart.
Qed.

(** X2.  Formatting a video id and extracting again gives the id back:
    for eleven id characters [v], [format_youtube_url v] is
    https://www.youtube.com/watch?v= followed by [v]; from that URL,
    whatever text follows it, [extract_youtube_video_id] returns [v] and
    [validate_youtube_url] accepts it. *)
Theorem format_then_extract (v : string) :
  video_id_ok v = true →
  format_youtube_url v = "https://www.youtube.com/watch?v=" +:+ v ∧
  ∀ rest,
    extract_youtube_video_id (format_youtube_url v +:+ rest) = v ∧
    validate_youtube_url (format_youtube_url v +:+ rest) = true.
Proof.
  intros Hok. pose proof Hok as Hok'. unfold video_id_ok in Hok'.
  apply andb_true_iff in Hok' as [Hlen Hid].
  assert (str_truthy v = true) as Htruthy.
  { destruct v; [discriminate Hlen | done]. }
  assert (format_youtube_url v = canonical_prefix +:+ v) as Hfmt.
  { unfold format_youtube_url. by rewrite Htruthy, (id_text_len v Hid), Hlen. }
  split; [exact Hfmt |]. intros rest. rewrite Hfmt, str_app_assoc.
  pose proof (extract_canonical v rest Hok) as Hext.
  split; [exact Hext |].
  apply extracted_id_has_eleven_id_characters. rewrite Hext. split.
  - apply prefix_iff. by exists (v +:+ rest).
  - by destruct v.
Qed.

Lemma format_then_extract_witness :
  extract_youtube_video_id
    (format_youtube_url "dQw4w9WgXcQ" +:+ "&list=PL1")
  = "dQw4w9WgXcQ".
Proof.
  destruct (format_then_extract "dQw4w9WgXcQ" eq_refl) as [_ Hround].
  apply (Hround "&list=PL1").
Defined.

(** X3.  A URL made by [format_youtube_url] from a video id is already in
    the form the validation agent normalises to: [normalize_link] returns
    it unchanged, it holds a host marker, and it passes the filter as
    soon as the host answers 200 for it. *)
Theorem formatted_url_is_normal (http_head : string → response) (v : string) :
  video_id_ok v = true →
  normalize_link (format_youtube_url v) = Ok (format_youtube_url v) ∧
  has_host_marker (format_youtube_url v) = true ∧
  (http_head (format_youtube_url v) = Status 200 →
   passes http_head (format_youtube_url v) = true).
Proof.
  intros Hok. destruct (format_then_extract v Hok) as [Hfmt _].
  unfold video_id_ok in Hok. apply andb_true_iff in Hok as [Hlen Hid].
  assert (normalize_link (format_youtube_url v) = Ok (format_youtube_url v)) as Hn.
  { rewrite Hfmt. apply canonical_short_fixed. by apply id_text_free. }
  assert (has_host_marker (format_youtube_url v) = true) as Hm.
  { rewrite Hfmt. unfold has_host_marker. apply orb_true_iff. left.
    apply py_in_iff. by exists "https://www.", ("/watch?v=" +:+ v). }
  split; [exact Hn |]. split; [exact Hm |].
  intros H200.
  assert (canonical (format_youtube_url v) = format_youtube_url v) as Hcan
    by (unfold canonical; by rewrite Hn).
  unfold passes, request_of. rewrite Hcan, (marker_truthy _ Hm), Hm.
  cbn [andb]. by rewrite H200.
Qed.

Lemma formatted_url_is_normal_witness :
  passes Sample.always_200 (format_youtube_url "dQw4w9WgXcQ") = true.
Proof.
  destruct (formatted_url_is_normal Sample.always_200 "dQw4w9WgXcQ" eq_refl)
    as (_ & _ & Hpass).
  apply Hpass. reflexivity.
Defined.

End VideoIdTheorems.

Import StudentDatabase TeacherDatabase.

Section KeepsFacts.

Context {R : tables → tables → Prop} `{!Reflexive R} `{!Transitive R}.

Lemma keeps_ret {A} (a : A) : keeps R (ret a).
Proof. intros w. cbn. reflexivity. Qed.

Lemma keeps_raise {A} (e : exn) : keeps R (@raise A e).
Proof. intros w. cbn. reflexivity. Qed.

Lemma keeps_lift {A} (o : outcome A) : keeps R (lift o).
Proof. intros w. cbn. reflexivity. Qed.

Lemma keeps_issue (s : statement) : keeps R (issue s).
Proof. intros w. cbn. reflexivity. Qed.

Lemma keeps_read : keeps R read_tables.
Proof. intros w. cbn. reflexivity. Qed.

Lemma keeps_bind {A B} (m : M A) (k : A → M B) :
  keeps R m → (∀ a, keeps R (k a)) → keeps R (bind m k).
Proof.
  intros Hm Hk w. unfold bind. specialize (Hm w).
  destruct (m w) as [[a|e] w1]; cbn [snd] in *; [| done].
  etransitivity; [exact Hm | apply Hk].
Qed.

(** [lift o] hands on a value only when [o] is one. *)
Lemma keeps_bind_lift {A B} (o : outcome A) (k : A → M B) :
  (∀ a, o = Ok a → keeps R (k a)) → keeps R (bind (lift o) k).
Proof.
  intros Hk w. unfold bind, lift. destruct o as [a|e]; [| cbn; reflexivity].
  by apply Hk.
Qed.

Lemma keeps_catch {A} (m : M A) (h : exn → M A) :
  keeps R m → (∀ e, keeps R (h e)) → keeps R (catch m h).
Proof.
  intros Hm Hh w. unfold catch. specialize (Hm w).
  destruct (m w) as [[a|e] w1]; cbn [snd] in *; [done |].
  etransitivity; [exact Hm | apply Hh].
Qed.

(** Reading the tables and writing them back changed by [g]. *)
Lemma keeps_rewrite (g : tables → tables) :
  (∀ t, R t (g t)) → keeps R (bind read_tables (λ t, write_tables (g t))).
Proof. intros Hg w. cbn. apply Hg. Qed.

End KeepsFacts.

Ltac keeps_step :=
  lazymatch goal with
  | |- keeps _ (bind read_tables (λ _, write_tables _)) => fail
  | |- keeps _ (bind _ _) => apply keeps_bind; [| intros ?]
  | |- keeps _ (ret _) => apply keeps_ret
  | |- keeps _ (raise _) => apply keeps_raise
  | |- keeps _ (lift _) => apply keeps_lift
  | |- keeps _ (issue _) => apply keeps_issue
  | |- keeps _ read_tables => apply keeps_read
  | |- keeps _ (catch _ _) => apply keeps_catch; [| intros ?]
  | |- keeps _ (if ?b then _ else _) => destruct b
  | |- keeps _ (match ?x with _ => _ end) => destruct x
  end.

Section ReadOnly.

Context {RT : Runtime}.

Import StudentAgent.

Lemma student_exists_reads (rollno : pyval) : keeps eq (student_exists rollno).
Proof. unfold student_exists. repeat keeps_step. Qed.

Lemma get_student_reads (rollno : pyval) : keeps eq (get_student rollno).
Proof. unfold get_student. repeat keeps_step. Qed.

Lemma teacher_exists_reads (staff_id : Z) : keeps eq (teacher_exists staff_id).
Proof. unfold teacher_exists. repeat keeps_step. Qed.

Lemma get_teacher_reads (staff_id : Z) : keeps eq (get_teacher staff_id).
Proof. unfold get_teacher. repeat keeps_step. Qed.

(** X4.  The lookups never write: whatever the arguments and the stored
    rows, and whether they return or raise, [student_exists],
    [get_student], [get_weak_subjects], [check_student],
    [show_student_data], [teacher_exists], [get_teacher],
    [get_class_average], [check_teacher], [view_teacher_profile] and
    [view_student_profile_for_teacher] leave every table as it was. *)
Theorem lookups_never_write :
  (∀ rollno, keeps eq (student_exists rollno)) ∧
  (∀ rollno, keeps eq (get_student rollno)) ∧
  (∀ rollno threshold, keeps eq (get_weak_subjects rollno threshold)) ∧
  (∀ rollno, keeps eq (check_student rollno)) ∧
  (∀ rollno, keeps eq (show_student_data rollno)) ∧
  (∀ staff_id, keeps eq (teacher_exists staff_id)) ∧
  (∀ staff_id, keeps eq (get_teacher staff_id)) ∧
  (∀ grade subject, keeps eq (TeacherDatabase.get_class_average grade subject)) ∧
  (∀ staff_id, keeps eq (TeacherAgent.check_teacher staff_id)) ∧
  (∀ staff_id, keeps eq (TeacherAgent.view_teacher_profile staff_id)) ∧
  (∀ rollno, keeps eq (TeacherAgent.view_student_profile_for_teacher rollno)).
Proof.
  repeat match goal with |- _ ∧ _ => split end.
  - apply student_exists_reads.
  - apply get_student_reads.
  - intros rollno threshold. unfold get_weak_subjects.
    apply keeps_bind; [apply get_student_reads | intros student].
    repeat keeps_step.
  - intros rollno. unfold check_student.
    apply keeps_bind; [apply student_exists_reads | intros found].
    repeat keeps_step.
  - intros rollno. unfold show_student_data.
    apply keeps_bind; [apply get_student_reads | intros current_data].
    repeat keeps_step.
  - apply teacher_exists_reads.
  - apply get_teacher_reads.
  - intros grade subject. unfold TeacherDatabase.get_class_average.
    repeat keeps_step.
  - intros staff_id. unfold TeacherAgent.check_teacher.
    apply keeps_bind; [apply teacher_exists_reads | intros found].
    repeat keeps_step.
  - intros staff_id. unfold TeacherAgent.view_teacher_profile.
    apply keeps_bind; [apply get_teacher_reads | intros teacher].
    repeat keeps_step.
  - intros rollno. unfold TeacherAgent.view_student_profile_for_teacher.
    apply keeps_bind; [apply get_student_reads | intros current_data].
    repeat keeps_step.
Qed.

End ReadOnly.

Lemma obind_Ok {A B} (o : outcome A) (k : A → outcome B) (b : B) :
  obind o k = Ok b → ∃ a, o = Ok a ∧ k a = Ok b.
Proof. destruct o as [a|e]; [| done]. cbn. eauto. Qed.

Ltac invert_obind H :=
  repeat (apply obind_Ok in H as (? & ? & H); cbv beta in H).

Global Instance same_roll_numbers_refl : Reflexive same_roll_numbers.
Proof. by intros t. Qed.

Global Instance same_roll_numbers_trans : Transitive same_roll_numbers.
Proof.
  intros t1 t2 t3 (H1 & H2 & H3 & H4 & H5) (K1 & K2 & K3 & K4 & K5).
  unfold same_roll_numbers. by rewrite K1, K2, K3, K4, K5.
Qed.

Global Instance same_staff_ids_refl : Reflexive same_staff_ids.
Proof. by intros t. Qed.

Global Instance same_staff_ids_trans : Transitive same_staff_ids.
Proof.
  intros t1 t2 t3 (H1 & H2 & H3 & H4 & H5) (K1 & K2 & K3 & K4 & K5).
  unfold same_staff_ids. by rewrite K1, K2, K3, K4, K5.
Qed.

Lemma keeps_weaken {A} (R : tables → tables → Prop) `{!Reflexive R} (m : M A) :
  keeps eq m → keeps R m.
Proof. intros Hm w. rewrite <- (Hm w). reflexivity. Qed.

Section UpdateKeepsKeys.

Context {RT : Runtime}.

Import StudentAgent.

Lemma map_keeps_key {A K} (key : A → K) (f : A → A) (l : list A) :
  (∀ x, key (f x) = key x) → key <$> map f l = key <$> l.
Proof.
  intros Hf. induction l as [|x l IH]; [done |]. cbn. by rewrite Hf, <- IH.
Qed.

Lemma update_student_keeps_roll_numbers (now : string) (d : gmap string pyval) :
  keeps same_roll_numbers (update_student now d).
Proof.
  unfold update_student.
  destruct (negb (dict_has d "RollNo")); [apply keeps_raise |].
  apply keeps_bind; [apply keeps_lift | intros rollno].
  apply keeps_bind;
    [apply keeps_weaken; [apply _ | apply student_exists_reads] | intros found].
  destruct (negb found); [apply keeps_raise |].
  apply keeps_bind;
    [apply keeps_weaken; [apply _ | apply get_student_reads] | intros existing].
  do 9 (apply keeps_bind; [apply keeps_lift | intros ?]).
  apply keeps_bind; [apply keeps_issue | intros _].
  apply keeps_bind_lift. intros change Hchange.
  invert_obind Hchange. injection Hchange as <-.
  apply keeps_rewrite. intros t. unfold same_roll_numbers, set_students.
  cbn [students teachers employees recommendations test_results].
  split; [| done]. apply map_keeps_key. intros r.
  by destruct (key_is Student.RollNo _ r).
Qed.

(** X5.  Roll numbers are immutable under updates: whatever dict
    [update_student] is given and whatever arguments [update_student_data]
    is called with, and whether the call returns or raises, the students
    table afterwards holds the same roll numbers, row by row in the same
    order (no row is created, deleted or rekeyed), and no other table has
    changed. *)
Theorem updates_keep_the_roll_numbers :
  (∀ now d, keeps same_roll_numbers (update_student now d)) ∧
  (∀ now RollNo Name Grade Language Language1 Language2 Language3 Maths Science
     Social,
     keeps same_roll_numbers
       (update_student_data now RollNo Name Grade Language Language1 Language2
          Language3 Maths Science Social)).
Proof.
  split; [apply update_student_keeps_roll_numbers |].
  intros. unfold update_student_data.
  apply keeps_bind;
    [apply keeps_weaken; [apply _ | apply get_student_reads] | intros current_data].
  destruct (dict_empty current_data); [apply keeps_ret |].
  apply keeps_bind; [apply update_student_keeps_roll_numbers | intros _].
  apply keeps_ret.
Qed.

(** X6.  Staff ids are immutable under updates: whatever its arguments,
    [update_teacher] (and the tool [update_teacher_profile] over it)
    leaves the teachers table with the same staff ids, row by row in the
    same order, and changes no other table. *)
Theorem update_teacher_keeps_the_staff_ids
    (now : string) (staff_id : Z) (name : option string)
    (grades : option (list Z)) (subject : option string) :
  keeps same_staff_ids (update_teacher now staff_id name grades subject) ∧
  keeps same_staff_ids
    (TeacherAgent.update_teacher_profile now staff_id name grades subject).
Proof.
  assert (keeps same_staff_ids (update_teacher now staff_id name grades subject))
    as Hkeeps; [| by split].
  intros w. rewrite update_teacher_run.
  destruct (nothing_given name grades subject); [done |].
  cbn [snd stored]. unfold same_staff_ids, set_teachers.
  cbn [students teachers employees recommendations test_results].
  split; [| done]. apply map_keeps_key. intros r.
  by destruct (Teacher.StaffID r =? staff_id).
Qed.

End UpdateKeepsKeys.

Section StudentToolFacts.

Context {RT : Runtime}.

Import StudentAgent.

Lemma save_student_data_run (timestamp now : string) (rollno : Z) (name : string)
    (grade : Z) (language : string) (l1 l2 l3 m sc so : Z) (w : world) :
  save_student_data timestamp now rollno name grade language l1 l2 l3 m sc so w
  = (Ok (State_reply "success" Profile_saved),
     mk_world
       (set_students
          (λ rows, rows ++ [Student.mk rollno name grade language (Some l1)
                              (Some l2) (Some l3) (Some m) (Some sc) (Some so)
                              (Some timestamp)])
          (stored w))
       (jobs w ++ [INSERT students_table])).
Proof.
  unfold save_student_data, bind. rewrite insert_student_run. reflexivity.
Qed.

Lemma stored_student_fresh (k : Z) (t : tables) (row : Student.row) :
  stored_student k t = None → Student.RollNo row = k →
  stored_student k (set_students (λ rows, rows ++ [row]) t) = Some row.
Proof.
  unfold stored_student, where_RollNo, set_students. cbn [students].
  intros Hnone Hk. rewrite filter_app.
  destruct (filter _ (students t)) as [|r0 rest]; [| done].
  rewrite filter_cons, decide_True; [done |].
  unfold key_is. by apply Z.eqb_eq.
Qed.

Lemma show_student_data_run (k : Z) (w : world) (row : Student.row) :
  stored_student k (stored w) = Some row →
  show_student_data k w
  = (Ok (Status_reply "success"
           (Profile (<["RollNo" := VInt k]> (student_dict row)))),
     logged (SELECT students_table) w).
Proof.
  intros Hrow. unfold show_student_data, bind.
  rewrite get_student_run, Hrow. unfold dict_empty.
  rewrite bool_decide_eq_false_2 by apply student_dict_nonempty.
  unfold lift, ret.
  assert (current_student_of k (student_dict row)
          = Ok (<["RollNo" := VInt k]> (student_dict row))) as ->; [| done].
  unfold current_student_of.
  rewrite (dict_item_Some (student_dict row) "Name" _ eq_refl).
  rewrite (dict_item_Some (student_dict row) "Grade" _ eq_refl).
  rewrite (dict_item_Some (student_dict row) "Language" _ eq_refl).
  cbn [obind]. reflexivity.
Qed.

Lemma stored_student_rewritten (k : Z) (t : tables) (row : Student.row)
    (f : Student.row → Student.row) :
  (∀ r, Student.RollNo (f r) = Student.RollNo r) →
  stored_student k t = Some row →
  stored_student k
    (set_students (map (λ r, if Student.RollNo r =? k then f r else r)) t)
  = Some (f row).
Proof.
  intros Hf Hrow. pose proof (stored_student_key _ _ _ Hrow) as Hkey.
  unfold stored_student. rewrite where_RollNo_map.
  - unfold stored_student in Hrow.
    destruct (where_RollNo (Some k) t) as [|r0 rest]; [done |].
    cbn in Hrow. injection Hrow as ->. cbn [map head].
    by rewrite (proj2 (Z.eqb_eq _ _) Hkey).
  - intros r. by destruct (Student.RollNo r =? k).
Qed.

Lemma fresh_roll_number (k : Z) (t : tables) :
  (∀ r, r ∈ students t → Student.RollNo r ≠ k) → stored_student k t = None.
Proof.
  intros Hfresh. unfold stored_student, where_RollNo.
  rewrite filter_none; [done |].
  intros r Hr Hk. cbn [key_is] in Hk. apply Z.eqb_eq in Hk. by apply (Hfresh r).
Qed.

(** X7.  Registering and reading back: for a roll number that no stored
    student has, [save_student_data] answers success, and afterwards
    [show_student_data] answers success with exactly the saved fields,
    the time stamp being what [str] makes of the registered time read
    back, and [check_student] reports the student as existing. *)
Theorem save_then_show (timestamp now : string) (rollno : Z) (name : string)
    (grade : Z) (language : string) (l1 l2 l3 m sc so : Z) (w : world) :
  (∀ r, r ∈ students (stored w) → Student.RollNo r ≠ rollno) →
  ∃ w1,
    save_student_data timestamp now rollno name grade language l1 l2 l3 m sc so w
    = (Ok (State_reply "success" Profile_saved), w1) ∧
    show_student_data rollno w1
    = (Ok (Status_reply "success"
             (Profile (<["TimeStamp" := VStr (str_of_timestamp timestamp)]>
                         (saved_profile timestamp rollno name grade language
                            l1 l2 l3 m sc so)))),
       logged (SELECT students_table) w1) ∧
    check_student rollno w1
    = (Ok (Exists_reply true (Welcome_back rollno)),
       logged (SELECT students_table) w1).
Proof.
  intros Hfresh%fresh_roll_number. eexists. split; [apply save_student_data_run |].
  set (row := Student.mk rollno name grade language (Some l1) (Some l2) (Some l3)
                (Some m) (Some sc) (Some so) (Some timestamp)).
  assert (stored_student rollno
            (set_students (λ rows, rows ++ [row]) (stored w)) = Some row) as Hrow
    by (by apply stored_student_fresh).
  split.
  - rewrite (show_student_data_run rollno _ row) by exact Hrow. reflexivity.
  - unfold check_student, bind. rewrite student_exists_run. cbn [stored].
    by rewrite Hrow.
Qed.

(** X8.  [update_student_data] never raises.  For a roll number that is
    not stored it answers the error "Roll No ... not found" after one
    SELECT, the tables unchanged.  For a stored one it answers success and
    the stored student then has exactly the nine given fields under its
    roll number, with the current time as TimeStamp: the old time stamp
    the tool passes along is not written back. *)
Theorem update_student_data_outcome (now : string) (rollno : Z) (name : string)
    (grade : Z) (language : string) (l1 l2 l3 m sc so : Z) (w : world) :
  match stored_student rollno (stored w) with
  | None =>
      update_student_data now rollno name grade language l1 l2 l3 m sc so w
      = (Ok (Status_reply "error" (Roll_no_not_found rollno)),
         logged (SELECT students_table) w)
  | Some row =>
      ∃ w',
        update_student_data now rollno name grade language l1 l2 l3 m sc so w
        = (Ok (Status_reply "success" Scores_updated), w') ∧
        stored_student rollno (stored w')
        = Some (Student.mk rollno name grade language (Some l1) (Some l2)
                  (Some l3) (Some m) (Some sc) (Some so) (Some now)) ∧
        jobs w' = jobs w ++ [SELECT students_table; SELECT students_table;
                             SELECT students_table; UPDATE students_table]
  end.
Proof.
  destruct (stored_student rollno (stored w)) as [row|] eqn:Hrow.
  - eexists. unfold update_student_data, bind at 1.
    rewrite get_student_run, Hrow. unfold dict_empty.
    rewrite bool_decide_eq_false_2 by apply student_dict_nonempty.
    unfold bind.
    erewrite (update_student_present now _ rollno (logged _ w) row
                (Some name) (Some grade) (Some language)
                (Some l1) (Some l2) (Some l3) (Some m) (Some sc) (Some so));
      try reflexivity; [| exact Hrow].
    split; [reflexivity |]. cbn [stored jobs logged]. split.
    + rewrite (stored_student_rewritten rollno (stored w) row
                 (patched now row (Some name) (Some grade) (Some language)
                    (Some l1) (Some l2) (Some l3) (Some m) (Some sc) (Some so)));
        [| done | exact Hrow].
      unfold patched. cbn [default]. f_equal.
      by rewrite (stored_student_key _ _ _ Hrow).
    + by rewrite <- !app_assoc.
  - unfold update_student_data, bind. rewrite get_student_run, Hrow.
    unfold dict_empty. by rewrite bool_decide_eq_true_2 by apply dom_empty_L.
Qed.

End StudentToolFacts.

Section TeacherToolFacts.

Context {RT : Runtime}.

Import TeacherAgent.

Lemma get_teacher_run (staff_id : Z) (w : world) :
  get_teacher staff_id w
  = (Ok (teacher_dict
           <$> head (filter (λ r, Teacher.StaffID r = staff_id)
                       (teachers (stored w)))),
     logged (SELECT teachers_table) w).
Proof. reflexivity. Qed.

Lemma teacher_exists_run (staff_id : Z) (w : world) :
  teacher_exists staff_id w
  = (Ok (bool_decide
           (filter (λ r, Teacher.StaffID r = staff_id) (teachers (stored w)) ≠ [])),
     logged (SELECT teachers_table) w).
Proof.
  unfold teacher_exists, catch, bind, issue, read_tables, ret, logged.
  cbn [stored jobs]. do 2 f_equal.
  destruct (filter _ _) as [|r l]; [done |]. cbn [length].
  rewrite bool_decide_eq_true_2 by done. apply Z.ltb_lt. lia.
Qed.

(** X9.  Registering a teacher and reading back: for a staff id that is
    not stored yet, [save_teacher_profile] answers success, and afterwards
    [view_teacher_profile] answers success with the saved name, grades and
    subject, the time stamp being what [isoformat] makes of the time of
    the registration read back, and [check_teacher] reports the teacher
    as existing. *)
Theorem save_then_view_teacher (now : string) (staff_id : Z) (name : string)
    (grades : list Z) (subject : string) (w : world) :
  (∀ r, r ∈ teachers (stored w) → Teacher.StaffID r ≠ staff_id) →
  ∃ w1,
    save_teacher_profile now staff_id name grades subject w
    = (Ok (Reply true (Teacher_profile_created name)), w1) ∧
    view_teacher_profile staff_id w1
    = (Ok (Status_reply "success"
             (Teacher_profile
                (Teacher.mk staff_id name grades subject
                   (isoformat_of_timestamp now)))),
       logged (SELECT teachers_table) w1) ∧
    check_teacher staff_id w1
    = (Ok (Exists_reply true (Welcome_back_staff staff_id)),
       logged (SELECT teachers_table) w1).
Proof.
  intros Hfresh. eexists. split; [reflexivity |].
  assert (filter (λ r, Teacher.StaffID r = staff_id)
            (teachers (stored w) ++ [Teacher.mk staff_id name grades subject now])
          = [Teacher.mk staff_id name grades subject now]) as Hrows.
  { rewrite filter_app, (filter_none _ (teachers (stored w))) by exact Hfresh.
    by rewrite filter_cons, decide_True. }
  split.
  - unfold view_teacher_profile, bind. rewrite get_teacher_run.
    cbn [stored set_teachers teachers]. by rewrite Hrows.
  - unfold check_teacher, bind. rewrite teacher_exists_run.
    cbn [stored set_teachers teachers]. by rewrite Hrows.
Qed.

End TeacherToolFacts.

Section ClassStatistics.

Context {RT : Runtime}.

Lemma foldr_min_spec (x : Z) (rest : list Z) :
  foldr Z.min x rest ∈ x :: rest ∧ ∀ s, s ∈ x :: rest → foldr Z.min x rest ≤ s.
Proof.
  induction rest as [|y rest [IHin IHle]]; cbn [foldr].
  - split; [by left |]. intros s Hs. apply list_elem_of_singleton in Hs. lia.
  - split.
    + destruct (Z.min_spec y (foldr Z.min x rest)) as [[_ ->]|[_ ->]].
      * right. by left.
      * apply elem_of_cons in IHin as [->|Hin]; [by left | by do 2 right].
    + intros s [->|[->|Hs]%elem_of_cons]%elem_of_cons.
      * specialize (IHle x ltac:(by left)). lia.
      * lia.
      * specialize (IHle s ltac:(by right)). lia.
Qed.

Lemma foldr_max_spec (x : Z) (rest : list Z) :
  foldr Z.max x rest ∈ x :: rest ∧ ∀ s, s ∈ x :: rest → s ≤ foldr Z.max x rest.
Proof.
  induction rest as [|y rest [IHin IHle]]; cbn [foldr].
  - split; [by left |]. intros s Hs. apply list_elem_of_singleton in Hs. lia.
  - split.
    + destruct (Z.max_spec y (foldr Z.max x rest)) as [[_ ->]|[_ ->]].
      * apply elem_of_cons in IHin as [->|Hin]; [by left | by do 2 right].
      * right. by left.
    + intros s [->|[->|Hs]%elem_of_cons]%elem_of_cons.
      * specialize (IHle x ltac:(by left)). lia.
      * lia.
      * specialize (IHle s ltac:(by right)). lia.
Qed.

Lemma sum_Z_bounds (lo hi : Z) (l : list Z) :
  (∀ s, s ∈ l → lo ≤ s ≤ hi) →
  Z.of_nat (length l) * lo ≤ sum_Z l ≤ Z.of_nat (length l) * hi.
Proof.
  induction l as [|x l IH]; intros Hall; [cbn; lia |].
  unfold sum_Z in *. cbn [foldr length].
  specialize (Hall x ltac:(by left)) as Hx.
  specialize (IH ltac:(intros s Hs; apply Hall; by right)). lia.
Qed.

(** [round] never crosses an integer. *)
Lemma py_round_above (z : Z) (x : Q) : (inject_Z z <= x)%Q → z ≤ py_round x.
Proof.
  intros Hz. apply Qfloor_resp_le in Hz. rewrite Qfloor_Z in Hz.
  unfold py_round. destruct (_ ?= _)%Q; [destruct (Z.even _) | |]; lia.
Qed.

Lemma py_round_below (z : Z) (x : Q) : (x <= inject_Z z)%Q → py_round x ≤ z.
Proof.
  intros Hz. pose proof (Qfloor_resp_le _ _ Hz) as Hf. rewrite Qfloor_Z in Hf.
  unfold py_round.
  destruct (Z.eq_dec (Qfloor x) z) as [Heq|Hne].
  - assert ((x - inject_Z (Qfloor x) ?= 1 # 2)%Q = Lt) as ->; [| lia].
    apply Qlt_alt. rewrite Heq.
    apply Qle_lt_trans with (y := 0%Q); [| done].
    clear Hf Heq. destruct x as [n d].
    unfold Qle, Qminus, Qplus, Qopp, inject_Z in *. cbn in *. lia.
  - destruct (_ ?= _)%Q; [destruct (Z.even _) | |]; lia.
Qed.

Lemma py_round2_bounds (lo hi : Z) (a : Q) :
  (inject_Z lo <= a)%Q → (a <= inject_Z hi)%Q →
  (inject_Z lo <= py_round2 a)%Q ∧ (py_round2 a <= inject_Z hi)%Q.
Proof.
  intros Hlo Hhi. unfold py_round2.
  assert (lo * 100 ≤ py_round (a * 100)) as H1.
  { apply py_round_above. rewrite inject_Z_mult.
    apply Qmult_le_compat_r; [exact Hlo | done]. }
  assert (py_round (a * 100) ≤ hi * 100) as H2.
  { apply py_round_below. rewrite inject_Z_mult.
    apply Qmult_le_compat_r; [exact Hhi | done]. }
  generalize dependent (py_round (a * 100)). intros p H1 H2.
  unfold Qle, Qdiv, Qmult, Qinv, inject_Z. cbn. lia.
Qed.


End ClassStatistics.

Section MoreLinkFacts.

Variable http_head : string → response.

(** The normalised link never holds the short form. *)
Lemma canonical_no_short (link : string) :
  py_in "youtu.be/" (canonical link) = false.
Proof.
  destruct (py_in "youtu.be/" link) eqn:Hin.
  - destruct (normalize_short link Hin) as (pre & post & _ & Hn).
    unfold canonical. rewrite Hn. apply canonical_short_free, video_id_free.
  - unfold canonical, normalize_link. rewrite Hin.
    destruct (_ && _); [| done].
    destruct (startswith link "http"); [done |]. by rewrite https_free.
Qed.

Lemma first_leak (h : gmap nat (gmap string string)) (videos : list nat) :
  (∀ v, v ∈ videos → leaks http_head (link_of h v) = None) ∨
  ∃ before v after e,
    videos = before ++ v :: after ∧
    (∀ u, u ∈ before → leaks http_head (link_of h u) = None) ∧
    leaks http_head (link_of h v) = Some e.
Proof.
  induction videos as [|v videos IH].
  - left. intros v Hv. by apply elem_of_nil in Hv.
  - destruct (leaks http_head (link_of h v)) as [e|] eqn:Hv.
    + right. exists [], v, videos, e. split; [done |]. split; [| done].
      intros u Hu. by apply elem_of_nil in Hu.
    + destruct IH as [Hno|(before & u & after & e & -> & Hno & He)].
      * left. intros u [->|Hu]%elem_of_cons; auto.
      * right. exists (v :: before), u, after, e. split; [done |]. split; [| done].
        intros x [->|Hx]%elem_of_cons; auto.
Qed.

(** A call that returns has met no request that lets an exception
    through. *)
Lemma returned_no_leak (h h' : gmap nat (gmap string string))
    (videos out : list nat) :
  filter_videos_with_valid_links http_head h videos = Ok (h', out) →
  ∀ v, v ∈ videos → leaks http_head (link_of h v) = None.
Proof.
  intros Hrun.
  destruct (first_leak h videos)
    as [Hno|(before & u & after & e & -> & Hno & He)]; [done |].
  by rewrite (filter_raise http_head h before u after e Hno He) in Hrun.
Qed.

(** X11.  What the filter returns is final: every returned object has, in
    the heap after the call, a link that answered 200, that holds a host
    marker and that is free of the short form "youtu.be/"; and filtering
    once more, the returned list or the whole input list, returns the same
    list and changes no object. *)
Theorem filter_result_is_final (h h' : gmap nat (gmap string string))
    (videos out : list nat) :
  filter_videos_with_valid_links http_head h videos = Ok (h', out) →
  (∀ v, v ∈ out →
     http_head (link_of h' v) = Status 200 ∧
     has_host_marker (link_of h' v) = true ∧
     py_in "youtu.be/" (link_of h' v) = false) ∧
  filter_videos_with_valid_links http_head h' out = Ok (h', out) ∧
  filter_videos_with_valid_links http_head h' videos = Ok (h', out).
Proof.
  intros Hrun. pose proof (returned_no_leak h h' videos out Hrun) as Hquiet.
  destruct (filter_run http_head h videos Hquiet) as (h1 & Hrun1 & Hm).
  rewrite Hrun in Hrun1. injection Hrun1 as <- ->.
  assert (∀ v, v ∈ videos → passes http_head (link_of h v) = true →
               link_of h' v = canonical (link_of h v)) as Hlink.
  { intros v Hin Hp. eapply link_of_rewritten. by apply (Hm v). }
  assert (∀ v, passes http_head (link_of h' v) = passes http_head (link_of h v))
    as Hsame by (intros v; by eapply midway_passes).
  assert (∀ l, (∀ v, v ∈ l → v ∈ videos) →
            filter_videos_with_valid_links http_head h' l
            = Ok (h', filter (λ v, passes http_head (link_of h v) = true) l))
    as Hagain.
  { intros l Hsub.
    assert (∀ v, v ∈ l → leaks http_head (link_of h' v) = None) as Hquiet'.
    { intros v Hv. rewrite (midway_leaks http_head h videos h' v Hm). auto. }
    destruct (filter_run http_head h' l Hquiet') as (h2 & Hrun2 & Hm2).
    rewrite Hrun2. f_equal. f_equal.
    - apply map_eq. intros v. destruct (Hm2 v) as [Hyes Hno].
      destruct (decide (v ∈ l ∧ passes http_head (link_of h' v) = true))
        as [[Hv Hp]|Hd]; [| by apply Hno].
      rewrite (Hyes (conj Hv Hp)). rewrite Hsame in Hp.
      destruct (Hm v) as [Hyes1 _].
      rewrite (Hyes1 (conj (Hsub v Hv) Hp)). f_equal.
      rewrite (midway_rewritten http_head h videos h' v Hm). done.
    - apply list_filter_iff. intros v. by rewrite Hsame. }
  split; [| split].
  - intros v [Hp Hin]%list_elem_of_filter.
    rewrite (Hlink v Hin Hp).
    destruct (passes_request _ _ Hp) as (url & Hreq & H200).
    apply request_of_Some in Hreq as (_ & -> & Hmark).
    split; [exact H200 |]. split; [exact Hmark | apply canonical_no_short].
  - rewrite Hagain.
    + f_equal. f_equal. apply filter_all.
      intros v [Hp _]%list_elem_of_filter. exact Hp.
    + intros v [_ Hin]%list_elem_of_filter. exact Hin.
  - by apply Hagain.
Qed.

End MoreLinkFacts.

Lemma filter_result_is_final_witness :
  ∃ h',
    filter_videos_with_valid_links Sample.always_200 Sample.two_videos [0%nat; 1%nat]
    = Ok (h', [1%nat]) ∧
    filter_videos_with_valid_links Sample.always_200 h' [1%nat] = Ok (h', [1%nat]).
Proof.
  eexists. split; [reflexivity |].
  eapply (filter_result_is_final Sample.always_200 Sample.two_videos _
            [0%nat; 1%nat] [1%nat]).
  reflexivity.
Defined.


Section NormalisationFacts.

Lemma py_in_later (sub pre s : string) :
  py_in sub s = true → py_in sub (pre +:+ s) = true.
Proof.
  rewrite !py_in_iff. intros (p & q & ->). exists (pre +:+ p), q.
  by rewrite !str_app_assoc.
Qed.

Lemma marker_kept (link : string) :
  has_host_marker link = true → has_host_marker (canonical link) = true.
Proof.
  intros Hm. destruct (py_in "youtu.be/" link) eqn:Hin.
  - destruct (normalize_short link Hin) as (pre & post & _ & Hn).
    unfold canonical. rewrite Hn. unfold has_host_marker.
    apply orb_true_iff. left. apply py_in_iff.
    exists "https://www.", ("/watch?v=" +:+ upto "?" (upto "youtu.be/" post)).
    reflexivity.
  - unfold canonical, normalize_link. rewrite Hin.
    destruct (_ && _); [| done].
    destruct (startswith link "http"); [done |].
    unfold has_host_marker in *. apply orb_true_iff in Hm as [Hm|Hm].
    + by rewrite (py_in_later _ "https://" _ Hm).
    + rewrite (py_in_later _ "https://" _ Hm). apply orb_true_r.
Qed.

(** X12.  Normalising a link is a projection: doing it twice gives what
    doing it once gives.  The normalised link never holds the short form
    "youtu.be/"; it holds a host marker exactly when the link does; and
    for a link with "youtu.be/" it is
    https://www.youtube.com/watch?v= followed by an id without "?", so
    the query string of a short link is dropped. *)
Theorem normalisation_is_a_projection (link : string) :
  normalize_link link = Ok (canonical link) ∧
  normalize_link (canonical link) = Ok (canonical link) ∧
  py_in "youtu.be/" (canonical link) = false ∧
  has_host_marker (canonical link) = has_host_marker link ∧
  (py_in "youtu.be/" link = true →
   ∃ video_id, canonical link = canonical_prefix +:+ video_id ∧
               py_in "?" video_id = false).
Proof.
  split; [apply canonical_Ok |].
  split; [rewrite canonical_Ok; by rewrite canonical_idempotent |].
  split; [apply canonical_no_short |].
  split.
  - destruct (has_host_marker link) eqn:Hm; [by apply marker_kept |].
    by rewrite canonical_no_marker.
  - intros Hin. destruct (normalize_short link Hin) as (pre & post & _ & Hn).
    exists (upto "?" (upto "youtu.be/" post)). unfold canonical. rewrite Hn.
    split; [done | by apply upto_free].
Qed.

Lemma normalisation_is_a_projection_witness :
  ∃ video_id,
    canonical "youtu.be/abc123?t=42" = canonical_prefix +:+ video_id ∧
    py_in "?" video_id = false.
Proof.
  destruct (normalisation_is_a_projection "youtu.be/abc123?t=42")
    as (_ & _ & _ & _ & Hshort).
  apply Hshort. reflexivity.
Defined.

End NormalisationFacts.

Import StudentCourseRecommendationDatabase.

Section DeleteFacts.

Lemma delete_student_courses_run (rollno : Z) (w : world) :
  delete_student_courses rollno w
  = (Ok tt,
     mk_world
       (set_recommendations (filter (λ r, Recommendation.RollNo r ≠ rollno))
          (stored w))
       (jobs w ++ [DELETE recommendations_table])).
Proof. reflexivity. Qed.

(** X13.  [delete_student_courses] never raises and is idempotent:
    afterwards the roll number has no recommendation, the rows of every
    other roll number and the other tables are as before, deleting again
    changes no table, and for a roll number without recommendations the
    tables stay as they are. *)
Theorem delete_student_courses_idempotent (rollno : Z) (w : world) :
  let w1 := snd (delete_student_courses rollno w) in
  fst (delete_student_courses rollno w) = Ok tt ∧
  courses_of rollno (stored w1) = [] ∧
  (∀ other, other ≠ rollno →
     courses_of other (stored w1) = courses_of other (stored w)) ∧
  students (stored w1) = students (stored w) ∧
  teachers (stored w1) = teachers (stored w) ∧
  employees (stored w1) = employees (stored w) ∧
  test_results (stored w1) = test_results (stored w) ∧
  stored (snd (delete_student_courses rollno w1)) = stored w1 ∧
  (courses_of rollno (stored w) = [] → stored w1 = stored w).
Proof.
  cbn zeta. rewrite !delete_student_courses_run. cbn [fst snd stored].
  unfold courses_of, set_recommendations.
  cbn [recommendations students teachers employees test_results].
  split; [done |]. split.
  { apply filter_none. intros r [Hr _]%list_elem_of_filter. done. }
  split.
  { intros other Hother. apply filter_within. intros r ->. done. }
  do 4 (split; [done |]). split.
  - f_equal. apply filter_all. intros r [Hr _]%list_elem_of_filter. done.
  - intros Hnone. destruct (stored w) as [s t e recs res].
    cbn [recommendations students teachers employees test_results] in *.
    f_equal. apply filter_all. intros r Hr Hk.
    assert (r ∈ filter (λ r, Recommendation.RollNo r = rollno) recs) as Hmem
      by (by apply list_elem_of_filter).
    rewrite Hnone in Hmem. by apply elem_of_nil in Hmem.
Qed.

End DeleteFacts.

Import Evaluation.

Section TotalScoreBounds.

(** X14.  For quiz and evaluated scores between 0 and 100, the total
    score lies between the lower and the higher of the two, does not depend
    on their order, and is the common value when they are equal; it is
    again between 0 and 100. *)
Theorem total_score_between_the_scores (q e : Z) :
  0 ≤ q ≤ 100 → 0 ≤ e ≤ 100 →
  Z.min q e ≤ total_score q e ≤ Z.max q e ∧
  0 ≤ total_score q e ≤ 100 ∧
  total_score q e = total_score e q ∧
  (q = e → total_score q e = q).
Proof.
  intros Hq He. pose proof (total_score_nearest q e) as Hn. cbn zeta in Hn.
  split; [lia |]. split; [lia |]. split.
  - unfold total_score. by rewrite Z.add_comm.
  - intros ->. lia.
Qed.

Lemma total_score_between_the_scores_witness :
  Z.min 81 60 ≤ total_score 81 60 ≤ Z.max 81 60.
Proof.
  apply (total_score_between_the_scores 81 60); lia.
Defined.

End TotalScoreBounds.

Section NullScores.

Context {RT : Runtime}.

Lemma weak_loop_null (threshold : Z) (items : list (string * option Z))
    (acc : list string) :
  (∃ subject, (subject, None) ∈ items) →
  weak_loop threshold acc ((λ item, (item.1, nullable_int item.2)) <$> items)
  = Raise TypeError.
Proof.
  revert acc. induction items as [|[subject [score|]] items IH]; intros acc [s Hin].
  - by apply elem_of_nil in Hin.
  - rewrite fmap_cons. cbn [weak_loop fst snd nullable_int].
    rewrite weak_step_int. cbn [obind]. apply IH. exists s.
    apply elem_of_cons in Hin as [[=]|Hin]. exact Hin.
  - reflexivity.
Qed.

(** X15.  [get_weak_subjects] on a stored student with a NULL score in one
    of the six subjects raises [TypeError] (the comparison [None > 0]),
    whatever the threshold and the other scores; the tables stay as they
    are. *)
Theorem weak_subjects_raise_on_a_null_score
    (rollno threshold : Z) (w : world) (row : Student.row)
    (subject : string) (col : Student.row → option Z) :
  stored_student rollno (stored w) = Some row →
  (subject, col) ∈ score_columns →
  col row = None →
  fst (StudentDatabase.get_weak_subjects rollno threshold w) = Raise TypeError ∧
  stored (snd (StudentDatabase.get_weak_subjects rollno threshold w)) = stored w.
Proof.
  intros Hrow Hin Hnull. rewrite (get_weak_subjects_unfold _ _ _ _ Hrow).
  cbn [fst snd]. split; [| done].
  rewrite <- (weak_loop_null threshold
                ((λ item : string * (Student.row → option Z), (item.1, item.2 row))
                   <$> score_columns) []).
  - by rewrite <- list_fmap_compose.
  - exists subject. apply list_elem_of_fmap. exists (subject, col).
    cbn [fst snd]. by rewrite Hnull.
Qed.

Lemma filter_sublist_mono {A} (P Q : A → Prop) `{∀ x, Decision (P x)}
    `{∀ x, Decision (Q x)} (l : list A) :
  (∀ x, P x → Q x) → filter P l `sublist_of` filter Q l.
Proof.
  intros HPQ. induction l as [|x l IH]; [done |].
  rewrite !filter_cons. destruct (decide (P x)) as [HP|HP].
  - rewrite decide_True by auto. by apply sublist_skip.
  - destruct (decide (Q x)); [by apply sublist_cons | done].
Qed.

(** X16.  For a stored student with integer scores, the list
    [get_weak_subjects] returns is a sublist of Language1, Language2,
    Language3, Maths, Science, Social in this order; a higher threshold
    returns a list that holds the one of the lower threshold as a sublist;
    a threshold of 1 or less returns the empty list. *)
Theorem weak_subjects_grow_with_the_threshold
    (rollno lower higher : Z) (w : world) (row : Student.row) :
  stored_student rollno (stored w) = Some row →
  recorded row →
  lower ≤ higher →
  ∃ fewer more,
    fst (StudentDatabase.get_weak_subjects rollno lower w) = Ok fewer ∧
    fst (StudentDatabase.get_weak_subjects rollno higher w) = Ok more ∧
    fewer `sublist_of` more ∧
    more `sublist_of` score_columns.*1 ∧
    (lower ≤ 1 → fewer = []).
Proof.
  intros Hrow Hrec Hle.
  destruct (Hrec "Language1" Student.Language1) as [l1 H1];
    [unfold score_columns; apply list_elem_of_here |].
  destruct (Hrec "Language2" Student.Language2) as [l2 H2];
    [unfold score_columns; do 1 apply list_elem_of_further; apply list_elem_of_here |].
  destruct (Hrec "Language3" Student.Language3) as [l3 H3];
    [unfold score_columns; do 2 apply list_elem_of_further; apply list_elem_of_here |].
  destruct (Hrec "Maths" Student.Maths) as [m H4];
    [unfold score_columns; do 3 apply list_elem_of_further; apply list_elem_of_here |].
  destruct (Hrec "Science" Student.Science) as [sc H5];
    [unfold score_columns; do 4 apply list_elem_of_further; apply list_elem_of_here |].
  destruct (Hrec "Social" Student.Social) as [so H6];
    [unfold score_columns; do 5 apply list_elem_of_further; apply list_elem_of_here |].
  rewrite !(get_weak_subjects_run _ _ _ _ _ _ _ _ _ _ Hrow H1 H2 H3 H4 H5 H6).
  cbn [fst]. eexists _, _. split; [reflexivity |]. split; [reflexivity |].
  set (items := [("Language1", l1); ("Language2", l2); ("Language3", l3);
                 ("Maths", m); ("Science", sc); ("Social", so)]).
  split; [| split].
  - apply fmap_sublist, filter_sublist_mono.
    intros [s z]. unfold is_weak. cbn [snd]. lia.
  - change (score_columns.*1) with (items.*1).
    apply fmap_sublist, sublist_filter.
  - intros Hlow. rewrite filter_none; [done |].
    intros [s z] _. unfold is_weak. cbn [snd]. lia.
Qed.

End NullScores.

Import StudentCourseRecommendationDatabase CourseQueries SkillTesting.

Section ListingFacts.

Lemma filter_fmap {A B} (f : A → B) (P : B → Prop) `{∀ y, Decision (P y)}
    (l : list A) :
  filter P (f <$> l) = f <$> filter (λ x, P (f x)) l.
Proof.
  induction l as [|a l IH]; [done |].
  rewrite fmap_cons, !filter_cons.
  destruct (decide (P (f a))); by rewrite ?fmap_cons, IH.
Qed.

Lemma first_seen_elem (l : list string) (x : string) : x ∈ first_seen l ↔ x ∈ l.
Proof.
  induction l as [|y l IH]; [done |]. cbn [first_seen].
  rewrite !elem_of_cons, list_elem_of_filter, IH.
  destruct (decide (x = y)); tauto.
Qed.

Lemma first_seen_NoDup (l : list string) : NoDup (first_seen l).
Proof.
  induction l as [|y l IH]; [constructor |]. cbn [first_seen].
  constructor; [| by apply NoDup_filter].
  intros [Hne _]%list_elem_of_filter. done.
Qed.

Lemma first_seen_snoc (l : list string) (x : string) :
  first_seen (l ++ [x])
  = if decide (x ∈ l) then first_seen l else first_seen l ++ [x].
Proof.
  induction l as [|y l IH]; [by rewrite decide_False by apply not_elem_of_nil |].
  cbn [app first_seen]. rewrite IH.
  destruct (decide (x ∈ l)) as [Hin|Hin].
  - rewrite decide_True by (by right). done.
  - rewrite filter_app, filter_cons, filter_nil.
    destruct (decide (x = y)) as [->|Hne].
    + rewrite decide_False by (intros ?; done).
      rewrite decide_True by left. by rewrite app_nil_r.
    + rewrite decide_True by done.
      rewrite decide_False; [done |].
      intros [?|?]%elem_of_cons; done.
Qed.

Lemma of_subject_snoc (subject : string) (courses : list Recommendation.row)
    (c : Recommendation.row) :
  of_subject subject (courses ++ [c])
  = of_subject subject courses
    ++ (if decide (Recommendation.VideoSubject c = subject) then [c] else []).
Proof.
  unfold of_subject. rewrite filter_app, filter_cons, filter_nil.
  by destruct (decide _).
Qed.

(** The dict the grouping loop builds: the subjects at their first
    occurrence, each with its courses in the order of the list. *)
Lemma grouping_run (courses : list Recommendation.row) :
  foldl group_step [] courses
  = (λ subject, (subject, of_subject subject courses))
      <$> first_seen (Recommendation.VideoSubject <$> courses).
Proof.
  induction courses as [|c courses IH] using rev_ind; [done |].
  rewrite foldl_snoc, IH, fmap_app.
  change (Recommendation.VideoSubject <$> [c]) with [Recommendation.VideoSubject c].
  rewrite first_seen_snoc.
  set (s := Recommendation.VideoSubject c).
  set (seen := first_seen (Recommendation.VideoSubject <$> courses)).
  assert (((λ subject, (subject, of_subject subject courses)) <$> seen).*1 = seen)
    as Hkeys.
  { rewrite <- list_fmap_compose. unfold compose. cbn [fst]. apply list_fmap_id. }
  unfold group_step. fold s. unfold has_subject, set_subject, has_subject.
  rewrite Hkeys.
  destruct (decide (s ∈ Recommendation.VideoSubject <$> courses)) as [Hin|Hin].
  - rewrite bool_decide_eq_true_2 by (by apply first_seen_elem). cbn [negb].
    unfold append_to. rewrite <- list_fmap_compose. apply list_fmap_ext.
    intros _ k _. unfold compose. cbn [fst snd].
    rewrite of_subject_snoc. fold s.
    destruct (decide (k = s)) as [->|Hk].
    + by rewrite decide_True by done.
    + rewrite decide_False by (intros ?; done). by rewrite app_nil_r.
  - assert (s ∉ seen) as Hnew by (subst seen; by rewrite first_seen_elem).
    rewrite bool_decide_eq_false_2 by exact Hnew. cbn [negb].
    unfold append_to. rewrite !fmap_app. cbn [fmap list_fmap fst snd].
    rewrite decide_True by done. rewrite <- list_fmap_compose. f_equal.
    + apply list_fmap_ext. intros _ k Hk%list_elem_of_lookup_2.
      unfold compose. cbn [fst snd]. rewrite of_subject_snoc. fold s.
      assert (k ≠ s) as Hne.
      { intros ->. apply Hin. by apply first_seen_elem. }
      rewrite decide_False by done. rewrite decide_False by (intros ?; done).
      by rewrite app_nil_r.
    + rewrite of_subject_snoc. fold s. rewrite decide_True by done.
      unfold of_subject. rewrite filter_none; [done |].
      intros r Hr Hs. apply Hin. apply list_elem_of_fmap. by exists r.
Qed.

Lemma joined_app (l k : list string) : joined (l ++ k) = joined l +:+ joined k.
Proof.
  induction l as [|x l IH]; [by rewrite str_app_nil_l |].
  cbn [app joined foldr]. fold (joined (l ++ k)). fold (joined l).
  by rewrite IH, str_app_assoc.
Qed.

Lemma foldl_add {A} (add : string → A → string) (text : A → string) :
  (∀ output x, add output x = output +:+ text x) →
  ∀ l output, foldl add output l = output +:+ joined (text <$> l).
Proof.
  intros Hadd l. induction l as [|x l IH]; intros output.
  - cbn. by rewrite str_app_nil_r.
  - cbn [foldl fmap list_fmap joined foldr]. rewrite IH, Hadd.
    by rewrite str_app_assoc.
Qed.

Lemma add_tutorial_entry (output : string) (item : nat * Recommendation.row) :
  add_tutorial output item = output +:+ entry item.1 item.2.
Proof.
  destruct item as [idx tutorial]. unfold add_tutorial, entry. cbn [fst snd].
  by rewrite !str_app_assoc.
Qed.

Lemma add_subject_section (output : string)
    (item : string * list Recommendation.row) :
  add_subject output item = output +:+ subject_section item.1 item.2.
Proof.
  destruct item as [subject tutorials]. unfold add_subject, subject_section.
  cbn [fst snd].
  rewrite (foldl_add add_tutorial (λ item, entry item.1 item.2) add_tutorial_entry).
  unfold enumerate_from_1. rewrite fmap_imap. unfold compose. cbn [fst snd].
  by rewrite !str_app_assoc.
Qed.

End ListingFacts.

Section ListingTheorems.

Context {RT : Runtime}.

Variable by_subject_then_newest : list Recommendation.row → list Recommendation.row.

Lemma get_courses_for_student_run (rollno : Z) (w : world) :
  get_courses_for_student by_subject_then_newest rollno w
  = (Ok (course_dict <$> by_subject_then_newest (courses_of rollno (stored w))),
     logged (SELECT recommendations_table) w).
Proof. reflexivity. Qed.

Lemma display_student_tutorials_run (rollno : Z) (w : world) :
  display_student_tutorials by_subject_then_newest rollno w
  = (Ok (match course_dict
                <$> by_subject_then_newest (courses_of rollno (stored w)) with
         | [] => nothing_found rollno
         | c :: courses =>
             heading rollno +:+
             joined ((λ subject,
                        subject_section subject (of_subject subject (c :: courses)))
                       <$> first_seen
                             (Recommendation.VideoSubject <$> (c :: courses)))
         end),
     logged (SELECT recommendations_table) w).
Proof.
  unfold display_student_tutorials, bind.
  rewrite get_courses_for_student_run.
  destruct (course_dict <$> by_subject_then_newest _) as [|c courses] eqn:Hc;
    [done |].
  unfold ret. f_equal. f_equal.
  rewrite (foldl_add add_subject (λ item, subject_section item.1 item.2)
             add_subject_section).
  rewrite grouping_run, <- list_fmap_compose. done.
Qed.

(** X17.  [display_student_tutorials] never raises and changes no table.
    For a roll number whose query answers no course it returns the
    nothing-found sentence.  Otherwise it returns the heading followed by
    one section per subject, the subjects in the order of their first
    occurrence in the answer of the query; a section is the title line of
    the subject followed by the courses of that subject, in the order of
    the answer, numbered from 1. *)
Theorem display_lists_by_subject (rollno : Z) (w : world) :
  let courses :=
    course_dict <$> by_subject_then_newest (courses_of rollno (stored w)) in
  let shown := display_student_tutorials by_subject_then_newest rollno w in
  stored (snd shown) = stored w ∧
  (courses = [] → fst shown = Ok (nothing_found rollno)) ∧
  (courses ≠ [] →
   fst shown
   = Ok (heading rollno +:+
         joined ((λ subject, subject_section subject (of_subject subject courses))
                   <$> first_seen (Recommendation.VideoSubject <$> courses)))).
Proof.
  cbn zeta. rewrite display_student_tutorials_run. cbn [fst snd].
  split; [done |].
  destruct (course_dict <$> by_subject_then_newest _) as [|c courses]; by split.
Qed.

End ListingTheorems.

Section EveryCourseOnce.

Context {RT : Runtime}.

Lemma sections_partition (subjects : list string) :
  ∀ courses : list Recommendation.row,
    NoDup subjects →
    (∀ c, c ∈ courses → Recommendation.VideoSubject c ∈ subjects) →
    concat ((λ subject, of_subject subject courses) <$> subjects) ≡ₚ courses.
Proof.
  induction subjects as [|k subjects IH]; intros courses Hnd Hall.
  - destruct courses as [|c courses]; [done |].
    destruct (not_elem_of_nil (Recommendation.VideoSubject c)).
    apply Hall. left.
  - apply NoDup_cons in Hnd as [Hk Hnd]. cbn [fmap list_fmap concat].
    set (others := filter (λ c, ¬ Recommendation.VideoSubject c = k) courses).
    assert ((λ subject, of_subject subject courses) <$> subjects
            = (λ subject, of_subject subject others) <$> subjects) as ->.
    { apply list_fmap_ext. intros _ s Hs%list_elem_of_lookup_2.
      unfold of_subject, others. symmetry. apply filter_within.
      intros c -> ->. done. }
    rewrite (IH others Hnd).
    + apply filter_app_complement.
    + intros c [Hne Hc]%list_elem_of_filter.
      apply Hall in Hc. apply elem_of_cons in Hc as [Hc|Hc]; done.
Qed.

Lemma heading_differs (rollno : Z) (text : string) :
  heading rollno +:+ text ≠ nothing_found rollno.
Proof.
  unfold heading, nothing_found. rewrite !str_app_cons. discriminate.
Qed.

Variable by_subject_then_newest : list Recommendation.row → list Recommendation.row.
Hypothesis answer_is_rearranged : ∀ rows, by_subject_then_newest rows ≡ₚ rows.

Lemma answer_of_the_stored (rollno : Z) (w : world) :
  course_dict <$> by_subject_then_newest (courses_of rollno (stored w))
  ≡ₚ course_dict <$> courses_of rollno (stored w).
Proof. by rewrite answer_is_rearranged. Qed.

Lemma nothing_found_iff (rollno : Z) (w : world) :
  fst (display_student_tutorials by_subject_then_newest rollno w)
  = Ok (nothing_found rollno)
  ↔ courses_of rollno (stored w) = [].
Proof.
  rewrite display_student_tutorials_run. cbn [fst].
  pose proof (answer_of_the_stored rollno w) as Hp.
  destruct (course_dict <$> by_subject_then_newest _) as [|c courses].
  - apply Permutation_nil in Hp. apply fmap_nil_inv in Hp. by rewrite Hp.
  - split.
    + intros Heq. exfalso.
      assert (∀ a b : string, Ok a = Ok b → a = b) as Hinj by (by intros a b [=]).
      apply Hinj in Heq. by apply heading_differs in Heq.
    + intros Hnil. rewrite Hnil in Hp. by apply Permutation_nil_r in Hp.
Qed.

(** The sections of a listing that is not the nothing-found sentence. *)
Lemma listing_sections (rollno : Z) (w : world) :
  courses_of rollno (stored w) ≠ [] →
  ∃ sections : list (string * list Recommendation.row),
    fst (display_student_tutorials by_subject_then_newest rollno w)
    = Ok (heading rollno +:+
          joined ((λ item, subject_section item.1 item.2) <$> sections)) ∧
    NoDup sections.*1 ∧
    (∀ subject tutorials, (subject, tutorials) ∈ sections →
       tutorials ≠ [] ∧
       ∀ c, c ∈ tutorials → Recommendation.VideoSubject c = subject) ∧
    concat sections.*2 ≡ₚ course_dict <$> courses_of rollno (stored w).
Proof.
  intros Hne. rewrite display_student_tutorials_run. cbn [fst].
  pose proof (answer_of_the_stored rollno w) as Hp.
  destruct (course_dict <$> by_subject_then_newest _) as [|c courses].
  { apply Permutation_nil in Hp. by apply fmap_nil_inv in Hp. }
  set (answer := c :: courses) in *.
  exists ((λ subject, (subject, of_subject subject answer))
            <$> first_seen (Recommendation.VideoSubject <$> answer)).
  split; [by rewrite <- list_fmap_compose |].
  split.
  { rewrite <- list_fmap_compose. unfold compose. cbn [fst].
    rewrite list_fmap_id. apply first_seen_NoDup. }
  split.
  { intros subject tutorials (s & [= -> ->] & Hs)%list_elem_of_fmap.
    apply first_seen_elem, list_elem_of_fmap in Hs as (r & -> & Hr).
    split.
    - intros Hnil.
      assert (r ∈ of_subject (Recommendation.VideoSubject r) answer) as Hin
        by (by apply list_elem_of_filter).
      rewrite Hnil in Hin. by apply elem_of_nil in Hin.
    - intros c' [Hsub _]%list_elem_of_filter. done. }
  rewrite <- list_fmap_compose. unfold compose. cbn [snd].
  rewrite sections_partition; [exact Hp | apply first_seen_NoDup |].
  intros c' Hc'. apply first_seen_elem, list_elem_of_fmap. by exists c'.
Qed.

Lemma display_depends_on_the_courses (rollno : Z) (w w' : world) :
  courses_of rollno (stored w') = courses_of rollno (stored w) →
  fst (display_student_tutorials by_subject_then_newest rollno w')
  = fst (display_student_tutorials by_subject_then_newest rollno w).
Proof.
  intros Heq. rewrite !display_student_tutorials_run. cbn [fst]. by rewrite Heq.
Qed.

End EveryCourseOnce.

Section EveryCourseOnceTheorem.

Context {RT : Runtime}.

(** X18.  When the warehouse answers the query with the matching rows in
    some order, [display_student_tutorials] returns the nothing-found
    sentence exactly for a roll number without stored recommendation;
    otherwise its text is the heading followed by sections of pairwise
    different subjects, none of them empty, each holding courses of its
    subject only, and the sections together hold every stored
    recommendation of the roll number (as the dict the query makes of it)
    exactly once. *)
Theorem display_lists_every_course_once
    (by_subject_then_newest : list Recommendation.row → list Recommendation.row)
    (rollno : Z) (w : world) :
  (∀ rows, by_subject_then_newest rows ≡ₚ rows) →
  let shown := fst (display_student_tutorials by_subject_then_newest rollno w) in
  (shown = Ok (nothing_found rollno) ↔ courses_of rollno (stored w) = []) ∧
  (courses_of rollno (stored w) ≠ [] →
   ∃ sections : list (string * list Recommendation.row),
     shown = Ok (heading rollno +:+
                 joined ((λ item, subject_section item.1 item.2) <$> sections)) ∧
     NoDup sections.*1 ∧
     (∀ subject tutorials, (subject, tutorials) ∈ sections →
        tutorials ≠ [] ∧
        ∀ c, c ∈ tutorials → Recommendation.VideoSubject c = subject) ∧
     concat sections.*2 ≡ₚ course_dict <$> courses_of rollno (stored w)).
Proof.
  intros Hperm. cbn zeta. split.
  - by apply nothing_found_iff.
  - by apply listing_sections.
Qed.

End EveryCourseOnceTheorem.

Import CourseValidation.

Section SaveThenDisplay.

Lemma courses_after_save (clock : nat → string) (rollno : Z) (student_name : string)
    (validated_videos : list (gmap string string)) (w : world) :
  let w' := snd (save_validated_videos clock rollno student_name validated_videos w) in
  courses_of rollno (stored w')
  = imap (λ i, built_row (clock i) rollno student_name) validated_videos ∧
  ∀ other, other ≠ rollno →
    courses_of other (stored w') = courses_of other (stored w).
Proof.
  cbn zeta.
  assert (snd (save_validated_videos clock rollno student_name validated_videos w)
          = snd (save_loop clock 0 rollno student_name validated_videos
                   (snd (delete_student_courses rollno w)))) as ->.
  { unfold save_validated_videos, bind.
    destruct (delete_student_courses rollno w) as [[[]|e] w1] eqn:Hd;
      [| by rewrite delete_student_courses_run in Hd].
    cbn [snd]. rewrite save_loop_run. reflexivity. }
  rewrite save_loop_run, delete_student_courses_run. cbn [snd stored].
  unfold courses_of, set_recommendations.
  cbn [recommendations students teachers employees test_results].
  split.
  - rewrite filter_app, filter_none, app_nil_l.
    + apply filter_all. intros r Hr. by eapply built_rows_key.
    + intros r [Hr _]%list_elem_of_filter. done.
  - intros other Hother. rewrite filter_app.
    rewrite (filter_none _ (imap _ _)), app_nil_r.
    + apply filter_within. intros r ->. done.
    + intros r Hr Hk. apply Hother. rewrite <- Hk.
      by eapply built_rows_key.
Qed.

Lemma courses_after_delete (rollno : Z) (w : world) :
  let w' := snd (delete_student_courses rollno w) in
  courses_of rollno (stored w') = [] ∧
  ∀ other, other ≠ rollno →
    courses_of other (stored w') = courses_of other (stored w).
Proof.
  cbn zeta. rewrite delete_student_courses_run. cbn [snd stored].
  unfold courses_of, set_recommendations.
  cbn [recommendations students teachers employees test_results].
  split.
  - apply filter_none. intros r [Hr _]%list_elem_of_filter. done.
  - intros other Hother. apply filter_within. intros r ->. done.
Qed.

Context {RT : Runtime}.

(** X19.  Saving and listing fit together.  When the warehouse answers the
    query with the matching rows in some order: after
    [save_validated_videos] for a roll number, [display_student_tutorials]
    for it returns the nothing-found sentence exactly when the saved list
    was empty, and for a saved list that is not empty it returns the
    heading followed by sections that together hold exactly the rows built
    from the saved videos, each once; after [delete_student_courses] it
    returns the nothing-found sentence; and for every other roll number
    the listing is what it was before the save and before the delete. *)
Theorem listing_follows_save_and_delete
    (by_subject_then_newest : list Recommendation.row → list Recommendation.row)
    (clock : nat → string) (rollno : Z) (student_name : string)
    (validated_videos : list (gmap string string)) (w : world) :
  (∀ rows, by_subject_then_newest rows ≡ₚ rows) →
  let display := display_student_tutorials by_subject_then_newest in
  let saved := snd (save_validated_videos clock rollno student_name
                      validated_videos w) in
  let deleted := snd (delete_student_courses rollno w) in
  (fst (display rollno saved) = Ok (nothing_found rollno) ↔ validated_videos = []) ∧
  (validated_videos ≠ [] →
   ∃ sections : list (string * list Recommendation.row),
     fst (display rollno saved)
     = Ok (heading rollno +:+
           joined ((λ item, subject_section item.1 item.2) <$> sections)) ∧
     concat sections.*2
     ≡ₚ course_dict
          <$> imap (λ i, built_row (clock i) rollno student_name)
                validated_videos) ∧
  fst (display rollno deleted) = Ok (nothing_found rollno) ∧
  (∀ other, other ≠ rollno →
     fst (display other saved) = fst (display other w) ∧
     fst (display other deleted) = fst (display other w)).
Proof.
  intros Hperm. cbn zeta.
  destruct (courses_after_save clock rollno student_name validated_videos w)
    as [Hsaved Hsaved_other].
  destruct (courses_after_delete rollno w) as [Hdeleted Hdeleted_other].
  split; [| split; [| split]].
  - rewrite (nothing_found_iff _ Hperm), Hsaved.
    destruct validated_videos; [done |]. split; discriminate.
  - intros Hne.
    destruct (listing_sections _ Hperm rollno
                (snd (save_validated_videos clock rollno student_name
                        validated_videos w)))
      as (sections & Hshown & _ & _ & Hall).
    { rewrite Hsaved. by destruct validated_videos. }
    exists sections. split; [exact Hshown |]. by rewrite <- Hsaved.
  - by apply (nothing_found_iff _ Hperm).
  - intros other Hother. split; apply display_depends_on_the_courses; auto.
Qed.

End SaveThenDisplay.

Import Evaluation ResultQueries.

Section ResultFacts.

Context {RT : Runtime}.

Variable newest_first : list TestResult.row → list TestResult.row.

Lemma store_results_run (timestamp : string) (rollno : Z) (subject : string)
    (quiz_score evaluated_score : Z) (w : world) :
  store_results timestamp rollno subject quiz_score evaluated_score w
  = (Ok tt,
     mk_world
       (set_test_results
          (λ rows, rows ++ [TestResult.mk rollno subject quiz_score evaluated_score
                              (total_score quiz_score evaluated_score) timestamp])
          (stored w))
       (jobs w ++ [INSERT test_results_table])).
Proof. reflexivity. Qed.

Lemma get_student_results_run (rollno : Z) (w : world) :
  get_student_results newest_first rollno w
  = (Ok (result_dict
           <$> newest_first
                 (filter (λ r, TestResult.RollNo r = rollno)
                    (test_results (stored w)))),
     logged (SELECT test_results_table) w).
Proof. reflexivity. Qed.

Lemma get_subject_performance_run (rollno : Z) (subject : string) (w : world) :
  get_subject_performance newest_first rollno subject w
  = (Ok (result_dict
           <$> newest_first
                 (filter (λ r, TestResult.RollNo r = rollno ∧
                               TestResult.Subject r = subject)
                    (test_results (stored w)))),
     logged (SELECT test_results_table) w).
Proof. reflexivity. Qed.

End ResultFacts.

Section ResultTheorems.

Context {RT : Runtime}.

(** X20.  A stored test result is retrieved.  When the warehouse answers
    the queries with the matching rows in some order: [store_results]
    completes; afterwards [get_student_results] for the roll number holds
    the results it held before and one more, the new result with the total
    score [store_results] computed, and so does [get_subject_performance]
    for the roll number and the subject; the results of every other roll
    number and of every other subject are the same list as before; and the
    results [get_subject_performance] answers are those of
    [get_student_results] that have the subject. *)
Theorem stored_result_is_retrieved
    (newest_first : list TestResult.row → list TestResult.row)
    (timestamp : string) (rollno : Z) (subject : string)
    (quiz_score evaluated_score : Z) (w : world) :
  (∀ rows, newest_first rows ≡ₚ rows) →
  let w' := snd (store_results timestamp rollno subject quiz_score
                   evaluated_score w) in
  let result := result_dict
                  (TestResult.mk rollno subject quiz_score evaluated_score
                     (total_score quiz_score evaluated_score) timestamp) in
  fst (store_results timestamp rollno subject quiz_score evaluated_score w) = Ok tt ∧
  (∃ before after,
     fst (get_student_results newest_first rollno w) = Ok before ∧
     fst (get_student_results newest_first rollno w') = Ok after ∧
     after ≡ₚ result :: before) ∧
  (∃ before after,
     fst (get_subject_performance newest_first rollno subject w) = Ok before ∧
     fst (get_subject_performance newest_first rollno subject w') = Ok after ∧
     after ≡ₚ result :: before) ∧
  (∀ other, other ≠ rollno →
     fst (get_student_results newest_first other w')
     = fst (get_student_results newest_first other w)) ∧
  (∀ other, other ≠ subject →
     fst (get_subject_performance newest_first rollno other w')
     = fst (get_subject_performance newest_first rollno other w)) ∧
  (∀ r s (v : world), ∃ every part,
     fst (get_student_results newest_first r v) = Ok every ∧
     fst (get_subject_performance newest_first r s v) = Ok part ∧
     part ≡ₚ filter (λ x, TestResult.Subject x = s) every).
Proof.
  intros Hperm. cbn zeta. rewrite store_results_run. cbn [fst snd].
  split; [done |].
  rewrite !get_student_results_run, !get_subject_performance_run.
  cbn [fst stored]. unfold set_test_results.
  cbn [recommendations students teachers employees test_results].
  split; [| split; [| split; [| split]]].
  - eexists _, _. split; [reflexivity |]. split; [reflexivity |].
    rewrite !Hperm, filter_app, filter_cons, filter_nil.
    rewrite decide_True by done.
    rewrite fmap_app. symmetry. apply Permutation_cons_append.
  - eexists _, _. split; [reflexivity |]. split; [reflexivity |].
    rewrite !Hperm, filter_app, filter_cons, filter_nil.
    rewrite decide_True by done.
    rewrite fmap_app. symmetry. apply Permutation_cons_append.
  - intros other Hother. rewrite !get_student_results_run. cbn [fst stored].
    cbn [recommendations students teachers employees test_results].
    rewrite filter_app, filter_cons, filter_nil.
    rewrite decide_False by (cbn; congruence). by rewrite app_nil_r.
  - intros other Hother. rewrite !get_subject_performance_run. cbn [fst stored].
    cbn [recommendations students teachers employees test_results].
    rewrite filter_app, filter_cons, filter_nil.
    rewrite decide_False by (cbn; intros [_ ?]; congruence).
    by rewrite app_nil_r.
  - intros r s v. eexists _, _.
    rewrite get_student_results_run, get_subject_performance_run. cbn [fst].
    split; [reflexivity |]. split; [reflexivity |].
    rewrite !Hperm, filter_fmap, list_filter_filter.
    apply reflexive_eq. f_equal.
    apply list_filter_iff. intros x. cbn. tauto.
Qed.

End ResultTheorems.

Section CoursesBySubject.

Context {RT : Runtime}.

(** X21.  [get_courses_by_subject] agrees with [get_courses_for_student].
    When the warehouse answers each query with the matching rows in some
    order, the courses answered for a roll number and a subject are, up to
    their order, the courses of that subject among those answered for the
    roll number, that is the stored recommendations with this roll number
    and this subject (each as the dict the query makes of it); neither
    query changes a table. *)
Theorem courses_by_subject_are_the_courses_of_the_subject
    (by_subject_then_newest newest_first
       : list Recommendation.row → list Recommendation.row)
    (rollno : Z) (subject : string) (w : world) :
  (∀ rows, by_subject_then_newest rows ≡ₚ rows) →
  (∀ rows, newest_first rows ≡ₚ rows) →
  ∃ every part,
    get_courses_for_student by_subject_then_newest rollno w
    = (Ok every, logged (SELECT recommendations_table) w) ∧
    get_courses_by_subject newest_first rollno subject w
    = (Ok part, logged (SELECT recommendations_table) w) ∧
    part ≡ₚ of_subject subject every ∧
    (∀ c, c ∈ part ↔
          ∃ r, c = course_dict r ∧
               r ∈ recommendations (stored w) ∧
               Recommendation.RollNo r = rollno ∧
               Recommendation.VideoSubject r = subject).
Proof.
  intros Hall Hpart. eexists _, _.
  split; [reflexivity |]. split; [reflexivity |]. split.
  - unfold of_subject, courses_of.
    rewrite Hpart, Hall, filter_fmap, list_filter_filter.
    apply reflexive_eq. f_equal.
    apply list_filter_iff. intros x. cbn. tauto.
  - intros c. rewrite Hpart, list_elem_of_fmap.
    split.
    + intros (r & -> & [[Hk Hs] Hr]%list_elem_of_filter). by exists r.
    + intros (r & -> & Hr & Hk & Hs). exists r. split; [done |].
      by apply list_elem_of_filter.
Qed.

End CoursesBySubject.

Section AnswerOrder.

Variable precedes : string → string → Prop.
Hypothesis precedes_antisymmetric : ∀ a b, precedes a b → precedes b a → a = b.

Lemma sorted_filter {A} (R : A → A → Prop) (P : A → Prop) `{∀ x, Decision (P x)}
    (l : list A) :
  StronglySorted R l → StronglySorted R (filter P l).
Proof.
  induction 1 as [|x l Hl IH Hx]; [constructor |].
  rewrite filter_cons. destruct (decide (P x)); [| done].
  constructor; [done |]. apply Forall_forall. intros y [_ Hy]%list_elem_of_filter.
  rewrite Forall_forall in Hx. by apply Hx.
Qed.

Lemma sections_of_a_smaller_subject (s : string) (l : list Recommendation.row) :
  StronglySorted (by_subject precedes) l →
  Forall (λ b, precedes s (Recommendation.VideoSubject b)) l →
  of_subject s l ++
  concat ((λ k, of_subject k l)
            <$> filter (λ k, k ≠ s) (first_seen (Recommendation.VideoSubject <$> l)))
  = concat ((λ k, of_subject k l) <$> first_seen (Recommendation.VideoSubject <$> l)).
Proof.
  intros Hsorted Hs. destruct l as [|c l]; [done |].
  rewrite fmap_cons. cbn [first_seen].
  destruct (decide (Recommendation.VideoSubject c = s)) as [Heq|Hne].
  - rewrite Heq, filter_cons, decide_False by (intros ?; done).
    rewrite filter_within by done. reflexivity.
  - assert (of_subject s (c :: l) = []) as ->.
    { apply filter_none. intros x Hx Hsx.
      apply StronglySorted_inv in Hsorted as [_ Hc].
      rewrite Forall_forall in Hs. rewrite Forall_forall in Hc.
      apply elem_of_cons in Hx as [->|Hx]; [done |].
      apply Hne, precedes_antisymmetric.
      - rewrite <- Hsx. by apply Hc.
      - apply Hs. left. }
    rewrite app_nil_l. f_equal. f_equal. apply filter_all.
    intros k Hk ->.
    change (s ∈ first_seen (Recommendation.VideoSubject <$> c :: l)) in Hk.
    apply first_seen_elem, list_elem_of_fmap in Hk as (x & Hsx & Hx).
    apply StronglySorted_inv in Hsorted as [_ Hc].
    rewrite Forall_forall in Hs. rewrite Forall_forall in Hc.
    apply elem_of_cons in Hx as [->|Hx]; [done |].
    apply Hne, precedes_antisymmetric.
    + rewrite Hsx. by apply Hc.
    + apply Hs. left.
Qed.

Lemma sections_in_answer_order (courses : list Recommendation.row) :
  StronglySorted (by_subject precedes) courses →
  concat ((λ k, of_subject k courses)
            <$> first_seen (Recommendation.VideoSubject <$> courses))
  = courses.
Proof.
  induction 1 as [|c l Hl IH Hc]; [done |].
  rewrite fmap_cons. cbn [first_seen fmap list_fmap concat].
  set (s := Recommendation.VideoSubject c).
  assert (of_subject s (c :: l) = c :: of_subject s l) as ->.
  { unfold of_subject. by rewrite filter_cons, decide_True. }
  assert ((λ k, of_subject k (c :: l))
            <$> filter (λ k, k ≠ s) (first_seen (Recommendation.VideoSubject <$> l))
          = (λ k, of_subject k l)
              <$> filter (λ k, k ≠ s) (first_seen (Recommendation.VideoSubject <$> l)))
    as ->.
  { apply list_fmap_ext. intros _ k [Hk _]%list_elem_of_lookup_2%list_elem_of_filter.
    unfold of_subject. rewrite filter_cons, decide_False; [done |].
    intros ?. by apply Hk. }
  cbn [app]. f_equal.
  rewrite sections_of_a_smaller_subject; done.
Qed.

Lemma subjects_in_answer_order (courses : list Recommendation.row) :
  StronglySorted (by_subject precedes) courses →
  StronglySorted precedes (first_seen (Recommendation.VideoSubject <$> courses)).
Proof.
  induction 1 as [|c l Hl IH Hc]; [constructor |].
  rewrite fmap_cons. cbn [first_seen]. constructor.
  - by apply sorted_filter.
  - apply Forall_forall. intros k [_ Hk]%list_elem_of_filter.
    apply first_seen_elem, list_elem_of_fmap in Hk as (x & -> & Hx).
    rewrite Forall_forall in Hc. by apply Hc.
Qed.

End AnswerOrder.

(** X22.  On an answer that is sorted by subject, as the ORDER BY of the
    query has it, the grouping of [display_student_tutorials] keeps the
    order of the answer: the dict it builds lists the subjects in sorted
    order, and its lists of tutorials, one after the other, are the
    answer itself. *)
Theorem listing_keeps_the_order_of_the_answer
    (precedes : string → string → Prop) (courses : list Recommendation.row) :
  (∀ a b, precedes a b → precedes b a → a = b) →
  StronglySorted (by_subject precedes) courses →
  concat (foldl group_step [] courses).*2 = courses ∧
  StronglySorted precedes (foldl group_step [] courses).*1.
Proof.
  intros Hanti Hsorted. rewrite grouping_run, <- !list_fmap_compose.
  unfold compose. cbn [fst snd]. rewrite list_fmap_id. split.
  - by apply (sections_in_answer_order precedes Hanti).
  - by apply subjects_in_answer_order.
Qed.

Section FilterOutcome.

Variable http_head : string → response.

Lemma passes_iff (link : string) :
  passes http_head link = true
  ↔ str_truthy link = true ∧
    has_host_marker (canonical link) = true ∧
    http_head (canonical link) = Status 200.
Proof.
  split.
  - intros (url & Hreq & H200)%passes_request.
    apply request_of_Some in Hreq as (Ht & -> & Hm). done.
  - intros (Ht & Hm & H200). unfold passes, request_of.
    rewrite Ht, Hm. cbn [andb]. by rewrite H200.
Qed.

(** X24.  What [filter_videos_with_valid_links] does on every input.  A
    candidate passes exactly when its link is not empty and the
    normalised link holds a host marker and is answered with status 200.
    When no request lets an exception through, the call returns the
    candidates of the input list that pass, in their input order and
    nothing else, hence a subsequence of the input; a returned object is
    the input object with its link replaced by the normalised one, which
    was answered with 200, and an object that is not returned is left as
    it was; for a list of two, the first without host marker and the
    second passing, the result is the second alone.  Otherwise the call
    raises what the first such request lets through. *)
Theorem filter_keeps_the_passing_or_raises
    (h : gmap nat (gmap string string)) (videos : list nat) :
  (∀ link,
     passes http_head link = true
     ↔ str_truthy link = true ∧
       has_host_marker (canonical link) = true ∧
       http_head (canonical link) = Status 200) ∧
  ((∀ v, v ∈ videos → leaks http_head (link_of h v) = None) →
   ∃ h' out,
     filter_videos_with_valid_links http_head h videos = Ok (h', out) ∧
     out = filter (λ v, passes http_head (link_of h v) = true) videos ∧
     sublist out videos ∧
     (∀ v, v ∈ out ↔ v ∈ videos ∧ passes http_head (link_of h v) = true) ∧
     (∀ v, v ∈ out →
        link_of h' v = canonical (link_of h v) ∧
        http_head (link_of h' v) = Status 200) ∧
     (∀ v, v ∉ out → h' !! v = h !! v) ∧
     (∀ v, v ∈ out → h' !! v = Some (rewritten h v)) ∧
     (∀ v1 v2, videos = [v1; v2] →
        has_host_marker (link_of h v1) = false →
        passes http_head (link_of h v2) = true →
        out = [v2])) ∧
  (∀ before v after e,
     videos = before ++ v :: after →
     (∀ u, u ∈ before → leaks http_head (link_of h u) = None) →
     leaks http_head (link_of h v) = Some e →
     filter_videos_with_valid_links http_head h videos = Raise e).
Proof.
  split; [apply passes_iff |]. split.
  - intros Hquiet.
    destruct (filter_run http_head h videos Hquiet) as (h' & Hrun & Hm).
    exists h', (filter (λ v, passes http_head (link_of h v) = true) videos).
    split; [exact Hrun |]. split; [done |].
    split; [apply sublist_filter |].
    split; [intros v; rewrite list_elem_of_filter; tauto |].
    split; [| split; [| split]].
    + intros v [Hp Hin]%list_elem_of_filter.
      assert (link_of h' v = canonical (link_of h v)) as Hlink.
      { eapply link_of_rewritten. by apply (Hm v). }
      split; [exact Hlink |]. rewrite Hlink. by apply passes_iff in Hp as (_ & _ & ?).
    + intros v Hout. apply (Hm v). intros Hin. apply Hout.
      rewrite list_elem_of_filter. tauto.
    + intros v Hout. apply (Hm v). rewrite list_elem_of_filter in Hout. tauto.
    + intros v1 v2 -> Hno Hyes.
      rewrite filter_cons, decide_False; last first.
      { intros Hp. apply passes_marker in Hp. congruence. }
      rewrite filter_cons, decide_True by done. done.
  - intros before v after e -> Hquiet He. by apply filter_raise.
Qed.

End FilterOutcome.

Section SampleRuns.

#[local] Existing Instance Sample.runtime.

Lemma save_then_show_witness :
  ∃ w1 w2 profile,
    StudentAgent.save_student_data "2025-02-01 15:30:00" "2025-02-01T10:00:00"
      102 "Meena" 6 "Tamil" 55 0 61 48 90 70 Sample.classroom
    = (Ok (StudentAgent.State_reply "success" StudentAgent.Profile_saved), w1) ∧
    StudentAgent.show_student_data 102 w1
    = (Ok (StudentAgent.Status_reply "success" (StudentAgent.Profile profile)), w2) ∧
    profile !! "Maths" = Some (VInt 48) ∧
    profile !! "TimeStamp" = Some (VStr (str_of_timestamp "2025-02-01 15:30:00")).
Proof.
  destruct (save_then_show "2025-02-01 15:30:00" "2025-02-01T10:00:00" 102 "Meena" 6
              "Tamil" 55 0 61 48 90 70 Sample.classroom)
    as (w1 & Hsave & Hshow & _).
  - intros r Hr. apply list_elem_of_In in Hr. cbn in Hr.
    destruct Hr as [<-|[]]. discriminate.
  - eexists w1, _, _. split; [exact Hsave |]. split; [exact Hshow |].
    split; reflexivity.
Defined.

Lemma save_then_view_teacher_witness :
  ∃ w1 w2,
    TeacherAgent.save_teacher_profile "2025-02-01T10:00:00" 502 "Kiran" [7; 8]
      "Science" Sample.classroom
    = (Ok (Reply true (Teacher_profile_created "Kiran")), w1) ∧
    TeacherAgent.view_teacher_profile 502 w1
    = (Ok (TeacherAgent.Status_reply "success"
             (TeacherAgent.Teacher_profile
                (Teacher.mk 502 "Kiran" [7; 8] "Science"
                   (isoformat_of_timestamp "2025-02-01T10:00:00")))),
       w2).
Proof.
  destruct (save_then_view_teacher "2025-02-01T10:00:00" 502 "Kiran" [7; 8]
              "Science" Sample.classroom)
    as (w1 & Hsave & Hview & _).
  - intros r Hr. apply list_elem_of_In in Hr. cbn in Hr.
    destruct Hr as [<-|[]]. discriminate.
  - eexists w1, _. split; [exact Hsave | exact Hview].
Defined.

(** The exact mean and its exact rounding keep a mean between the
    values. *)
Lemma exact_mean_between : mean_between_the_values.
Proof.
  split.
  - intros l lo hi Hne Hall. cbn [float_avg Sample.runtime].
    unfold Sample.exact_mean.
    pose proof (sum_Z_bounds lo hi l Hall) as Hsum.
    assert (0 < Z.of_nat (length l)) as Hn by (destruct l; [done | cbn [length]; lia]).
    generalize dependent (sum_Z l). generalize dependent (Z.of_nat (length l)).
    intros n Hn sm Hsm.
    destruct n as [|p|p]; [lia | | lia].
    unfold Qle, Qdiv, Qmult, Qinv, inject_Z. cbn. lia.
  - intros a lo hi Hlo Hhi. cbn [float_round2 Sample.runtime].
    by apply py_round2_bounds.
Qed.


Lemma weak_subjects_raise_on_a_null_score_witness :
  let kiran := Student.mk 7 "Kiran" 5 "Telugu" (Some 40) (Some 50) (Some 60)
                 None (Some 70) (Some 80) None in
  let w := mk_world (mk_tables [kiran] [] [] [] []) [] in
  fst (StudentDatabase.get_weak_subjects 7 60 w) = Raise TypeError.
Proof.
  intros kiran w.
  refine (proj1 (weak_subjects_raise_on_a_null_score 7 60 w kiran "Maths"
                   Student.Maths eq_refl _ eq_refl)).
  unfold score_columns. do 3 apply list_elem_of_further. apply list_elem_of_here.
Defined.

Lemma weak_subjects_grow_with_the_threshold_witness :
  ∃ fewer more,
    fst (StudentDatabase.get_weak_subjects 101 50 Sample.classroom) = Ok fewer ∧
    fst (StudentDatabase.get_weak_subjects 101 60 Sample.classroom) = Ok more ∧
    fewer `sublist_of` more.
Proof.
  destruct (weak_subjects_grow_with_the_threshold 101 50 60 Sample.classroom
              Sample.rahul eq_refl rahul_recorded ltac:(lia))
    as (fewer & more & H1 & H2 & H3 & _).
  by exists fewer, more.
Defined.

Lemma display_lists_every_course_once_witness :
  ∃ sections : list (string * list Recommendation.row),
    fst (display_student_tutorials (λ rows, rows) 101 Sample.library)
    = Ok (heading 101 +:+
          joined ((λ item, subject_section item.1 item.2) <$> sections)) ∧
    NoDup sections.*1 ∧
    concat sections.*2
    ≡ₚ course_dict <$> [Sample.fractions; Sample.plants; Sample.decimals].
Proof.
  destruct (proj2 (display_lists_every_course_once (λ rows, rows) 101
                     Sample.library (λ rows, reflexivity rows)))
    as (sections & Hshown & Hdistinct & _ & Hall).
  - discriminate.
  - exists sections. split; [exact Hshown |]. split; [exact Hdistinct | exact Hall].
Defined.

Lemma listing_follows_save_and_delete_witness :
  let saved :=
    snd (save_validated_videos (λ _, "2025-02-01T10:00:00") 101 "Rahul Kumar"
           Sample.validated Sample.library) in
  fst (display_student_tutorials (λ rows, rows) 101 saved)
  ≠ Ok (nothing_found 101) ∧
  (∃ sections : list (string * list Recommendation.row),
     fst (display_student_tutorials (λ rows, rows) 101 saved)
     = Ok (heading 101 +:+
           joined ((λ item, subject_section item.1 item.2) <$> sections)) ∧
     concat sections.*2
     ≡ₚ course_dict
          <$> imap (λ i, built_row "2025-02-01T10:00:00" 101 "Rahul Kumar")
                Sample.validated) ∧
  fst (display_student_tutorials (λ rows, rows) 103 saved)
  = fst (display_student_tutorials (λ rows, rows) 103 Sample.library).
Proof.
  intros saved.
  destruct (listing_follows_save_and_delete (λ rows, rows)
              (λ _, "2025-02-01T10:00:00") 101 "Rahul Kumar" Sample.validated
              Sample.library (λ rows, reflexivity rows))
    as (Hiff & Hsections & _ & Hother).
  split; [| split].
  - intros Hnothing. apply Hiff in Hnothing. discriminate Hnothing.
  - apply Hsections. discriminate.
  - apply (Hother 103). discriminate.
Defined.

Lemma stored_result_is_retrieved_witness :
  ∃ before after,
    fst (get_student_results (λ rows, rows) 101 Sample.classroom) = Ok before ∧
    fst (get_student_results (λ rows, rows) 101
           (snd (store_results "2025-02-01 10:00:00" 101 "Maths" 81 60
                   Sample.classroom))) = Ok after ∧
    after ≡ₚ result_dict
               (TestResult.mk 101 "Maths" 81 60 (total_score 81 60)
                  "2025-02-01 10:00:00") :: before.
Proof.
  exact (proj1 (proj2 (stored_result_is_retrieved (λ rows, rows)
                         "2025-02-01 10:00:00" 101 "Maths" 81 60 Sample.classroom
                         (λ rows, reflexivity rows)))).
Defined.

Lemma courses_by_subject_are_the_courses_of_the_subject_witness :
  ∃ every part,
    get_courses_for_student (λ rows, rows) 101 Sample.library
    = (Ok every, logged (SELECT recommendations_table) Sample.library) ∧
    get_courses_by_subject (λ rows, rows) 101 "Maths" Sample.library
    = (Ok part, logged (SELECT recommendations_table) Sample.library) ∧
    part ≡ₚ of_subject "Maths" every ∧
    course_dict Sample.decimals ∈ part ∧
    (course_dict Sample.plants ∈ every) ∧
    (course_dict Sample.plants ∉ part).
Proof.
  destruct (courses_by_subject_are_the_courses_of_the_subject
              (λ rows, rows) (λ rows, rows) 101 "Maths" Sample.library
              (λ rows, reflexivity rows) (λ rows, reflexivity rows))
    as (every & part & Hevery & Hpart & Hperm & Hiff).
  exists every, part. split; [exact Hevery |]. split; [exact Hpart |].
  split; [exact Hperm |]. split; [| split].
  - apply Hiff. exists Sample.decimals. split; [done |].
    split; [| done]. apply list_elem_of_In. cbn. tauto.
  - injection Hevery as <-. apply list_elem_of_In. cbn. tauto.
  - intros (r & Heq & _ & _ & Hsubject)%Hiff.
    assert (Recommendation.VideoSubject (course_dict Sample.plants)
            = Recommendation.VideoSubject (course_dict r)) as Hs by (by rewrite Heq).
    cbn in Hs. rewrite Hsubject in Hs. discriminate Hs.
Defined.

Lemma listing_keeps_the_order_of_the_answer_witness :
  let answer := [Sample.decimals; Sample.fractions; Sample.plants] in
  concat (foldl group_step [] answer).*2 = answer ∧
  (foldl group_step [] answer).*1 = ["Maths"; "Science"].
Proof.
  intros answer.
  destruct (listing_keeps_the_order_of_the_answer
              (λ a b, String.leb a b = true) answer) as [Hconcat _].
  - exact String.leb_antisym.
  - repeat constructor.
  - split; [exact Hconcat | reflexivity].
Defined.

Lemma filter_keeps_the_passing_or_raises_witness :
  ∃ h',
    filter_videos_with_valid_links Sample.always_200 Sample.two_videos
      [0%nat; 1%nat]
    = Ok (h', [1%nat]).
Proof.
  destruct (proj1 (proj2 (filter_keeps_the_passing_or_raises Sample.always_200
                            Sample.two_videos [0%nat; 1%nat])))
    as (h' & out & Hrun & _ & _ & _ & _ & _ & _ & Htwo).
  - intros v _. unfold leaks. by destruct (request_of _).
  - exists h'. rewrite Hrun.
    rewrite (Htwo 0%nat 1%nat eq_refl); [reflexivity | reflexivity | reflexivity].
Defined.

End SampleRuns.
